(** * Date resolution of the calendar-event manager

    Shallow embedding of the date resolver of [server/routes.ts]
    ([calculateNthDate], [calculateRelativeDate], [calculateEventDate]) over a
    model of the JavaScript [Date] built-in.

    Modelling conventions.
    - A [Date] object is a mutable cell of a heap holding its time value:
      milliseconds since the epoch in UTC, or [NaN] for an Invalid Date.
      The abstract operations on time values ([Day], [YearFromTime],
      [MakeDay], [TimeClip], ...) follow the ECMAScript language
      specification, section "Date Objects".
    - The local time zone is a constant offset [tza] in milliseconds
      (no daylight-saving transitions); the system clock is the time value
      [now].
    - JavaScript numbers are restricted to integers ([Z]) and [NaN];
      fractions, infinities and rounding of doubles are outside the model.
    - Strings are sequences of code units below 256.
    - Loops and the recursion of [calculateEventDate] take a fuel; running
      out of fuel is the completion [Diverge], which no [try] catches.

    The part [Further code] embeds what surrounds the resolver: the class
    [MemStorage] of [server/storage.ts], the bulk routes and the calendar
    export of [server/routes.ts], and the client's copies of the resolver
    and of the calendar file ([client/src/lib/date-utils.ts],
    [client/src/lib/ics-export.ts]).
    - The [Map] of [MemStorage] is the list of its entries in insertion
      order.
    - What the language leaves to the implementation is a parameter: the
      order [Array.prototype.sort] gives ([sortByCreatedAt], only assumed to
      permute its input where a proof needs it) and [Date.parse]
      ([dateParse]).
    - The RangeError of [toISOString] is the result [None]. *)

From Stdlib Require Import ZArith Lia Bool Ascii String.
From stdpp Require Import base list strings.

Local Open Scope Z_scope.

(** ** ECMAScript time values *)

Module ES.

Definition msPerDay : Z := 86400000.

Definition Day (t : Z) : Z := t / msPerDay.
Definition TimeWithinDay (t : Z) : Z := t mod msPerDay.

Definition DaysInYear (y : Z) : Z :=
  if negb (y mod 4 =? 0) then 365
  else if negb (y mod 100 =? 0) then 366
  else if negb (y mod 400 =? 0) then 365
  else 366.

Definition DayFromYear (y : Z) : Z :=
  365 * (y - 1970) + (y - 1969) / 4 - (y - 1901) / 100 + (y - 1601) / 400.

Definition TimeFromYear (y : Z) : Z := msPerDay * DayFromYear y.

(** The specification defines [YearFromTime t] as the largest [y] with
    [TimeFromYear y <= t].  It is computed here from an estimate that is off
    by at most one; [YearFromDay_spec] below proves the characterisation. *)
Definition YearFromDay (d : Z) : Z :=
  let y := 1970 + (400 * d) / 146097 in
  if DayFromYear (y + 1) <=? d then y + 1
  else if d <? DayFromYear y then y - 1
  else y.

Definition YearFromTime (t : Z) : Z := YearFromDay (Day t).

Definition InLeapYear (t : Z) : Z :=
  if DaysInYear (YearFromTime t) =? 366 then 1 else 0.

Definition DayWithinYear (t : Z) : Z := Day t - DayFromYear (YearFromTime t).

(** Number of days of the year before month [m] (0 = January). *)
Definition monthStart (leap m : Z) : Z :=
  match m with
  | 0 => 0
  | 1 => 31
  | 2 => 59 + leap
  | 3 => 90 + leap
  | 4 => 120 + leap
  | 5 => 151 + leap
  | 6 => 181 + leap
  | 7 => 212 + leap
  | 8 => 243 + leap
  | 9 => 273 + leap
  | 10 => 304 + leap
  | 11 => 334 + leap
  | _ => 365 + leap
  end.

Definition MonthFromTime (t : Z) : Z :=
  let d := DayWithinYear t in
  let leap := InLeapYear t in
  if d <? 31 then 0
  else if d <? 59 + leap then 1
  else if d <? 90 + leap then 2
  else if d <? 120 + leap then 3
  else if d <? 151 + leap then 4
  else if d <? 181 + leap then 5
  else if d <? 212 + leap then 6
  else if d <? 243 + leap then 7
  else if d <? 273 + leap then 8
  else if d <? 304 + leap then 9
  else if d <? 334 + leap then 10
  else 11.

Definition DateFromTime (t : Z) : Z :=
  DayWithinYear t - monthStart (InLeapYear t) (MonthFromTime t) + 1.

Definition WeekDay (t : Z) : Z := (Day t + 4) mod 7.

(** [MakeDay year month date]: the day number of the first of the month
    [(year + month / 12, month mod 12)], plus [date - 1]. *)
Definition MakeDay (year month date : Z) : Z :=
  let ym := year + month / 12 in
  let mn := month mod 12 in
  let leap := if DaysInYear ym =? 366 then 1 else 0 in
  DayFromYear ym + monthStart leap mn + date - 1.

Definition MakeDate (day time : Z) : Z := day * msPerDay + time.

Definition maxTime : Z := 8640000000000000.

(** [TimeClip]: [None] is [NaN]. *)
Definition TimeClip (t : Z) : option Z :=
  if Z.abs t <=? maxTime then Some t else None.

(** Days in month [m] (0-based) of year [y]. *)
Definition DaysInMonth (y m : Z) : Z :=
  let leap := if DaysInYear y =? 366 then 1 else 0 in
  monthStart leap (m + 1) - monthStart leap m.

End ES.


(** ** JavaScript numbers, strings and completions *)

(** A number is an integer or [NaN]. *)
Inductive number : Type :=
  | NaN
  | Num (z : Z).

Definition num_add (a : number) (b : Z) : number :=
  match a with
  | NaN => NaN
  | Num x => Num (x + b)
  end.

(** [a !== b] for a number [a] and an integer [b]. *)
Definition strict_ne (a : number) (b : Z) : bool :=
  match a with
  | NaN => true
  | Num x => negb (x =? b)
  end.

(** [s.split(sep)] for a one-character separator. *)
Fixpoint split (sep : ascii) (s : string) : list string :=
  match s with
  | EmptyString => [EmptyString]
  | String c s' =>
      if Ascii.eqb c sep then EmptyString :: split sep s'
      else match split sep s' with
           | piece :: rest => String c piece :: rest
           | [] => [String c EmptyString]
           end
  end.

(** White space skipped by [parseInt] (code units below 256). *)
Definition isWhiteSpace (c : ascii) : bool :=
  let n := Z.of_nat (nat_of_ascii c) in
  ((9 <=? n) && (n <=? 13)) || (n =? 32) || (n =? 160).

Fixpoint trimStart (s : string) : string :=
  match s with
  | String c s' => if isWhiteSpace c then trimStart s' else s
  | EmptyString => EmptyString
  end.

(** Value of a code unit as a digit: 0-9, then a-z and A-Z for 10-35. *)
Definition digitValue (c : ascii) : option Z :=
  let n := Z.of_nat (nat_of_ascii c) in
  if (48 <=? n) && (n <=? 57) then Some (n - 48)
  else if (97 <=? n) && (n <=? 122) then Some (n - 87)
  else if (65 <=? n) && (n <=? 90) then Some (n - 55)
  else None.

(** Longest prefix of radix-[R] digits, as a number; [acc] is [NaN] until a
    digit has been read. *)
Fixpoint parseDigits (R : Z) (acc : number) (s : string) : number :=
  match s with
  | EmptyString => acc
  | String c s' =>
      match digitValue c with
      | Some v =>
          if v <? R then
            parseDigits R (Num (R * (match acc with NaN => 0 | Num a => a end) + v)) s'
          else acc
      | None => acc
      end
  end.

Definition num_neg (a : number) : number :=
  match a with
  | NaN => NaN
  | Num x => Num (- x)
  end.

(** [parseInt(s)] without a radix argument. *)
Definition parseInt (s : string) : number :=
  let S0 := trimStart s in
  let (negative, S1) :=
    match S0 with
    | String "-" r => (true, r)
    | String "+" r => (false, r)
    | _ => (false, S0)
    end in
  let (R, S2) :=
    match S1 with
    | String "0" (String "x" r) => (16, r)
    | String "0" (String "X" r) => (16, r)
    | _ => (10, S1)
    end in
  let n := parseDigits R NaN S2 in
  if negative then num_neg n else n.

(** [parseInt(x)] where [x] may be [undefined]: the string ["undefined"]
    starts with no digit. *)
Definition parseIntU (x : option string) : number :=
  match x with
  | Some s => parseInt s
  | None => NaN
  end.

(** The two errors the resolver's helpers throw. *)
Inductive Error : Type :=
  | NoOccurrence (nthOccurrence : Z)
  | InvalidUnit (unit : string).

Inductive completion (A : Type) : Type :=
  | Normal (a : A)
  | Throw (e : Error)
  | Diverge.
Arguments Normal {A} a.
Arguments Throw {A} e.
Arguments Diverge {A}.

(** ** The heap of Date objects *)

(** A Date object is its index in the heap; the heap lists the time values. *)
Abbreviation loc := nat (only parsing).
Abbreviation heap := (list number) (only parsing).

Definition JS (A : Type) : Type := heap -> completion A * heap.

Definition ret {A} (a : A) : JS A := fun h => (Normal a, h).

Definition bind {A B} (m : JS A) (k : A -> JS B) : JS B :=
  fun h =>
    match m h with
    | (Normal a, h') => k a h'
    | (Throw e, h') => (Throw e, h')
    | (Diverge, h') => (Diverge, h')
    end.

Definition throw {A} (e : Error) : JS A := fun h => (Throw e, h).

Definition diverge {A} : JS A := fun h => (Diverge, h).

(** [try { m } catch { handler }]: a divergence is not caught. *)
Definition try_catch {A} (m : JS A) (handler : JS A) : JS A :=
  fun h =>
    match m h with
    | (Throw _, h') => handler h'
    | r => r
    end.

Declare Scope js_scope.
Delimit Scope js_scope with js.
Notation "'let*' x ':=' m 'in' k" := (bind m (fun x => k))
  (at level 10, x name, m at level 100, k at level 200,
   format "'let*'  x  ':='  m  'in' '//' k") : js_scope.
Notation "m ';;;' k" := (bind m (fun _ => k))
  (at level 100, k at level 200, right associativity) : js_scope.
Local Open Scope js_scope.

(** [while (cond) { body }] *)
Fixpoint while (fuel : nat) (cond : JS bool) (body : JS unit) : JS unit :=
  match fuel with
  | O => diverge
  | S fuel' =>
      let* c := cond in
      if c then body ;;; while fuel' cond body else ret tt
  end.

Section DateObjects.

(** Local time zone adjustment and system clock. *)
Variable tza : Z.
Variable now : Z.

Definition LocalTime (t : Z) : Z := t + tza.
Definition UTC (t : Z) : Z := t - tza.

Definition alloc (tv : number) : JS loc :=
  fun h => (Normal (length h), h ++ [tv]).

Definition thisTimeValue (d : loc) : JS number :=
  fun h => (Normal (default NaN (h !! d)), h).

Definition setTimeValue (d : loc) (tv : number) : JS unit :=
  fun h => (Normal tt, <[d := tv]> h).

Definition clip (t : Z) : number :=
  match ES.TimeClip t with
  | Some u => Num u
  | None => NaN
  end.

(** [new Date()] *)
Definition newDateNow : JS loc := alloc (Num now).

(** [new Date(value)] for a Date object [value] *)
Definition newDateCopy (value : loc) : JS loc :=
  let* tv := thisTimeValue value in alloc tv.

(** [new Date(year, monthIndex, day)] *)
Definition newDateYMD (year monthIndex day : number) : JS loc :=
  match year, monthIndex, day with
  | Num y, Num m, Num dt =>
      let yr := if (0 <=? y) && (y <=? 99) then 1900 + y else y in
      let finalDate := ES.MakeDate (ES.MakeDay yr m dt) 0 in
      alloc (clip (UTC finalDate))
  | _, _, _ => alloc NaN
  end.

Definition getter (f : Z -> Z) (d : loc) : JS number :=
  let* tv := thisTimeValue d in
  match tv with
  | NaN => ret NaN
  | Num t => ret (Num (f (LocalTime t)))
  end.

Definition getDay : loc -> JS number := getter ES.WeekDay.
Definition getDate : loc -> JS number := getter ES.DateFromTime.
Definition getMonth : loc -> JS number := getter ES.MonthFromTime.
Definition getFullYear : loc -> JS number := getter ES.YearFromTime.

(** [d.setDate(date)] *)
Definition setDate (d : loc) (date : number) : JS unit :=
  let* tv := thisTimeValue d in
  match tv with
  | NaN => ret tt
  | Num t0 =>
      let t := LocalTime t0 in
      match date with
      | NaN => setTimeValue d NaN
      | Num dt =>
          let newDate :=
            ES.MakeDate (ES.MakeDay (ES.YearFromTime t) (ES.MonthFromTime t) dt)
                        (ES.TimeWithinDay t) in
          setTimeValue d (clip (UTC newDate))
      end
  end.

(** [d.setMonth(month)] *)
Definition setMonth (d : loc) (month : number) : JS unit :=
  let* tv := thisTimeValue d in
  match tv with
  | NaN => ret tt
  | Num t0 =>
      let t := LocalTime t0 in
      match month with
      | NaN => setTimeValue d NaN
      | Num m =>
          let newDate :=
            ES.MakeDate (ES.MakeDay (ES.YearFromTime t) m (ES.DateFromTime t))
                        (ES.TimeWithinDay t) in
          setTimeValue d (clip (UTC newDate))
      end
  end.

(** [d.setFullYear(year)]: an Invalid Date is first reset to time value 0. *)
Definition setFullYear (d : loc) (year : number) : JS unit :=
  let* tv := thisTimeValue d in
  let t := match tv with NaN => 0 | Num t0 => LocalTime t0 end in
  match year with
  | NaN => setTimeValue d NaN
  | Num y =>
      let newDate :=
        ES.MakeDate (ES.MakeDay y (ES.MonthFromTime t) (ES.DateFromTime t))
                    (ES.TimeWithinDay t) in
      setTimeValue d (clip (UTC newDate))
  end.

(** ** Events ([shared/schema.ts]) *)

(** A date-valued field: [null], a string, or a Date object. *)
Inductive DateField : Type :=
  | DNull
  | DString (s : string)
  | DObject (d : loc).

Record Event : Type := {
  id : string;
  title : string;
  description : option string;
  dateType : string;
  startDate : DateField;
  endDate : DateField;
  nthOccurrence : option Z;
  dayOfWeek : option Z;
  month : option Z;
  baseYear : option Z;
  relativePeriod : option Z;
  relativeUnit : option string;
  relativeDirection : option string;
  relativeEventName : option string;
  createdAt : DateField
}.

(** Truthiness of the field values: [!x] holds for [null], [0] and [""]. *)
Definition truthyNum (x : option Z) : option Z :=
  match x with
  | Some 0 => None
  | _ => x
  end.

Definition truthyStr (x : option string) : option string :=
  match x with
  | Some EmptyString => None
  | _ => x
  end.

Definition truthyDate (x : DateField) : bool :=
  match x with
  | DNull => false
  | DString EmptyString => false
  | _ => true
  end.

(** ** The resolver ([server/routes.ts]) *)

Definition calculateNthDate (fuel : nat)
    (nthOccurrence dayOfWeek month : Z) (year : option number) : JS loc :=
  let* year :=
    match year with
    | Some y => ret y
    | None => let* d := newDateNow in getFullYear d
    end in
  let* firstDay := newDateYMD year (Num (month - 1)) (Num 1) in
  let* date := newDateCopy firstDay in
  while fuel
    (let* wd := getDay date in ret (strict_ne wd dayOfWeek))
    (let* dt := getDate date in setDate date (num_add dt 1)) ;;;
  if nthOccurrence =? -1 then
    let* lastDay := newDateYMD year (Num month) (Num 0) in
    let* lastDate := newDateCopy lastDay in
    while fuel
      (let* wd := getDay lastDate in ret (strict_ne wd dayOfWeek))
      (let* dt := getDate lastDate in setDate lastDate (num_add dt (-1))) ;;;
    ret lastDate
  else
    let* dt := getDate date in
    setDate date (num_add dt ((nthOccurrence - 1) * 7)) ;;;
    let* m := getMonth date in
    if strict_ne m (month - 1) then throw (NoOccurrence nthOccurrence)
    else ret date.

(** The two scan loops of [calculateNthDate], named for the proofs: [step]
    is [1] for the forward scan and [-1] for the backward scan. *)
Definition scan (fuel : nat) (date : loc) (dayOfWeek step : Z) : JS unit :=
  while fuel
    (let* wd := getDay date in ret (strict_ne wd dayOfWeek))
    (let* dt := getDate date in setDate date (num_add dt step)).

Definition calculateRelativeDate
    (baseDate : loc) (period : Z) (unit direction : string) : JS loc :=
  let* result := newDateCopy baseDate in
  let multiplier := if String.eqb direction "before" then -1 else 1 in
  (if String.eqb unit "days" then
     let* dt := getDate result in setDate result (num_add dt (period * multiplier))
   else if String.eqb unit "weeks" then
     let* dt := getDate result in setDate result (num_add dt (period * 7 * multiplier))
   else if String.eqb unit "months" then
     let* m := getMonth result in setMonth result (num_add m (period * multiplier))
   else if String.eqb unit "years" then
     let* y := getFullYear result in setFullYear result (num_add y (period * multiplier))
   else throw (InvalidUnit unit)) ;;;
  ret result.

Definition parseSimpleDate (dateValue : DateField) : JS loc :=
  match dateValue with
  | DString s =>
      let parts := split "-" (List.hd EmptyString (split "T" s)) in
      let year := parts !! 0%nat in
      let month := parts !! 1%nat in
      let day := parts !! 2%nat in
      newDateYMD (parseIntU year) (num_add (parseIntU month) (-1)) (parseIntU day)
  | DObject d => newDateCopy d
  | DNull => alloc (Num 0)
  end.

Fixpoint calculateEventDate (fuel : nat) (event : Event) (allEvents : list Event)
    : JS (option loc) :=
  match fuel with
  | O => diverge
  | S fuel' =>
      if String.eqb (dateType event) "fixed" then
        if negb (truthyDate (startDate event)) then ret None
        else let* d := parseSimpleDate (startDate event) in ret (Some d)
      else if String.eqb (dateType event) "nth" then
        match truthyNum (nthOccurrence event), dayOfWeek event, truthyNum (month event) with
        | Some nth, Some dow, Some mon =>
            try_catch
              (let* baseYear :=
                 match truthyNum (baseYear event) with
                 | Some y => ret (Num y)
                 | None => let* d := newDateNow in getFullYear d
                 end in
               let* d := calculateNthDate fuel' nth dow mon (Some baseYear) in
               ret (Some d))
              (ret None)
        | _, _, _ => ret None
        end
      else if String.eqb (dateType event) "relative" then
        match truthyStr (relativeEventName event), truthyNum (relativePeriod event),
              truthyStr (relativeUnit event), truthyStr (relativeDirection event) with
        | Some name, Some period, Some unit, Some direction =>
            match List.find (fun e => String.eqb (title e) name) allEvents with
            | None => ret None
            | Some referenceEvent =>
                let* referenceDate := calculateEventDate fuel' referenceEvent allEvents in
                match referenceDate with
                | None => ret None
                | Some rd =>
                    try_catch
                      (let* d := calculateRelativeDate rd period unit direction in
                       ret (Some d))
                      (ret None)
                end
            end
        | _, _, _, _ => ret None
        end
      else ret None
  end.

End DateObjects.

(** ** Vocabulary of the statements *)

(** Time value of local midnight of the civil day [d] of month [m]
    (0 = January) of year [y]. *)
Definition midnight (tza y m d : Z) : Z := ES.MakeDay y m d * ES.msPerDay - tza.

(** The civil date a Date object with time value [t] shows through
    [getFullYear], [getMonth] and [getDate]. *)
Definition localDate (tza t : Z) : Z * Z * Z :=
  (ES.YearFromTime (t + tza), ES.MonthFromTime (t + tza), ES.DateFromTime (t + tza)).

(** The time value [t] moved to the civil day [d] of month [m] of year [y],
    keeping the local time of day; [m] and [d] may lie outside their ranges
    and carry over as in [ES.MakeDay]. *)
Definition atCivil (tza t y m d : Z) : Z :=
  ES.MakeDate (ES.MakeDay y m d) (ES.TimeWithinDay (t + tza)) - tza.

(** A computation that completes normally from every heap. *)
Definition total {A} (m : JS A) : Prop := forall h, exists a h', m h = (Normal a, h').

(** What [calculateEventDate] does with the date of the referenced event. *)
Definition afterReference (tza period : Z) (unit direction : string)
    (referenceDate : option loc) : JS (option loc) :=
  match referenceDate with
  | None => ret None
  | Some rd =>
      try_catch
        (let* d := calculateRelativeDate tza rd period unit direction in ret (Some d))
        (ret None)
  end.

(** The event whose resolution the resolution of [event] calls: the first
    event titled [relativeEventName], for a relative event with all four
    relative fields present. *)
Definition reference (allEvents : list Event) (event : Event) : option Event :=
  if String.eqb (dateType event) "relative" then
    match truthyStr (relativeEventName event), truthyNum (relativePeriod event),
          truthyStr (relativeUnit event), truthyStr (relativeDirection event) with
    | Some name, Some _, Some _, Some _ =>
        List.find (fun e => String.eqb (title e) name) allEvents
    | _, _, _, _ => None
    end
  else None.

(** [ends_within allEvents n event]: following references from [event]
    reaches, after [n] steps, an event that references nothing. *)
Inductive ends_within (allEvents : list Event) : nat -> Event -> Prop :=
  | ends_here event :
      reference allEvents event = None -> ends_within allEvents 0 event
  | ends_later event referenceEvent n :
      reference allEvents event = Some referenceEvent ->
      ends_within allEvents n referenceEvent ->
      ends_within allEvents (S n) event.

(** The ranges [insertEventSchema] ([shared/schema.ts]) puts on the numeric
    fields that are present. *)
Definition inRange (lo hi : Z) (x : option Z) : Prop :=
  match x with
  | Some v => lo <= v <= hi
  | None => True
  end.

Record schemaRanges (e : Event) : Prop := {
  nthOccurrence_range : inRange (-1) 4 (nthOccurrence e);
  dayOfWeek_range : inRange 0 6 (dayOfWeek e);
  month_range : inRange 1 12 (month e);
  baseYear_range : inRange 2020 2050 (baseYear e)
}.

(** Events as the application creates them: the fields of the other modes
    are [null]. *)
Definition fixedEvent (id title : string) (startDate : DateField) : Event :=
  {| id := id; title := title; description := None; dateType := "fixed";
     startDate := startDate; endDate := DNull;
     nthOccurrence := None; dayOfWeek := None; month := None; baseYear := None;
     relativePeriod := None; relativeUnit := None; relativeDirection := None;
     relativeEventName := None; createdAt := DNull |}.

Definition nthEvent (id title : string) (nthOccurrence dayOfWeek month baseYear : option Z)
    : Event :=
  {| id := id; title := title; description := None; dateType := "nth";
     startDate := DNull; endDate := DNull;
     nthOccurrence := nthOccurrence; dayOfWeek := dayOfWeek; month := month;
     baseYear := baseYear;
     relativePeriod := None; relativeUnit := None; relativeDirection := None;
     relativeEventName := None; createdAt := DNull |}.

Definition relativeEvent (id title : string) (period : option Z)
    (unit direction name : option string) : Event :=
  {| id := id; title := title; description := None; dateType := "relative";
     startDate := DNull; endDate := DNull;
     nthOccurrence := None; dayOfWeek := None; month := None; baseYear := None;
     relativePeriod := period; relativeUnit := unit; relativeDirection := direction;
     relativeEventName := name; createdAt := DNull |}.

(** The Date objects an event refers to exist in the heap. *)
Definition wfDate (h : heap) (x : DateField) : Prop :=
  match x with
  | DObject d => (d < length h)%nat
  | _ => True
  end.

Definition wfEvent (h : heap) (e : Event) : Prop := wfDate h (startDate e).

Definition cmap {A B} (f : A -> B) (r : completion A) : completion B :=
  match r with
  | Normal a => Normal (f a)
  | Throw e => Throw e
  | Diverge => Diverge
  end.

(** The time value a result shows to the caller: that of the returned Date
    object, if any. *)
Definition resultValue (r : completion (option loc) * heap) : completion (option number) :=
  cmap (fun v => match v with
                 | Some d => Some (default NaN (snd r !! d))
                 | None => None
                 end) (fst r).

(** Results without locations are compared as they are, with no condition. *)
Definition same {A} (a : A) : A := a.
Definition anyval {A} (a : A) : Prop := True.

Section Simulation.

(** Two runs of a computation, from a heap [base ++ c] and from the heap
    [base ++ ext ++ c] with further objects in between.  [sim] says that
    both leave [base] as it is, allocate and update the same objects after
    it, and complete alike, locations beyond [base] being shifted by the
    length of [ext]. *)
Variables base ext : heap.

Definition shift (d : loc) : loc :=
  if (d <? length base)%nat then d else (d + length ext)%nat.

Definition fresh (d : loc) : Prop := (length base <= d)%nat.

Definition sim {A} (sh : A -> A) (P : A -> Prop) (ma mb : JS A) : Prop :=
  forall c, exists r c',
    ma (base ++ c) = (r, base ++ c') /\
    mb (base ++ ext ++ c) = (cmap sh r, base ++ ext ++ c') /\
    (forall a, r = Normal a -> P a).

Definition some_fresh (v : option loc) : Prop :=
  match v with
  | Some d => fresh d
  | None => True
  end.

End Simulation.

(** Date strings: [decimal4 Y ++ "-" ++ decimal2 M ++ "-" ++ decimal2 D] is
    the text [YYYY-MM-DD]. *)
Definition digitChar (n : Z) : ascii :=
  match n with
  | 0 => "0" | 1 => "1" | 2 => "2" | 3 => "3" | 4 => "4"
  | 5 => "5" | 6 => "6" | 7 => "7" | 8 => "8" | _ => "9"
  end%char.

Definition decimal2 (v : Z) : string :=
  String (digitChar (v / 10)) (String (digitChar (v mod 10)) EmptyString).

Definition decimal4 (v : Z) : string :=
  String (digitChar (v / 1000)) (String (digitChar (v / 100 mod 10)) (decimal2 (v mod 100))).

Definition isDigit (c : ascii) : bool :=
  let n := Z.of_nat (nat_of_ascii c) in (48 <=? n) && (n <=? 57).

(** What may follow the day: nothing, or text that starts with no digit
    (as the [T] of a date-time string). *)
Definition endsNumber (rest : string) : Prop :=
  match rest with
  | EmptyString => True
  | String c _ => isDigit c = false
  end.

Fixpoint noChar (sep : ascii) (s : string) : bool :=
  match s with
  | EmptyString => true
  | String c s' => negb (Ascii.eqb c sep) && noChar sep s'
  end.

(** Example events. *)
Definition conference : Event := fixedEvent "11" "Conference" (DString "2024-03-05T00:00:00.000Z").
Definition review : Event :=
  relativeEvent "12" "Review" (Some 1) (Some "weeks") (Some "after") (Some "Kickoff").
Definition retro : Event :=
  relativeEvent "13" "Retro" (Some 1) (Some "months") (Some "after") (Some "Review").

(** A relative event that references its own title, and two that reference
    each other. *)
Definition ouroboros : Event :=
  relativeEvent "14" "Ouroboros" (Some 1) (Some "days") (Some "after") (Some "Ouroboros").
Definition chicken : Event :=
  relativeEvent "15" "Chicken" (Some 1) (Some "days") (Some "after") (Some "Egg").
Definition egg : Event :=
  relativeEvent "16" "Egg" (Some 1) (Some "days") (Some "before") (Some "Chicken").

(** Events that fail for four different reasons: a missing field, a
    reference to no title, a unit that is none of the four, and a fifth
    Thursday in a month with four. *)
Definition noWeekday : Event := nthEvent "17" "Standup" (Some 2) None (Some 3) (Some 2024).
Definition fortnightly : Event :=
  relativeEvent "18" "Payday" (Some 2) (Some "fortnights") (Some "after") (Some "Kickoff").
Definition fifthThursday : Event :=
  nthEvent "19" "Board" (Some 5) (Some 4) (Some 2) (Some 2023).

(** A self-referencing event with an invalid unit. *)
Definition fortnightlyLoop : Event :=
  relativeEvent "20" "Loop" (Some 2) (Some "fortnights") (Some "after") (Some "Loop").

(** A fixed event whose start is a text without numbers. *)
Definition someday : Event := fixedEvent "24" "Someday" (DString "soon").

(** An nth event without [baseYear], and two clocks a year apart. *)
Definition meetup : Event := nthEvent "21" "Meetup" (Some 1) (Some 2) (Some 3) None.
Definition clock2024 : Z := midnight 0 2024 5 15.
Definition clock2025 : Z := midnight 0 2025 5 15.

(** A fixed event whose [startDate] is a Date object of the heap, and an
    event relative to it. *)
Definition release : Event := fixedEvent "22" "Release" (DObject 0).
Definition freeze : Event :=
  relativeEvent "23" "Freeze" (Some 2) (Some "weeks") (Some "before") (Some "Release").
Definition launch1 : Event := fixedEvent "1" "Launch" (DString "2024-12-25").
Definition launch2 : Event := fixedEvent "2" "Launch" (DString "2025-06-01").
Definition kickoff : Event := fixedEvent "3" "Kickoff" (DString "2024-01-15").
Definition rehearsal : Event :=
  relativeEvent "4" "Rehearsal" (Some 3) (Some "days") (Some "before") (Some "Launch").
Definition orphan : Event :=
  relativeEvent "5" "Orphan" (Some 3) (Some "days") (Some "before") (Some "launch").


(** Weekday (0 = Sunday) of the civil day [d] of month [m] of year [y]. *)
Definition weekdayOf (y m d : Z) : Z := (ES.MakeDay y m d + 4) mod 7.

(** Day of the month of the first, respectively last, [dayOfWeek] of the
    1-based [month] of [year]. *)
Definition firstOccurrence (year month dayOfWeek : Z) : Z :=
  1 + (dayOfWeek - weekdayOf year (month - 1) 1) mod 7.

Definition lastOccurrence (year month dayOfWeek : Z) : Z :=
  let last := ES.DaysInMonth year (month - 1) in
  last - (weekdayOf year (month - 1) last - dayOfWeek) mod 7.

(** * Further code *)

(** ** Ordinal suffixes ([client/src/lib/date-utils.ts]) *)

(** [l[i]] for a number [i]: [undefined] outside the list. *)
Definition index {A} (l : list A) (i : Z) : option A :=
  if i <? 0 then None else l !! Z.to_nat i.

(** [a || b] on strings that may be [undefined]. *)
Definition orElse (a b : option string) : option string :=
  match truthyStr a with
  | Some _ => a
  | None => b
  end.

(** The remainder [%] has the sign of the dividend: [Z.rem]. *)
Definition getOrdinalSuffix (n : Z) : option string :=
  let suffix := ["th"; "st"; "nd"; "rd"] in
  let value := Z.rem n 100 in
  orElse (orElse (index suffix (Z.rem (value - 20) 10)) (index suffix value))
         (index suffix 0).

(** The suffix English gives the ordinal of [n]; ["th"] below zero. *)
Definition englishSuffix (n : Z) : string :=
  if n <? 0 then "th"
  else if (n mod 10 =? 1) && negb (n mod 100 =? 11) then "st"
  else if (n mod 10 =? 2) && negb (n mod 100 =? 12) then "nd"
  else if (n mod 10 =? 3) && negb (n mod 100 =? 13) then "rd"
  else "th".

(** ** Text of the calendar file ([client/src/lib/ics-export.ts],
       [server/routes.ts]) *)

(** [s.replace(/c/g, by)] for a one-character pattern. *)
Fixpoint replaceAll (c : ascii) (by_ : string) (s : string) : string :=
  match s with
  | EmptyString => EmptyString
  | String a r =>
      if Ascii.eqb a c then (by_ ++ replaceAll c by_ r)%string
      else String a (replaceAll c by_ r)
  end.

Definition backslash : ascii := "\"%char.
Definition LF : ascii := "010"%char.
Definition CR : ascii := "013"%char.

Definition escapeICSValue (value : string) : string :=
  replaceAll CR (String backslash "r")
    (replaceAll LF (String backslash "n")
       (replaceAll "," (String backslash ",")
          (replaceAll ";" (String backslash ";")
             (replaceAll backslash (String backslash (String backslash EmptyString))
                         value)))).

(** Escaping one character at a time, to compare [escapeICSValue] with. *)
Definition escapeChar (c : ascii) : string :=
  if Ascii.eqb c backslash then String backslash (String backslash EmptyString)
  else if Ascii.eqb c ";" then String backslash ";"
  else if Ascii.eqb c "," then String backslash ","
  else if Ascii.eqb c LF then String backslash "n"
  else if Ascii.eqb c CR then String backslash "r"
  else String c EmptyString.

Fixpoint escapeEach (s : string) : string :=
  match s with
  | EmptyString => EmptyString
  | String c r => (escapeChar c ++ escapeEach r)%string
  end.

(** Decimal digits of a positive integer, most significant first. *)
Fixpoint digitsOf (fuel : nat) (n : Z) (acc : string) : string :=
  match fuel with
  | O => acc
  | S fuel' =>
      if n <? 10 then String (digitChar n) acc
      else digitsOf fuel' (n / 10) (String (digitChar (n mod 10)) acc)
  end.

(** [String(x)] and [`${x}`] for an integer below 10^21 or [NaN]. *)
Definition numberToString (x : number) : string :=
  match x with
  | NaN => "NaN"
  | Num 0 => "0"
  | Num (Zpos p) => digitsOf (Pos.size_nat p) (Zpos p) EmptyString
  | Num (Zneg p) => String "-" (digitsOf (Pos.size_nat p) (Zpos p) EmptyString)
  end.

Fixpoint repeatChar (n : nat) (c : ascii) : string :=
  match n with
  | O => EmptyString
  | S n' => String c (repeatChar n' c)
  end.

(** [s.padStart(targetLength, c)] for a one-character filler. *)
Definition padStart (targetLength : nat) (c : ascii) (s : string) : string :=
  (repeatChar (targetLength - String.length s) c ++ s)%string.

Section CalendarText.

Variable tza : Z.

(** [formatDateForAllDay] of the server and [formatDate] of the client:
    the same body. *)
Definition formatDateForAllDay (date : loc) : JS string :=
  let* year := getFullYear tza date in
  let* m := getMonth tza date in
  let* d := getDate tza date in
  let month := padStart 2 "0" (numberToString (num_add m 1)) in
  let day := padStart 2 "0" (numberToString d) in
  ret (numberToString year ++ month ++ day)%string.

End CalendarText.

(** ** Storage ([server/storage.ts], class [MemStorage]) *)

(** The validated input of an event: an [Event] without [id] and
    [createdAt]. *)
Record InsertEvent : Type := {
  ie_title : string;
  ie_description : option string;
  ie_dateType : string;
  ie_startDate : DateField;
  ie_endDate : DateField;
  ie_nthOccurrence : option Z;
  ie_dayOfWeek : option Z;
  ie_month : option Z;
  ie_baseYear : option Z;
  ie_relativePeriod : option Z;
  ie_relativeUnit : option string;
  ie_relativeDirection : option string;
  ie_relativeEventName : option string
}.

(** [Partial<InsertEvent>]: [None] is a key the object does not have. *)
Record PartialInsertEvent : Type := {
  p_title : option string;
  p_description : option (option string);
  p_dateType : option string;
  p_startDate : option DateField;
  p_endDate : option DateField;
  p_nthOccurrence : option (option Z);
  p_dayOfWeek : option (option Z);
  p_month : option (option Z);
  p_baseYear : option (option Z);
  p_relativePeriod : option (option Z);
  p_relativeUnit : option (option string);
  p_relativeDirection : option (option string);
  p_relativeEventName : option (option string)
}.

(** [{ ...existingEvent, ...updateData }] *)
Definition spread (existingEvent : Event) (updateData : PartialInsertEvent) : Event :=
  {| id := id existingEvent;
     title := default (title existingEvent) (p_title updateData);
     description := default (description existingEvent) (p_description updateData);
     dateType := default (dateType existingEvent) (p_dateType updateData);
     startDate := default (startDate existingEvent) (p_startDate updateData);
     endDate := default (endDate existingEvent) (p_endDate updateData);
     nthOccurrence := default (nthOccurrence existingEvent) (p_nthOccurrence updateData);
     dayOfWeek := default (dayOfWeek existingEvent) (p_dayOfWeek updateData);
     month := default (month existingEvent) (p_month updateData);
     baseYear := default (baseYear existingEvent) (p_baseYear updateData);
     relativePeriod := default (relativePeriod existingEvent) (p_relativePeriod updateData);
     relativeUnit := default (relativeUnit existingEvent) (p_relativeUnit updateData);
     relativeDirection :=
       default (relativeDirection existingEvent) (p_relativeDirection updateData);
     relativeEventName :=
       default (relativeEventName existingEvent) (p_relativeEventName updateData);
     createdAt := createdAt existingEvent |}.

(** [{ baseYear: newYear }] *)
Definition baseYearOnly (newYear : Z) : PartialInsertEvent :=
  {| p_title := None; p_description := None; p_dateType := None;
     p_startDate := None; p_endDate := None;
     p_nthOccurrence := None; p_dayOfWeek := None; p_month := None;
     p_baseYear := Some (Some newYear);
     p_relativePeriod := None; p_relativeUnit := None; p_relativeDirection := None;
     p_relativeEventName := None |}.

(** The [Map<string, Event>] of the class: its entries in insertion order. *)
Abbreviation Store := (list (string * Event)) (only parsing).

Fixpoint mapGet (key : string) (m : Store) : option Event :=
  match m with
  | [] => None
  | (k, v) :: rest => if String.eqb k key then Some v else mapGet key rest
  end.

(** [m.set(key, value)]: a key the map has keeps its place. *)
Fixpoint mapSet (key : string) (value : Event) (m : Store) : Store :=
  match m with
  | [] => [(key, value)]
  | (k, v) :: rest =>
      if String.eqb k key then (key, value) :: rest else (k, v) :: mapSet key value rest
  end.

(** [m.delete(key)]: whether the key was there, and the map without it. *)
Fixpoint mapDelete (key : string) (m : Store) : bool * Store :=
  match m with
  | [] => (false, [])
  | (k, v) :: rest =>
      if String.eqb k key then (true, rest)
      else let (found, rest') := mapDelete key rest in (found, (k, v) :: rest')
  end.

Section MemStorage.

Variable now : Z.

(** [Array.prototype.sort] with the comparator of [getAllEvents], which
    orders by [createdAt]: taken as a parameter that permutes its input. *)
Variable sortByCreatedAt : list Event -> list Event.

Definition getEvent (id : string) (events : Store) : option Event := mapGet id events.

Definition getAllEvents (events : Store) : list Event :=
  sortByCreatedAt (List.map snd events).

(** [uuid] is the result of [randomUUID()]. *)
Definition createEvent (uuid : string) (insertEvent : InsertEvent) (events : Store)
    : JS (Event * Store) :=
  let* created := newDateNow now in
  let event :=
    {| id := uuid;
       title := ie_title insertEvent;
       description := ie_description insertEvent;
       dateType := ie_dateType insertEvent;
       startDate := ie_startDate insertEvent;
       endDate := ie_endDate insertEvent;
       nthOccurrence := ie_nthOccurrence insertEvent;
       dayOfWeek := ie_dayOfWeek insertEvent;
       month := ie_month insertEvent;
       baseYear := ie_baseYear insertEvent;
       relativePeriod := ie_relativePeriod insertEvent;
       relativeUnit := ie_relativeUnit insertEvent;
       relativeDirection := ie_relativeDirection insertEvent;
       relativeEventName := ie_relativeEventName insertEvent;
       createdAt := DObject created |} in
  ret (event, mapSet uuid event events).

Definition updateEvent (id : string) (updateData : PartialInsertEvent) (events : Store)
    : option Event * Store :=
  match mapGet id events with
  | None => (None, events)
  | Some existingEvent =>
      let updatedEvent := spread existingEvent updateData in
      (Some updatedEvent, mapSet id updatedEvent events)
  end.

Definition deleteEvent (id : string) (events : Store) : bool * Store :=
  mapDelete id events.

(** ** Bulk routes ([server/routes.ts]) *)

(** [DELETE /api/events]: the number of deleted events and the store left. *)
Definition clearAllEvents (store : Store) : nat * Store :=
  List.fold_left
    (fun '(deletedCount, st) event =>
       let (deleted, st') := deleteEvent (id event) st in
       if deleted then (S deletedCount, st') else (deletedCount, st'))
    (getAllEvents store) (O, store).

Inductive UpdateYearResponse : Type :=
  | InvalidYear
  | YearUpdated (updatedCount : nat) (year : Z).

(** [POST /api/events/update-year]: [newYear] is [None] when the body has
    no [newYear] or one that is not a number. *)
Definition updateYear (newYear : option Z) (store : Store) : UpdateYearResponse * Store :=
  match newYear with
  | None => (InvalidYear, store)
  | Some y =>
      if (y =? 0) || (y <? 2020) || (y >? 2050) then (InvalidYear, store)
      else
        let '(updatedEvents, store') :=
          List.fold_left
            (fun '(updatedEvents, st) event =>
               if String.eqb (dateType event) "nth" then
                 let updatedData := baseYearOnly y in
                 let (_, st') := updateEvent (id event) updatedData st in
                 let updatedEvent := spread event updatedData in
                 (updatedEvents ++ [updatedEvent], st')
               else (updatedEvents, st))
            (getAllEvents store) ([], store) in
        (YearUpdated (length updatedEvents) y, store')
  end.

End MemStorage.

(** A store as [createEvent] builds it: every key once, and the key of an
    event is its [id]. *)
Definition storeOk (store : Store) : Prop :=
  List.NoDup (List.map fst store) /\ forall k e, In (k, e) store -> id e = k.

(** ** Vocabulary for the storage laws *)

(** The event [e] with [baseYear] replaced, every other field kept. *)
Definition withBaseYear (y : Z) (e : Event) : Event :=
  {| id := id e; title := title e; description := description e;
     dateType := dateType e; startDate := startDate e; endDate := endDate e;
     nthOccurrence := nthOccurrence e; dayOfWeek := dayOfWeek e; month := month e;
     baseYear := Some y;
     relativePeriod := relativePeriod e; relativeUnit := relativeUnit e;
     relativeDirection := relativeDirection e;
     relativeEventName := relativeEventName e; createdAt := createdAt e |}.

Definition isNth (e : Event) : bool := String.eqb (dateType e) "nth".

(** What [update-year] is to leave in the store: the same keys in the same
    order, the nth events with the new base year, the others as they were. *)
Definition rebase (y : Z) (store : Store) : Store :=
  List.map (fun kv => (fst kv, if isNth (snd kv) then withBaseYear y (snd kv) else snd kv))
    store.

(** A store with one nth event and two fixed events, and an input of the
    create route. *)
Definition calendar : Store := [("21", meetup); ("22", release); ("1", launch1)].

Definition kickoffInput : InsertEvent :=
  {| ie_title := "Kickoff"; ie_description := None; ie_dateType := "fixed";
     ie_startDate := DString "2024-01-15"; ie_endDate := DNull;
     ie_nthOccurrence := None; ie_dayOfWeek := None; ie_month := None;
     ie_baseYear := None;
     ie_relativePeriod := None; ie_relativeUnit := None; ie_relativeDirection := None;
     ie_relativeEventName := None |}.

(** ** Calendar export ([server/routes.ts], [GET /api/events/export/ics]) *)

Definition msPerSecond : Z := 1000.
Definition msPerMinute : Z := 60000.
Definition msPerHour : Z := 3600000.

Definition HourFromTime (t : Z) : Z := (t / msPerHour) mod 24.
Definition MinFromTime (t : Z) : Z := (t / msPerMinute) mod 60.
Definition SecFromTime (t : Z) : Z := (t / msPerSecond) mod 60.
Definition msFromTime (t : Z) : Z := t mod msPerSecond.

(** The decimal digits of [v], filled with zeros to [n] characters. *)
Definition zeroPad (n : nat) (v : Z) : string := padStart n "0" (numberToString (Num v)).

(** The year of the ISO format: four digits from 0 to 9999, else a sign and
    six digits. *)
Definition isoYear (y : Z) : string :=
  if (0 <=? y) && (y <=? 9999) then zeroPad 4 y
  else
    let sign := if 0 <=? y then "+"%string else "-"%string in
    (sign ++ zeroPad 6 (Z.abs y))%string.

(** [YYYY-MM-DDTHH:mm:ss.sssZ] of the time value [tv], in UTC. *)
Definition isoText (tv : Z) : string :=
  (isoYear (ES.YearFromTime tv) ++ "-" ++ zeroPad 2 (ES.MonthFromTime tv + 1) ++ "-" ++
   zeroPad 2 (ES.DateFromTime tv) ++ "T" ++ zeroPad 2 (HourFromTime tv) ++ ":" ++
   zeroPad 2 (MinFromTime tv) ++ ":" ++ zeroPad 2 (SecFromTime tv) ++ "." ++
   zeroPad 3 (msFromTime tv) ++ "Z")%string.

(** [date.toISOString()]: [None] is the RangeError thrown for an Invalid
    Date. *)
Definition toISOString (date : loc) : JS (option string) :=
  let* tv := thisTimeValue date in
  match tv with
  | NaN => ret None
  | Num t => ret (Some (isoText t))
  end.

(** [s.replace(/[...]/g, by_)] for a class of characters. *)
Fixpoint replaceClass (class : ascii -> bool) (by_ : string) (s : string) : string :=
  match s with
  | EmptyString => EmptyString
  | String a r =>
      if class a then (by_ ++ replaceClass class by_ r)%string
      else String a (replaceClass class by_ r)
  end.

Definition formatDateTimeForCreated (date : loc) : JS (option string) :=
  let* iso := toISOString date in
  match iso with
  | None => ret None
  | Some s =>
      let stripped :=
        replaceClass (fun c => Ascii.eqb c "-" || Ascii.eqb c ":") EmptyString s in
      ret (Some (List.hd EmptyString (split "." stripped) ++ "Z")%string)
  end.

(** [l.join(sep)] *)
Fixpoint join (sep : string) (l : list string) : string :=
  match l with
  | [] => EmptyString
  | [x] => x
  | x :: rest => (x ++ sep ++ join sep rest)%string
  end.

Definition CRLF : string := String CR (String LF EmptyString).

Definition icsHeader : list string :=
  ["BEGIN:VCALENDAR"; "VERSION:2.0";
   "PRODID:-//CalendarSync//Calendar Event Creator//EN";
   "CALSCALE:GREGORIAN"; "METHOD:PUBLISH"]%string.

(** The lines pushed for one event; the line of a missing description is
    empty and filtered out at the end. *)
Definition eventBlock (event : Event) (dtstart dtend created : string) : list string :=
  ["BEGIN:VEVENT";
   "UID:" ++ id event ++ "@calendarsync.com";
   "DTSTART;VALUE=DATE:" ++ dtstart;
   "DTEND;VALUE=DATE:" ++ dtend;
   "SUMMARY:" ++ title event;
   match truthyStr (description event) with
   | Some d => "DESCRIPTION:" ++ d
   | None => ""
   end;
   "CREATED:" ++ created;
   "END:VEVENT"]%string.

Inductive ExportResponse : Type :=
  | IcsFile (body : string)
  | ExportFailed.

Section IcsExport.

Variables tza now : Z.

(** [Date.parse], whose result for other than ISO strings is left to the
    implementation. *)
Variable dateParse : string -> number.

(** [new Date(value)] *)
Definition newDate (value : DateField) : JS loc :=
  match value with
  | DString s => alloc (dateParse s)
  | DObject d => newDateCopy d
  | DNull => alloc (Num 0)
  end.

(** [eventEnd = new Date(eventStart); eventEnd.setDate(eventStart.getDate() + 1)] *)
Definition dayAfter (eventStart : loc) : JS loc :=
  let* eventEnd := newDateCopy eventStart in
  let* dt := getDate tza eventStart in
  setDate tza eventEnd (num_add dt 1) ;;;
  ret eventEnd.

(** The start and end Date of an event in the loop of the export; [None]
    is [continue]. [fuel] bounds the scans of [calculateNthDate]. *)
Definition exportDates (fuel : nat) (event : Event) (events : list Event)
    : JS (option (loc * loc)) :=
  if String.eqb (dateType event) "fixed" then
    if negb (truthyDate (startDate event)) then ret None
    else
      let* eventStart := parseSimpleDate tza (startDate event) in
      if truthyDate (endDate event) then
        let* eventEnd := parseSimpleDate tza (endDate event) in
        let* dt := getDate tza eventEnd in
        setDate tza eventEnd (num_add dt 1) ;;;
        ret (Some (eventStart, eventEnd))
      else
        let* eventEnd := dayAfter eventStart in
        ret (Some (eventStart, eventEnd))
  else if String.eqb (dateType event) "nth" then
    match truthyNum (nthOccurrence event), dayOfWeek event, truthyNum (month event) with
    | Some nth, Some dow, Some mon =>
        try_catch
          (let* baseYear :=
             match truthyNum (baseYear event) with
             | Some y => ret (Num y)
             | None => let* d := newDateNow now in getFullYear tza d
             end in
           let* eventStart := calculateNthDate tza now fuel nth dow mon (Some baseYear) in
           let* eventEnd := dayAfter eventStart in
           ret (Some (eventStart, eventEnd)))
          (ret None)
    | _, _, _ => ret None
    end
  else if String.eqb (dateType event) "relative" then
    let* calculatedDate := calculateEventDate tza now (S fuel) event events in
    match calculatedDate with
    | None => ret None
    | Some eventStart =>
        let* eventEnd := dayAfter eventStart in
        ret (Some (eventStart, eventEnd))
    end
  else ret None.

(** The loop over the events; [None] is an exception that leaves the loop
    (the RangeError of [toISOString]). *)
Fixpoint exportLoop (fuel : nat) (rest events : list Event) (icsContent : list string)
    : JS (option (list string)) :=
  match rest with
  | [] => ret (Some icsContent)
  | event :: rest' =>
      let* dates := exportDates fuel event events in
      match dates with
      | None => exportLoop fuel rest' events icsContent
      | Some (eventStart, eventEnd) =>
          let* dtstart := formatDateForAllDay tza eventStart in
          let* dtend := formatDateForAllDay tza eventEnd in
          let* c := newDate (createdAt event) in
          let* created := formatDateTimeForCreated c in
          match created with
          | None => ret None
          | Some created =>
              exportLoop fuel rest' events
                (icsContent ++ eventBlock event dtstart dtend created)
          end
      end
  end.

(** The handler, for the events [getAllEvents] returned. *)
Definition exportICS (fuel : nat) (events : list Event) : JS ExportResponse :=
  try_catch
    (let* r := exportLoop fuel events events icsHeader in
     match r with
     | None => ret ExportFailed
     | Some icsContent =>
         let lines :=
           List.filter (fun line => negb (String.eqb line EmptyString))
             (icsContent ++ ["END:VCALENDAR"%string]) in
         ret (IcsFile (join CRLF lines))
     end)
    (ret ExportFailed).

End IcsExport.

(** The time value of the Date the export takes as the end of a one-day
    event that starts at [v]: 24 hours later, or Invalid Date. *)
Definition nextDayValue (v : number) : number :=
  match v with
  | NaN => NaN
  | Num t => clip (t + ES.msPerDay)
  end.

(** The same value by the calendar, as [setDate] computes it: the civil day
    after the local date of [v], at the local time of day of [v]. *)
Definition dayAfterValue (tza : Z) (v : number) : number :=
  match v with
  | NaN => NaN
  | Num t => let '(y, m, d) := localDate tza t in clip (atCivil tza t y m (d + 1))
  end.

(** Text with none of the characters the CREATED line strips or splits
    at. *)
Fixpoint plain (s : string) : bool :=
  match s with
  | EmptyString => true
  | String c r =>
      negb (Ascii.eqb c "-" || Ascii.eqb c ":") && negb (Ascii.eqb c ".") && plain r
  end.

(** The CREATED text of the time value [t]: [YYYYMMDDTHHMMSSZ] in UTC. *)
Definition createdText (t : Z) : string :=
  (decimal4 (ES.YearFromTime t) ++ decimal2 (ES.MonthFromTime t + 1) ++
   decimal2 (ES.DateFromTime t) ++ "T" ++ decimal2 (HourFromTime t) ++
   decimal2 (MinFromTime t) ++ decimal2 (SecFromTime t) ++ "Z")%string.

(** The civil day after day [d] of month [m] (0-based) of year [y]. *)
Definition nextCivilDay (y m d : Z) : Z * Z * Z :=
  if d <? ES.DaysInMonth y m then (y, m, d + 1)
  else if m <? 11 then (y, m + 1, 1)
  else (y + 1, 0, 1).

(** The time value of [new Date(value)] in heap [h]. *)
Definition dateValue (dateParse : string -> number) (h : heap) (value : DateField)
    : number :=
  match value with
  | DString s => dateParse s
  | DObject d => default NaN (h !! d)
  | DNull => Num 0
  end.

Definition countdown : Event := fixedEvent "31" "Countdown" (DString "2024-12-31").

(** A fixed event whose creation time is a text [Date.parse] cannot read. *)
Definition undated : Event :=
  {| id := "32"; title := "Undated"; description := None; dateType := "fixed";
     startDate := DString "2024-12-31"; endDate := DNull;
     nthOccurrence := None; dayOfWeek := None; month := None; baseYear := None;
     relativePeriod := None; relativeUnit := None; relativeDirection := None;
     relativeEventName := None; createdAt := DString "yesterday" |}.

(** ** The resolver of the client ([client/src/lib/date-utils.ts]) *)

(** The client has its own copies of the three functions.  The fields of an
    event are read at their declared types: [None] is [null], which is not
    [undefined]. *)
Module Client.

(** [a !== b] for a number [a] and a [b] that may be [null]. *)
Definition strict_ne_nullable (a : number) (b : option Z) : bool :=
  match b with
  | Some v => strict_ne a v
  | None => true
  end.

Section Resolver.

Variables tza now : Z.
Variable dateParse : string -> number.

Definition calculateNthDate (fuel : nat)
    (nthOccurrence : Z) (dayOfWeek : option Z) (month : Z) (year : option number)
    : JS loc :=
  let* year :=
    match year with
    | Some y => ret y
    | None => let* d := newDateNow now in getFullYear tza d
    end in
  let* firstDay := newDateYMD tza year (Num (month - 1)) (Num 1) in
  let* date := newDateCopy firstDay in
  while fuel
    (let* wd := getDay tza date in ret (strict_ne_nullable wd dayOfWeek))
    (let* dt := getDate tza date in setDate tza date (num_add dt 1)) ;;;
  if nthOccurrence =? -1 then
    let* lastDay := newDateYMD tza year (Num month) (Num 0) in
    let* lastDate := newDateCopy lastDay in
    while fuel
      (let* wd := getDay tza lastDate in ret (strict_ne_nullable wd dayOfWeek))
      (let* dt := getDate tza lastDate in setDate tza lastDate (num_add dt (-1))) ;;;
    ret lastDate
  else
    let* dt := getDate tza date in
    setDate tza date (num_add dt ((nthOccurrence - 1) * 7)) ;;;
    let* m := getMonth tza date in
    if strict_ne m (month - 1) then throw (NoOccurrence nthOccurrence)
    else ret date.

(** No [try] surrounds [calculateRelativeDate] here, a fixed date is
    [new Date(event.startDate)], and the weekday is only compared with
    [undefined]. *)
Fixpoint calculateEventDate (fuel : nat) (event : Event) (allEvents : list Event)
    : JS (option loc) :=
  match fuel with
  | O => diverge
  | S fuel' =>
      if String.eqb (dateType event) "fixed" then
        if truthyDate (startDate event) then
          let* d := newDate dateParse (startDate event) in ret (Some d)
        else ret None
      else if String.eqb (dateType event) "nth" then
        match truthyNum (nthOccurrence event), truthyNum (month event) with
        | Some nth, Some mon =>
            try_catch
              (let* baseYear :=
                 match truthyNum (baseYear event) with
                 | Some y => ret (Num y)
                 | None => let* d := newDateNow now in getFullYear tza d
                 end in
               let* d := calculateNthDate fuel' nth (dayOfWeek event) mon (Some baseYear) in
               ret (Some d))
              (ret None)
        | _, _ => ret None
        end
      else if String.eqb (dateType event) "relative" then
        match truthyStr (relativeEventName event), truthyNum (relativePeriod event),
              truthyStr (relativeUnit event), truthyStr (relativeDirection event) with
        | Some name, Some period, Some unit, Some direction =>
            match List.find (fun e => String.eqb (title e) name) allEvents with
            | None => ret None
            | Some referenceEvent =>
                let* referenceDate := calculateEventDate fuel' referenceEvent allEvents in
                match referenceDate with
                | None => ret None
                | Some rd =>
                    let* d := calculateRelativeDate tza rd period unit direction in
                    ret (Some d)
                end
            end
        | _, _, _, _ => ret None
        end
      else ret None
  end.

End Resolver.

End Client.

(** ** Vocabulary for the comparison of client and server *)

Definition validUnit (unit : string) : bool :=
  String.eqb unit "days" || String.eqb unit "weeks" ||
  String.eqb unit "months" || String.eqb unit "years".

(** Events on which the two resolvers take the same steps: a fixed start
    that is not a string to parse, a weekday on an nth event, a unit of the
    four on a relative event. *)
Definition sameOnClient (e : Event) : bool :=
  if String.eqb (dateType e) "fixed" then
    match startDate e with
    | DString (String _ _) => false
    | _ => true
    end
  else if String.eqb (dateType e) "nth" then
    match dayOfWeek e with
    | Some _ => true
    | None => false
    end
  else if String.eqb (dateType e) "relative" then
    match relativeUnit e with
    | Some unit => validUnit unit
    | None => true
    end
  else true.

(** ** The calendar file of the client ([client/src/lib/ics-export.ts]) *)

Record ExportSettings : Type := {
  includeDescriptions : bool;
  setReminders : bool
}.

(** The lines of one event. *)
Definition eventLines (settings : ExportSettings) (event : Event)
    (dtstart dtend created : string) : list string :=
  (["BEGIN:VEVENT";
    "UID:" ++ id event ++ "@calendarsync.com";
    "DTSTART;VALUE=DATE:" ++ dtstart;
    "DTEND;VALUE=DATE:" ++ dtend;
    "SUMMARY:" ++ escapeICSValue (title event);
    "CREATED:" ++ created]%string
   ++ match (if includeDescriptions settings then truthyStr (description event) else None) with
      | Some d => ["DESCRIPTION:" ++ escapeICSValue d]%string
      | None => []
      end
   ++ (if setReminders settings
       then ["BEGIN:VALARM"; "TRIGGER:-PT15M"; "ACTION:DISPLAY"; "DESCRIPTION:Reminder";
             "END:VALARM"]%string
       else [])
   ++ ["END:VEVENT"%string])%list.

Section GenerateICS.

Variables tza now : Z.
Variable dateParse : string -> number.

(** The start and end Date of an event in the loop of [generateICS]; [None]
    is [continue]. *)
Definition generateDates (fuel : nat) (event : Event) (events : list Event)
    : JS (option (loc * loc)) :=
  if String.eqb (dateType event) "fixed" then
    if negb (truthyDate (startDate event)) then ret None
    else
      let* eventStart := parseSimpleDate tza (startDate event) in
      if truthyDate (endDate event) then
        let* eventEnd := parseSimpleDate tza (endDate event) in
        let* dt := getDate tza eventEnd in
        setDate tza eventEnd (num_add dt 1) ;;;
        ret (Some (eventStart, eventEnd))
      else
        let* eventEnd := newDateCopy eventStart in
        let* dt := getDate tza eventStart in
        setDate tza eventEnd (num_add dt 1) ;;;
        ret (Some (eventStart, eventEnd))
  else
    let* calculatedDate := Client.calculateEventDate tza now dateParse fuel event events in
    match calculatedDate with
    | None => ret None
    | Some cd =>
        let* eventStart := newDateCopy cd in
        let* eventEnd := newDateCopy cd in
        let* dt := getDate tza eventStart in
        setDate tza eventEnd (num_add dt 1) ;;;
        ret (Some (eventStart, eventEnd))
    end.

(** The loop of [generateICS]; [None] is the RangeError of [toISOString],
    which nothing catches. *)
Fixpoint generateLoop (fuel : nat) (rest events : list Event) (settings : ExportSettings)
    (icsLines : list string) : JS (option (list string)) :=
  match rest with
  | [] => ret (Some icsLines)
  | event :: rest' =>
      let* dates := generateDates fuel event events in
      match dates with
      | None => generateLoop fuel rest' events settings icsLines
      | Some (eventStart, eventEnd) =>
          let* dtstart := formatDateForAllDay tza eventStart in
          let* dtend := formatDateForAllDay tza eventEnd in
          let* c := newDate dateParse (createdAt event) in
          let* created := formatDateTimeForCreated c in
          match created with
          | None => ret None
          | Some created =>
              generateLoop fuel rest' events settings
                (icsLines ++ eventLines settings event dtstart dtend created)
          end
      end
  end.

Definition generateICS (fuel : nat) (events : list Event) (settings : ExportSettings)
    : JS (option string) :=
  let* r := generateLoop fuel events events settings icsHeader in
  match r with
  | None => ret None
  | Some icsLines => ret (Some (join CRLF (icsLines ++ ["END:VCALENDAR"%string])))
  end.

End GenerateICS.

(** Text that holds neither a carriage return nor a line feed. *)
Definition oneLine (s : string) : bool := noChar CR s && noChar LF s.

Definition withReminders : ExportSettings :=
  {| includeDescriptions := true; setReminders := true |}.

(** A fixed event whose title holds a line break followed by the text of
    another property. *)
Definition twoLines : Event :=
  {| id := "33"; title := ("Party" ++ CRLF ++ "ATTENDEE:mallory")%string;
     description := Some "a, b; c"%string; dateType := "fixed";
     startDate := DString "2024-12-31"; endDate := DNull;
     nthOccurrence := None; dayOfWeek := None; month := None; baseYear := None;
     relativePeriod := None; relativeUnit := None; relativeDirection := None;
     relativeEventName := None; createdAt := DNull |}.

(** ** The date shown for an event ([client/src/lib/date-utils.ts]) *)

(** A value inside a template literal: [null] and [undefined] are written
    out. *)
Definition templateNum (x : option Z) : string :=
  match x with
  | Some v => numberToString (Num v)
  | None => "null"
  end.

Definition templateStr (x : option string) : string :=
  match x with
  | Some s => s
  | None => "null"
  end.

(** An element of an array inside a template literal. *)
Definition templateElement (x : option string) : string :=
  match x with
  | Some s => s
  | None => "undefined"
  end.

(** [x || d] for a number. *)
Definition orNum (x : option Z) (d : Z) : Z := default d (truthyNum x).

Section FormatEventDate.

Variables tza now : Z.
Variable dateParse : string -> number.

(** [date.toLocaleDateString()], which depends on the locale. *)
Variable toLocaleDateString : number -> string.

(** The text for the nth event without a date. *)
Definition nthPattern (event : Event) : string :=
  let occurrences := [""; "1st"; "2nd"; "3rd"; "4th"]%string in
  let days := ["Sunday"; "Monday"; "Tuesday"; "Wednesday"; "Thursday"; "Friday";
               "Saturday"]%string in
  let months := [""; "January"; "February"; "March"; "April"; "May"; "June";
                 "July"; "August"; "September"; "October"; "November";
                 "December"]%string in
  let occurrence :=
    match nthOccurrence event with
    | Some (-1) => "Last"%string
    | _ => templateElement (index occurrences (orNum (nthOccurrence event) 1))
    end in
  let day := templateElement (index days (orNum (dayOfWeek event) 0)) in
  let month := templateElement (index months (orNum (month event) 1)) in
  (occurrence ++ " " ++ day ++ " in " ++ month)%string.

(** The text for the relative event without a date. *)
Definition relativePattern (event : Event) : string :=
  (templateNum (relativePeriod event) ++ " " ++ templateStr (relativeUnit event) ++ " " ++
   templateStr (relativeDirection event) ++ " " ++
   default "reference event"%string (truthyStr (relativeEventName event)))%string.

(** [calculateEventDate(event)] is called with its default [allEvents = []]. *)
Definition formatEventDate (fuel : nat) (event : Event) : JS string :=
  let* date := Client.calculateEventDate tza now dateParse fuel event [] in
  match date with
  | Some d => let* tv := thisTimeValue d in ret (toLocaleDateString tv)
  | None =>
      if String.eqb (dateType event) "nth" then ret (nthPattern event)
      else if String.eqb (dateType event) "relative" then ret (relativePattern event)
      else ret "Date not calculated"%string
  end.

End FormatEventDate.

(** * Properties *)

Import ES.

Ltac div_lia := Z.to_euclidean_division_equations; lia.

Lemma DayFromYear_succ (y : Z) :
  ES.DayFromYear (y + 1) = ES.DayFromYear y + ES.DaysInYear y.
Proof.
  unfold ES.DayFromYear, ES.DaysInYear.
  repeat match goal with
         | |- context [negb (?a =? ?b)] => destruct (Z.eqb_spec a b); simpl
         end; div_lia.
Qed.

Lemma YearFromDay_spec (d : Z) :
  ES.DayFromYear (ES.YearFromDay d) <= d < ES.DayFromYear (ES.YearFromDay d + 1).
Proof.
  unfold ES.YearFromDay.
  set (y := 1970 + 400 * d / 146097).
  destruct (Z.leb_spec (ES.DayFromYear (y + 1)) d) as [H1|H1].
  - split; [exact H1|].
    subst y. unfold ES.DayFromYear in *. div_lia.
  - destruct (Z.ltb_spec d (ES.DayFromYear y)) as [H2|H2].
    + split; [|replace (y - 1 + 1) with y by lia; exact H2].
      subst y. unfold ES.DayFromYear in *. div_lia.
    + lia.
Qed.

Lemma DaysInYear_cases y : DaysInYear y = 365 \/ DaysInYear y = 366.
Proof.
  unfold DaysInYear.
  repeat match goal with
         | |- context [negb (?a =? ?b)] => destruct (Z.eqb_spec a b); simpl
         end; auto.
Qed.

Lemma YearFromDay_unique y d :
  DayFromYear y <= d < DayFromYear (y + 1) -> YearFromDay d = y.
Proof.
  intros H. pose proof (YearFromDay_spec d) as S.
  set (z := YearFromDay d) in *.
  destruct (Z.lt_trichotomy z y) as [L|[E|G]]; [|exact E|].
  - assert (DayFromYear (z + 1) <= DayFromYear y).
    { clear -L. unfold DayFromYear. div_lia. }
    lia.
  - assert (DayFromYear (y + 1) <= DayFromYear z).
    { clear -G. unfold DayFromYear. div_lia. }
    lia.
Qed.

Lemma MonthFromTime_range t : 0 <= MonthFromTime t <= 11.
Proof.
  unfold MonthFromTime.
  repeat match goal with
         | |- context [?a <? ?b] => destruct (Z.ltb_spec a b)
         end; lia.
Qed.

Lemma MakeDay_roundtrip t x :
  MakeDay (YearFromTime t) (MonthFromTime t) x = Day t - DateFromTime t + x.
Proof.
  pose proof (MonthFromTime_range t) as R.
  unfold MakeDay, DateFromTime, DayWithinYear.
  replace (MonthFromTime t / 12) with 0 by div_lia.
  replace (MonthFromTime t mod 12) with (MonthFromTime t) by div_lia.
  rewrite Z.add_0_r. unfold InLeapYear. lia.
Qed.

Lemma MakeDate_shift t k :
  MakeDate (MakeDay (YearFromTime t) (MonthFromTime t) (DateFromTime t + k))
           (TimeWithinDay t) = t + k * msPerDay.
Proof.
  rewrite MakeDay_roundtrip. unfold MakeDate, Day, TimeWithinDay, msPerDay.
  div_lia.
Qed.

Lemma Day_shift t k : Day (t + k * msPerDay) = Day t + k.
Proof. unfold Day, msPerDay. div_lia. Qed.

Lemma WeekDay_shift t k : WeekDay (t + k * msPerDay) = (WeekDay t + k) mod 7.
Proof. unfold WeekDay. rewrite Day_shift. div_lia. Qed.

Lemma monthStart_bounds leap m :
  0 <= leap <= 1 -> 0 <= m <= 11 ->
  0 <= monthStart leap m /\ 28 <= monthStart leap (m + 1) - monthStart leap m <= 31
  /\ monthStart leap (m + 1) <= 365 + leap.
Proof.
  intros Hl Hm.
  assert (m = 0 \/ m = 1 \/ m = 2 \/ m = 3 \/ m = 4 \/ m = 5 \/ m = 6 \/
          m = 7 \/ m = 8 \/ m = 9 \/ m = 10 \/ m = 11) as C by lia.
  repeat (destruct C as [C|C]; [subst m; simpl; lia|]). subst m; simpl; lia.
Qed.

Lemma civil_of_MakeDay y m d t :
  0 <= m <= 11 -> 1 <= d <= DaysInMonth y m -> Day t = MakeDay y m d ->
  YearFromTime t = y /\ MonthFromTime t = m /\ DateFromTime t = d.
Proof.
  intros Hm Hd HD.
  unfold MakeDay in HD.
  replace (m / 12) with 0 in HD by div_lia.
  replace (m mod 12) with m in HD by div_lia.
  rewrite Z.add_0_r in HD.
  unfold DaysInMonth in Hd.
  set (leap := if DaysInYear y =? 366 then 1 else 0) in *.
  assert (0 <= leap <= 1) as Hl by (subst leap; destruct (_ =? _); lia).
  assert (DaysInYear y = 365 + leap) as HY.
  { subst leap. destruct (DaysInYear_cases y) as [E|E]; rewrite E; reflexivity. }
  pose proof (monthStart_bounds leap m Hl Hm) as (B1 & B2 & B3).
  assert (YearFromTime t = y) as EY.
  { unfold YearFromTime. apply YearFromDay_unique.
    rewrite DayFromYear_succ. lia. }
  split; [exact EY|].
  assert (InLeapYear t = leap) as EL by (unfold InLeapYear; rewrite EY; reflexivity).
  assert (DayWithinYear t = monthStart leap m + d - 1) as EW
    by (unfold DayWithinYear; rewrite EY; lia).
  assert (MonthFromTime t = m) as EM.
  { unfold MonthFromTime. rewrite EW, EL.
    assert (m = 0 \/ m = 1 \/ m = 2 \/ m = 3 \/ m = 4 \/ m = 5 \/ m = 6 \/
            m = 7 \/ m = 8 \/ m = 9 \/ m = 10 \/ m = 11) as C by lia.
    clear - C Hd Hl.
    repeat (destruct C as [C|C];
      [subst m; simpl in *;
       repeat match goal with
         | |- context [?a <? ?b] => destruct (Z.ltb_spec a b)
         end; lia|]).
    subst m; simpl in *;
       repeat match goal with
         | |- context [?a <? ?b] => destruct (Z.ltb_spec a b)
         end; lia. }
  split; [exact EM|].
  unfold DateFromTime. rewrite EW, EL, EM. lia.
Qed.

(** ** Date objects *)

Lemma bind_Normal {A B} (m : JS A) (k : A -> JS B) h a h' :
  m h = (Normal a, h') -> bind m k h = k a h'.
Proof. intros E. unfold bind. rewrite E. reflexivity. Qed.

Lemma bind_Throw {A B} (m : JS A) (k : A -> JS B) h e h' :
  m h = (Throw e, h') -> bind m k h = (Throw e, h').
Proof. intros E. unfold bind. rewrite E. reflexivity. Qed.

Lemma bind_Diverge {A B} (m : JS A) (k : A -> JS B) h h' :
  m h = (Diverge, h') -> bind m k h = (Diverge, h').
Proof. intros E. unfold bind. rewrite E. reflexivity. Qed.

Lemma clip_in_range t : Z.abs t <= maxTime -> clip t = Num t.
Proof.
  intros H. unfold clip, TimeClip.
  destruct (Z.leb_spec (Z.abs t) maxTime); [reflexivity|lia].
Qed.

Section Primitives.

Variables tza now : Z.

Lemma getter_Num f d (h : heap) t :
  h !! d = Some (Num t) ->
  getter tza f d h = (Normal (Num (f (t + tza))), h).
Proof.
  intros E. unfold getter, bind, thisTimeValue. rewrite E. reflexivity.
Qed.

Lemma getter_NaN f d (h : heap) :
  default NaN (h !! d) = NaN -> getter tza f d h = (Normal NaN, h).
Proof.
  intros E. unfold getter, bind, thisTimeValue. rewrite E. reflexivity.
Qed.

Lemma setDate_Num d (h : heap) t dt :
  h !! d = Some (Num t) ->
  setDate tza d (Num dt) h
  = (Normal tt, <[d := clip (t + (dt - DateFromTime (t + tza)) * msPerDay)]> h).
Proof.
  intros E. unfold setDate, bind, thisTimeValue. rewrite E. simpl.
  unfold setTimeValue, UTC, LocalTime. do 3 f_equal.
  pose proof (MakeDate_shift (t + tza) (dt - DateFromTime (t + tza))) as S.
  replace (DateFromTime (t + tza) + (dt - DateFromTime (t + tza))) with dt in S by lia.
  rewrite S. lia.
Qed.

Lemma setDate_NaN d (h : heap) dt :
  default NaN (h !! d) = NaN -> setDate tza d dt h = (Normal tt, h).
Proof.
  intros E. unfold setDate, bind, thisTimeValue. rewrite E. reflexivity.
Qed.

Lemma newDateCopy_lookup d (h : heap) tv :
  h !! d = Some tv -> newDateCopy d h = (Normal (length h), h ++ [tv]).
Proof.
  intros E. unfold newDateCopy, bind, thisTimeValue, alloc. rewrite E. reflexivity.
Qed.

Lemma getDay_Num d (h : heap) t :
  h !! d = Some (Num t) -> getDay tza d h = (Normal (Num (WeekDay (t + tza))), h).
Proof. apply getter_Num. Qed.

Lemma getDate_Num d (h : heap) t :
  h !! d = Some (Num t) -> getDate tza d h = (Normal (Num (DateFromTime (t + tza))), h).
Proof. apply getter_Num. Qed.

Lemma getMonth_Num d (h : heap) t :
  h !! d = Some (Num t) -> getMonth tza d h = (Normal (Num (MonthFromTime (t + tza))), h).
Proof. apply getter_Num. Qed.

Lemma getFullYear_Num d (h : heap) t :
  h !! d = Some (Num t) -> getFullYear tza d h = (Normal (Num (YearFromTime (t + tza))), h).
Proof. apply getter_Num. Qed.

Lemma add_days d (h : heap) t k :
  h !! d = Some (Num t) ->
  (let* dt := getDate tza d in setDate tza d (num_add dt k)) h
  = (Normal tt, <[d := clip (t + k * msPerDay)]> h).
Proof.
  intros E. rewrite (bind_Normal _ _ _ _ _ (getDate_Num d h t E)).
  simpl num_add. rewrite (setDate_Num d h t _ E). do 4 f_equal. lia.
Qed.

Lemma scan_S fuel date dow step :
  scan tza (S fuel) date dow step
  = (let* c := (let* wd := getDay tza date in ret (strict_ne wd dow)) in
     if c then
       (let* dt := getDate tza date in setDate tza date (num_add dt step)) ;;;
       scan tza fuel date dow step
     else ret tt).
Proof. reflexivity. Qed.

Lemma scan_cond date dow (h : heap) t :
  h !! date = Some (Num t) ->
  (let* wd := getDay tza date in ret (strict_ne wd dow)) h
  = (Normal (negb (WeekDay (t + tza) =? dow)), h).
Proof.
  intros E. rewrite (bind_Normal _ _ _ _ _ (getDay_Num date h t E)). reflexivity.
Qed.

Lemma scan_finds fuel date dow step (h : heap) t :
  h !! date = Some (Num t) ->
  0 <= dow <= 6 ->
  step = 1 \/ step = -1 ->
  let k := (step * (dow - WeekDay (t + tza))) mod 7 in
  (forall j, 0 <= j <= k -> Z.abs (t + step * j * msPerDay) <= maxTime) ->
  (Z.to_nat k < fuel)%nat ->
  scan tza fuel date dow step h
  = (Normal tt, <[date := Num (t + step * k * msPerDay)]> h).
Proof.
  revert h t. induction fuel as [|fuel IH]; intros h t E Hd Hs k Hr Hf; [lia|].
  rewrite scan_S, (bind_Normal _ _ _ _ _ (scan_cond date dow h t E)).
  destruct (Z.eqb_spec (WeekDay (t + tza)) dow) as [Ew|Nw]; cbn [negb].
  - assert (k = 0) as -> by (subst k; rewrite Ew; div_lia).
    unfold ret. f_equal. symmetry. apply list_insert_id.
    rewrite E. do 2 f_equal. lia.
  - assert (0 <= WeekDay (t + tza) <= 6) as Hw by (unfold WeekDay; div_lia).
    assert (1 <= k <= 6) as Hk by (subst k; div_lia).
    rewrite (bind_Normal _ _ _ _ _ (add_days date h t step E)).
    rewrite clip_in_range
      by (specialize (Hr 1); replace (step * 1 * msPerDay) with (step * msPerDay) in Hr by lia;
          apply Hr; lia).
    assert (date < length h)%nat as Hlen by (eapply lookup_lt_Some; eauto).
    assert ((step * (dow - WeekDay (t + step * msPerDay + tza))) mod 7 = k - 1) as Ek.
    { replace (t + step * msPerDay + tza) with (t + tza + step * msPerDay) by lia.
      rewrite WeekDay_shift. subst k. destruct Hs; subst step; div_lia. }
    rewrite (IH _ (t + step * msPerDay)).
    + rewrite list_insert_insert_eq, Ek. do 3 f_equal. lia.
    + apply list_lookup_insert_eq. exact Hlen.
    + exact Hd.
    + exact Hs.
    + rewrite Ek. intros j Hj. specialize (Hr (j + 1)).
      replace (t + step * msPerDay + step * j * msPerDay)
        with (t + step * (j + 1) * msPerDay) by lia.
      apply Hr. lia.
    + rewrite Ek. lia.
Qed.

End Primitives.

(** ** [calculateNthDate] *)

Lemma MakeDay_linear y m d : MakeDay y m d = MakeDay y m 1 + (d - 1).
Proof. unfold MakeDay. lia. Qed.

Lemma MakeDay_range y m d :
  100 <= y <= 275000 -> 0 <= m <= 12 -> -10000 <= d <= 10000 ->
  -700000 <= MakeDay y m d <= 99800000.
Proof.
  intros Hy Hm Hd. unfold MakeDay.
  set (leap := if DaysInYear (y + m / 12) =? 366 then 1 else 0).
  assert (0 <= leap <= 1) as Hl by (subst leap; destruct (_ =? _); lia).
  assert (0 <= m mod 12 <= 11) as Hmn by div_lia.
  pose proof (monthStart_bounds leap (m mod 12) Hl Hmn) as (B1 & B2 & B3).
  assert (100 <= y + m / 12 <= 275001) as Hym by div_lia.
  clearbody leap. revert Hym. generalize (y + m / 12). intros ym Hym.
  unfold DayFromYear. div_lia.
Qed.

Lemma midnight_range tza y m d j :
  - msPerDay <= tza <= msPerDay ->
  100 <= y <= 275000 -> 0 <= m <= 12 -> -10000 <= d <= 10000 ->
  -10000 <= j <= 10000 ->
  Z.abs (midnight tza y m d + j * msPerDay) <= maxTime.
Proof.
  intros Ht Hy Hm Hd Hj. pose proof (MakeDay_range y m d Hy Hm Hd) as R.
  unfold midnight, maxTime, msPerDay in *. lia.
Qed.

Lemma midnight_shift tza y m d k :
  midnight tza y m d + k * msPerDay = midnight tza y m (d + k).
Proof.
  unfold midnight. rewrite (MakeDay_linear y m (d + k)), (MakeDay_linear y m d). lia.
Qed.

Lemma Day_midnight tza y m d : Day (midnight tza y m d + tza) = MakeDay y m d.
Proof. unfold midnight, Day, msPerDay. div_lia. Qed.

Lemma WeekDay_midnight tza y m d : WeekDay (midnight tza y m d + tza) = weekdayOf y m d.
Proof. unfold WeekDay, weekdayOf. rewrite Day_midnight. reflexivity. Qed.

Lemma localDate_midnight tza y m d :
  0 <= m <= 11 -> 1 <= d <= DaysInMonth y m ->
  localDate tza (midnight tza y m d) = (y, m, d).
Proof.
  intros Hm Hd.
  destruct (civil_of_MakeDay y m d (midnight tza y m d + tza) Hm Hd (Day_midnight _ _ _ _))
    as (E1 & E2 & E3).
  unfold localDate. rewrite E1, E2, E3. reflexivity.
Qed.

Lemma DaysInMonth_range y m : 0 <= m <= 11 -> 28 <= DaysInMonth y m <= 31.
Proof.
  intros Hm. unfold DaysInMonth.
  set (leap := if DaysInYear y =? 366 then 1 else 0).
  assert (0 <= leap <= 1) as Hl by (subst leap; destruct (_ =? _); lia).
  pose proof (monthStart_bounds leap m Hl Hm). lia.
Qed.

Lemma firstOccurrence_least year month dow :
  0 <= dow <= 6 ->
  let d1 := firstOccurrence year month dow in
  1 <= d1 <= 7 /\ weekdayOf year (month - 1) d1 = dow /\
  forall d, 1 <= d < d1 -> weekdayOf year (month - 1) d <> dow.
Proof.
  intros Hd d1. subst d1. unfold firstOccurrence, weekdayOf.
  split; [div_lia|]. split.
  - rewrite (MakeDay_linear _ _ (1 + _)). div_lia.
  - intros d Hdd. rewrite (MakeDay_linear _ _ d). div_lia.
Qed.

Section NthDate.

Variables tza now : Z.
Hypothesis tza_range : - msPerDay <= tza <= msPerDay.

Lemma newDateYMD_midnight (h : heap) y m d :
  100 <= y <= 275000 -> 0 <= m <= 12 -> -10000 <= d <= 10000 ->
  newDateYMD tza (Num y) (Num m) (Num d) h
  = (Normal (length h), h ++ [Num (midnight tza y m d)]).
Proof.
  intros Hy Hm Hd. unfold newDateYMD.
  destruct (Z.leb_spec 0 y); [|lia]. destruct (Z.leb_spec y 99); [lia|].
  cbn [andb]. unfold alloc, UTC, MakeDate. do 3 f_equal.
  rewrite Z.add_0_r. fold (midnight tza y m d).
  replace (midnight tza y m d) with (midnight tza y m d + 0 * msPerDay) by lia.
  apply clip_in_range, midnight_range; auto; lia.
Qed.

Lemma calculateNthDate_prefix fuel dow month year (h : heap) :
  100 <= year <= 275000 -> 1 <= month <= 12 -> 0 <= dow <= 6 ->
  (7 <= fuel)%nat ->
  forall (k : loc -> JS loc),
  (let* firstDay := newDateYMD tza (Num year) (Num (month - 1)) (Num 1) in
   let* date := newDateCopy firstDay in
   scan tza fuel date dow 1 ;;; k date) h
  = k (S (length h))
      (h ++ [Num (midnight tza year (month - 1) 1);
             Num (midnight tza year (month - 1) (firstOccurrence year month dow))]).
Proof.
  intros Hy Hm Hd Hf k.
  rewrite (bind_Normal _ _ _ _ _ (newDateYMD_midnight h year (month - 1) 1
             Hy ltac:(lia) ltac:(lia))).
  set (first := midnight tza year (month - 1) 1).
  rewrite (bind_Normal _ _ _ _ _ (newDateCopy_lookup (length h) (h ++ [Num first]) (Num first)
             ltac:(apply list_lookup_middle; reflexivity))).
  rewrite length_app. cbn [length]. replace (length h + 1)%nat with (S (length h)) by lia.
  assert (((h ++ [Num first]) ++ [Num first]) !! S (length h) = Some (Num first)) as E.
  { apply list_lookup_middle. rewrite length_app. cbn. lia. }
  set (j := (1 * (dow - WeekDay (first + tza))) mod 7).
  assert (0 <= j <= 6) as Hj by (subst j; div_lia).
  rewrite (bind_Normal _ _ _ _ _ (scan_finds tza fuel (S (length h)) dow 1 _ first E Hd
             ltac:(left; reflexivity)
             ltac:(intros i Hi; fold j in Hi; replace (1 * i * msPerDay) with (i * msPerDay) by lia;
                   apply midnight_range; auto; lia)
             ltac:(fold j; lia))).
  fold j. f_equal.
  replace (first + 1 * j * msPerDay) with (first + j * msPerDay) by lia.
  subst first. rewrite midnight_shift.
  assert (1 + j = firstOccurrence year month dow) as <-.
  { unfold firstOccurrence. subst j. rewrite WeekDay_midnight. f_equal. f_equal. lia. }
  rewrite <- (assoc_L (++)). cbn [app].
  rewrite (insert_app_r_alt h _ (S (length h))) by lia.
  replace (S (length h) - length h)%nat with 1%nat by lia. reflexivity.
Qed.

Lemma calculateNthDate_scanned fuel nth dow month year (h : heap) :
  100 <= year <= 275000 -> 1 <= month <= 12 -> 0 <= dow <= 6 ->
  (7 <= fuel)%nat ->
  calculateNthDate tza now fuel nth dow month (Some (Num year)) h
  = (if nth =? -1 then
       let* lastDay := newDateYMD tza (Num year) (Num month) (Num 0) in
       let* lastDate := newDateCopy lastDay in
       scan tza fuel lastDate dow (-1) ;;; ret lastDate
     else
       let* dt := getDate tza (S (length h)) in
       setDate tza (S (length h)) (num_add dt ((nth - 1) * 7)) ;;;
       let* m := getMonth tza (S (length h)) in
       if strict_ne m (month - 1) then throw (NoOccurrence nth)
       else ret (S (length h)))
      (h ++ [Num (midnight tza year (month - 1) 1);
             Num (midnight tza year (month - 1) (firstOccurrence year month dow))]).
Proof.
  intros Hy Hm Hd Hf. unfold calculateNthDate.
  rewrite (bind_Normal _ _ _ _ _ (eq_refl : ret (Num year) h = (Normal (Num year), h))).
  etransitivity; [apply (calculateNthDate_prefix fuel dow month year h Hy Hm Hd Hf)|].
  reflexivity.
Qed.

End NthDate.

Lemma MakeDay_last y month :
  1 <= month <= 12 -> MakeDay y month 0 = MakeDay y (month - 1) (DaysInMonth y (month - 1)).
Proof.
  intros Hm. unfold DaysInMonth.
  replace (month - 1 + 1) with month by lia.
  destruct (Z.eq_dec month 12) as [->|Hne].
  - unfold MakeDay. change (12 / 12) with 1. change (12 mod 12) with 0.
    change ((12 - 1) / 12) with 0. change ((12 - 1) mod 12) with 11.
    rewrite !Z.add_0_r, DayFromYear_succ.
    destruct (DaysInYear_cases y) as [E|E]; rewrite !E; simpl; lia.
  - unfold MakeDay.
    replace (month / 12) with 0 by div_lia.
    replace ((month - 1) / 12) with 0 by div_lia.
    replace (month mod 12) with month by div_lia.
    replace ((month - 1) mod 12) with (month - 1) by div_lia.
    rewrite !Z.add_0_r. lia.
Qed.

Lemma lastOccurrence_greatest year month dow :
  1 <= month <= 12 -> 0 <= dow <= 6 ->
  let last := DaysInMonth year (month - 1) in
  let dl := lastOccurrence year month dow in
  last - 6 <= dl <= last /\ weekdayOf year (month - 1) dl = dow /\
  forall d, dl < d <= last -> weekdayOf year (month - 1) d <> dow.
Proof.
  intros Hm Hd last dl. subst dl. unfold lastOccurrence. fold last.
  unfold weekdayOf. rewrite (MakeDay_linear _ _ last).
  split; [div_lia|]. split.
  - rewrite (MakeDay_linear _ _ (last - _)). div_lia.
  - intros d Hdd. rewrite (MakeDay_linear _ _ d). div_lia.
Qed.

Lemma calculateNthDate_forward tza now fuel (h : heap) year month dow n :
  - msPerDay <= tza <= msPerDay ->
  100 <= year <= 275000 -> 1 <= month <= 12 -> 0 <= dow <= 6 ->
  -1000 <= n <= 1000 -> n <> -1 -> (7 <= fuel)%nat ->
  let advanced :=
    midnight tza year (month - 1) (firstOccurrence year month dow + (n - 1) * 7) in
  calculateNthDate tza now fuel n dow month (Some (Num year)) h
  = (if MonthFromTime (advanced + tza) =? month - 1 then Normal (S (length h))
     else Throw (NoOccurrence n),
     h ++ [Num (midnight tza year (month - 1) 1); Num advanced]).
Proof.
  intros Ht Hy Hm Hd Hn Hn1 Hf advanced.
  pose proof (firstOccurrence_least year month dow Hd) as (L1 & _).
  set (d1 := firstOccurrence year month dow) in *.
  rewrite (calculateNthDate_scanned tza now Ht fuel n dow month year h Hy Hm Hd Hf).
  fold d1. destruct (Z.eqb_spec n (-1)) as [?|_]; [contradiction|].
  set (first := midnight tza year (month - 1) 1).
  set (h1 := h ++ [Num first; Num (midnight tza year (month - 1) d1)]).
  assert (h1 !! S (length h) = Some (Num (midnight tza year (month - 1) d1))) as E.
  { subst h1. rewrite lookup_app_r by lia.
    replace (S (length h) - length h)%nat with 1%nat by lia. reflexivity. }
  rewrite (bind_Normal _ _ _ _ _ (getDate_Num tza _ _ _ E)). cbn [num_add].
  rewrite (bind_Normal _ _ _ _ _ (setDate_Num tza _ _ _ _ E)).
  replace (DateFromTime (midnight tza year (month - 1) d1 + tza) + (n - 1) * 7 -
           DateFromTime (midnight tza year (month - 1) d1 + tza)) with ((n - 1) * 7) by lia.
  rewrite clip_in_range by (apply midnight_range; auto; lia).
  rewrite midnight_shift. fold advanced.
  assert (<[S (length h) := Num advanced]> h1 = h ++ [Num first; Num advanced]) as ->.
  { subst h1. rewrite (insert_app_r_alt h _ (S (length h))) by lia.
    replace (S (length h) - length h)%nat with 1%nat by lia. reflexivity. }
  assert ((h ++ [Num first; Num advanced]) !! S (length h) = Some (Num advanced)) as E'.
  { rewrite lookup_app_r by lia.
    replace (S (length h) - length h)%nat with 1%nat by lia. reflexivity. }
  rewrite (bind_Normal _ _ _ _ _ (getMonth_Num tza _ _ _ E')).
  unfold strict_ne. destruct (MonthFromTime (advanced + tza) =? month - 1); reflexivity.
Qed.

Lemma calculateNthDate_backward tza now fuel (h : heap) year month dow :
  - msPerDay <= tza <= msPerDay ->
  100 <= year <= 275000 -> 1 <= month <= 12 -> 0 <= dow <= 6 -> (7 <= fuel)%nat ->
  calculateNthDate tza now fuel (-1) dow month (Some (Num year)) h
  = (Normal (3 + length h)%nat,
     h ++ [Num (midnight tza year (month - 1) 1);
           Num (midnight tza year (month - 1) (firstOccurrence year month dow));
           Num (midnight tza year (month - 1) (DaysInMonth year (month - 1)));
           Num (midnight tza year (month - 1) (lastOccurrence year month dow))]).
Proof.
  intros Ht Hy Hm Hd Hf.
  set (last := DaysInMonth year (month - 1)). set (dl := lastOccurrence year month dow).
  pose proof (lastOccurrence_greatest year month dow Hm Hd) as (G1 & G2 & G3).
  fold last dl in G1, G2, G3.
  pose proof (DaysInMonth_range year (month - 1) ltac:(lia)) as R. fold last in R.
  rewrite (calculateNthDate_scanned tza now Ht fuel (-1) dow month year h Hy Hm Hd Hf).
  change (-1 =? -1) with true. cbv iota.
  set (h1 := h ++ _).
  assert (length h1 = (2 + length h)%nat) as Hl1 by (subst h1; rewrite length_app; cbn; lia).
  rewrite (bind_Normal _ _ _ _ _ (newDateYMD_midnight tza Ht h1 year month 0
             Hy ltac:(lia) ltac:(lia))).
  assert (midnight tza year month 0 = midnight tza year (month - 1) last) as ->
    by (unfold midnight; rewrite MakeDay_last by lia; reflexivity).
  set (lastDay := midnight tza year (month - 1) last).
  rewrite (bind_Normal _ _ _ _ _ (newDateCopy_lookup (length h1) (h1 ++ [Num lastDay]) (Num lastDay)
             ltac:(apply list_lookup_middle; reflexivity))).
  set (h2 := (h1 ++ [Num lastDay]) ++ [Num lastDay]).
  assert (length (h1 ++ [Num lastDay]) = (3 + length h)%nat) as Hl2
    by (rewrite length_app, Hl1; cbn; lia).
  rewrite Hl2.
  assert (h2 !! (3 + length h)%nat = Some (Num lastDay)) as E
    by (subst h2; apply list_lookup_middle; lia).
  set (j := (-1 * (dow - WeekDay (lastDay + tza))) mod 7).
  assert (0 <= j <= 6) as Hj by (subst j; div_lia).
  rewrite (bind_Normal _ _ _ _ _ (scan_finds tza fuel (3 + length h) dow (-1) _ lastDay E Hd
             ltac:(right; reflexivity)
             ltac:(intros i Hi; fold j in Hi;
                   replace (-1 * i * msPerDay) with ((- i) * msPerDay) by lia;
                   apply midnight_range; auto; lia)
             ltac:(fold j; lia))).
  fold j. unfold ret. f_equal.
  replace (lastDay + -1 * j * msPerDay) with (lastDay + (- j) * msPerDay) by lia.
  subst lastDay. rewrite midnight_shift.
  assert (last + - j = dl) as ->.
  { subst dl j. unfold lastOccurrence. fold last. rewrite WeekDay_midnight.
    replace (-1 * (dow - weekdayOf year (month - 1) last))
      with (weekdayOf year (month - 1) last - dow) by lia. lia. }
  subst h2 h1. rewrite <- !(assoc_L (++)). cbn [app].
  rewrite (insert_app_r_alt h _ (3 + length h)) by lia.
  replace (3 + length h - length h)%nat with 3%nat by lia. reflexivity.
Qed.

(** C5: for a valid year, month and weekday, the forward scan of
    [calculateNthDate] stops on the first day of the month with that weekday;
    the function advances it by [(nthOccurrence - 1) * 7] days and throws
    exactly when the month of the advanced date is not the requested one; for
    [nthOccurrence] from 1 to 4 the advanced date is day
    [firstOccurrence + (nthOccurrence - 1) * 7] of the requested month. *)
Theorem calculateNthDate_nth_occurrence tza now fuel (h : heap) year month dow n :
  - msPerDay <= tza <= msPerDay ->
  100 <= year <= 275000 -> 1 <= month <= 12 -> 0 <= dow <= 6 ->
  -1000 <= n <= 1000 -> n <> -1 -> (7 <= fuel)%nat ->
  let d1 := firstOccurrence year month dow in
  let advanced := midnight tza year (month - 1) (d1 + (n - 1) * 7) in
  (1 <= d1 <= 7 /\ weekdayOf year (month - 1) d1 = dow /\
   forall d, 1 <= d < d1 -> weekdayOf year (month - 1) d <> dow) /\
  calculateNthDate tza now fuel n dow month (Some (Num year)) h
  = (if MonthFromTime (advanced + tza) =? month - 1 then Normal (S (length h))
     else Throw (NoOccurrence n),
     h ++ [Num (midnight tza year (month - 1) 1); Num advanced]) /\
  (1 <= n <= 4 -> localDate tza advanced = (year, month - 1, d1 + (n - 1) * 7)).
Proof.
  intros Ht Hy Hm Hd Hn Hn1 Hf d1 advanced.
  pose proof (firstOccurrence_least year month dow Hd) as L. fold d1 in L.
  split; [exact L|]. destruct L as (L1 & _). split.
  - apply calculateNthDate_forward; assumption.
  - intros Hn4. apply localDate_midnight; [lia|].
    pose proof (DaysInMonth_range year (month - 1) ltac:(lia)). lia.
Qed.

(** C6: with [nthOccurrence = -1], [calculateNthDate] returns a separate
    Date object, scanned backward from the last day of the month: its civil
    date lies in the requested month, has the requested weekday, and no
    later day of the month has that weekday. *)
Theorem calculateNthDate_last_occurrence tza now fuel (h : heap) year month dow :
  - msPerDay <= tza <= msPerDay ->
  100 <= year <= 275000 -> 1 <= month <= 12 -> 0 <= dow <= 6 -> (7 <= fuel)%nat ->
  let last := DaysInMonth year (month - 1) in
  let dl := lastOccurrence year month dow in
  calculateNthDate tza now fuel (-1) dow month (Some (Num year)) h
  = (Normal (3 + length h)%nat,
     h ++ [Num (midnight tza year (month - 1) 1);
           Num (midnight tza year (month - 1) (firstOccurrence year month dow));
           Num (midnight tza year (month - 1) last);
           Num (midnight tza year (month - 1) dl)]) /\
  localDate tza (midnight tza year (month - 1) last) = (year, month - 1, last) /\
  localDate tza (midnight tza year (month - 1) dl) = (year, month - 1, dl) /\
  1 <= dl <= last /\
  weekdayOf year (month - 1) dl = dow /\
  (forall d, dl < d <= last -> weekdayOf year (month - 1) d <> dow).
Proof.
  intros Ht Hy Hm Hd Hf last dl.
  pose proof (lastOccurrence_greatest year month dow Hm Hd) as (G1 & G2 & G3).
  fold last dl in G1, G2, G3.
  pose proof (DaysInMonth_range year (month - 1) ltac:(lia)) as R. fold last in R.
  split; [|repeat split; try (apply localDate_midnight); auto; lia].
  apply calculateNthDate_backward; assumption.
Qed.

Lemma calculateNthDate_nth_occurrence_witness :
  firstOccurrence 2024 3 2 = 5 /\
  calculateNthDate 0 0 7 1 2 3 (Some (Num 2024)) []
  = (Normal 1%nat, [Num (midnight 0 2024 2 1); Num (midnight 0 2024 2 5)]) /\
  localDate 0 (midnight 0 2024 2 5) = (2024, 2, 5).
Proof.
  assert (- msPerDay <= 0 <= msPerDay) as H1 by (unfold msPerDay; lia).
  destruct (calculateNthDate_nth_occurrence 0 0 7 [] 2024 3 2 1 H1
              ltac:(lia) ltac:(lia) ltac:(lia) ltac:(lia) ltac:(lia) ltac:(lia))
    as (_ & B & C).
  split; [reflexivity|]. split; [exact B|]. apply C. lia.
Defined.

Lemma calculateNthDate_last_occurrence_witness :
  lastOccurrence 2024 3 5 = 29 /\
  fst (calculateNthDate 0 0 7 (-1) 5 3 (Some (Num 2024)) []) = Normal 3%nat /\
  snd (calculateNthDate 0 0 7 (-1) 5 3 (Some (Num 2024)) []) !! 3%nat
  = Some (Num (midnight 0 2024 2 29)) /\
  localDate 0 (midnight 0 2024 2 29) = (2024, 2, 29).
Proof.
  assert (- msPerDay <= 0 <= msPerDay) as H1 by (unfold msPerDay; lia).
  destruct (calculateNthDate_last_occurrence 0 0 7 [] 2024 3 5 H1
              ltac:(lia) ltac:(lia) ltac:(lia) ltac:(lia))
    as (A & _ & C & _).
  split; [reflexivity|]. rewrite A. split; [reflexivity|]. split; [reflexivity|]. exact C.
Defined.


(** ** [calculateRelativeDate] *)

Lemma setMonth_Num tza d (h : heap) t m :
  h !! d = Some (Num t) ->
  setMonth tza d (Num m) h
  = (Normal tt,
     <[d := clip (atCivil tza t (YearFromTime (t + tza)) m (DateFromTime (t + tza)))]> h).
Proof.
  intros E. unfold setMonth, bind, thisTimeValue. rewrite E. cbv beta iota.
  unfold setTimeValue, atCivil, UTC, LocalTime. reflexivity.
Qed.

Lemma setFullYear_Num tza d (h : heap) t y :
  h !! d = Some (Num t) ->
  setFullYear tza d (Num y) h
  = (Normal tt,
     <[d := clip (atCivil tza t y (MonthFromTime (t + tza)) (DateFromTime (t + tza)))]> h).
Proof.
  intros E. unfold setFullYear, bind, thisTimeValue. rewrite E. cbv beta iota zeta.
  unfold setTimeValue, atCivil, UTC, LocalTime. reflexivity.
Qed.

Lemma add_months tza d (h : heap) t k :
  h !! d = Some (Num t) ->
  (let* m := getMonth tza d in setMonth tza d (num_add m k)) h
  = (Normal tt,
     <[d := clip (atCivil tza t (YearFromTime (t + tza)) (MonthFromTime (t + tza) + k)
                    (DateFromTime (t + tza)))]> h).
Proof.
  intros E. rewrite (bind_Normal _ _ _ _ _ (getMonth_Num tza d h t E)).
  cbn [num_add]. apply setMonth_Num, E.
Qed.

Lemma add_years tza d (h : heap) t k :
  h !! d = Some (Num t) ->
  (let* y := getFullYear tza d in setFullYear tza d (num_add y k)) h
  = (Normal tt,
     <[d := clip (atCivil tza t (YearFromTime (t + tza) + k) (MonthFromTime (t + tza))
                    (DateFromTime (t + tza)))]> h).
Proof.
  intros E. rewrite (bind_Normal _ _ _ _ _ (getFullYear_Num tza d h t E)).
  cbn [num_add]. apply setFullYear_Num, E.
Qed.

Lemma insert_last (h : heap) (v w : number) :
  <[length h := w]> (h ++ [v]) = h ++ [w].
Proof.
  rewrite (insert_app_r_alt h _ (length h)) by lia.
  replace (length h - length h)%nat with 0%nat by lia. reflexivity.
Qed.

Lemma lookup_last (h : heap) (v : number) : (h ++ [v]) !! length h = Some v.
Proof. apply list_lookup_middle. reflexivity. Qed.

Lemma localDate_atCivil tza t y m d :
  let y' := y + m / 12 in
  let m' := m mod 12 in
  1 <= d <= DaysInMonth y' m' ->
  localDate tza (atCivil tza t y m d) = (y', m', d).
Proof.
  intros y' m' Hd.
  assert (0 <= m' <= 11) as Hm by (subst m'; div_lia).
  assert (Day (atCivil tza t y m d + tza) = MakeDay y' m' d) as HD.
  { unfold atCivil, MakeDate, Day, TimeWithinDay.
    replace (MakeDay y' m' d) with (MakeDay y m d).
    - unfold msPerDay. div_lia.
    - unfold MakeDay. subst y' m'.
      replace (m mod 12 / 12) with 0 by div_lia.
      replace (m mod 12 mod 12) with (m mod 12) by div_lia.
      rewrite Z.add_0_r. reflexivity. }
  destruct (civil_of_MakeDay y' m' d _ Hm Hd HD) as (E1 & E2 & E3).
  unfold localDate. rewrite E1, E2, E3. reflexivity.
Qed.

(** C7: [calculateRelativeDate] copies the base date and moves the copy by
    the signed period: [period] days, or [7 * period] days, or [period]
    calendar months, or [period] calendar years, backward for ["before"] and
    forward for ["after"]; any other unit throws the invalid-unit error.
    Adding months or years keeps the day of the month when the target month
    has such a day. *)
Theorem calculateRelativeDate_offset tza (h : heap) baseDate t period unit direction sign :
  h !! baseDate = Some (Num t) ->
  0 < period ->
  (direction = "before" /\ sign = -1) \/ (direction = "after" /\ sign = 1) ->
  let y := YearFromTime (t + tza) in
  let m := MonthFromTime (t + tza) in
  let d := DateFromTime (t + tza) in
  let run := calculateRelativeDate tza baseDate period unit direction h in
  (unit = "days" ->
   run = (Normal (length h), h ++ [clip (t + sign * period * msPerDay)])) /\
  (unit = "weeks" ->
   run = (Normal (length h), h ++ [clip (t + sign * (7 * period) * msPerDay)])) /\
  (unit = "months" ->
   run = (Normal (length h), h ++ [clip (atCivil tza t y (m + sign * period) d)])) /\
  (unit = "years" ->
   run = (Normal (length h), h ++ [clip (atCivil tza t (y + sign * period) m d)])) /\
  (unit <> "days" -> unit <> "weeks" -> unit <> "months" -> unit <> "years" ->
   run = (Throw (InvalidUnit unit), h ++ [Num t])) /\
  (1 <= d <= DaysInMonth (y + (m + sign * period) / 12) ((m + sign * period) mod 12) ->
   localDate tza (atCivil tza t y (m + sign * period) d)
   = (y + (m + sign * period) / 12, (m + sign * period) mod 12, d)) /\
  (1 <= d <= DaysInMonth (y + sign * period) m ->
   localDate tza (atCivil tza t (y + sign * period) m d) = (y + sign * period, m, d)).
Proof.
  intros E Hp Hdir y m d run.
  assert ((if String.eqb direction "before" then -1 else 1) = sign) as Hsign.
  { destruct Hdir as [[-> ->]|[-> ->]]; reflexivity. }
  assert (run = ((if String.eqb unit "days" then
                    let* dt := getDate tza (length h) in
                    setDate tza (length h) (num_add dt (period * sign))
                  else if String.eqb unit "weeks" then
                    let* dt := getDate tza (length h) in
                    setDate tza (length h) (num_add dt (period * 7 * sign))
                  else if String.eqb unit "months" then
                    let* m := getMonth tza (length h) in
                    setMonth tza (length h) (num_add m (period * sign))
                  else if String.eqb unit "years" then
                    let* y := getFullYear tza (length h) in
                    setFullYear tza (length h) (num_add y (period * sign))
                  else throw (InvalidUnit unit)) ;;; ret (length h)) (h ++ [Num t])) as Hrun.
  { subst run. unfold calculateRelativeDate.
    rewrite (bind_Normal _ _ _ _ _ (newDateCopy_lookup baseDate h (Num t) E)).
    rewrite Hsign. reflexivity. }
  pose proof (lookup_last h (Num t)) as L.
  repeat split.
  - intros ->. rewrite Hrun. cbv [String.eqb Ascii.eqb Bool.eqb]. cbv iota.
    rewrite (bind_Normal _ _ _ _ _ (add_days tza _ _ _ _ L)).
    rewrite insert_last. unfold ret. do 4 f_equal. lia.
  - intros ->. rewrite Hrun. cbv [String.eqb Ascii.eqb Bool.eqb]. cbv iota.
    rewrite (bind_Normal _ _ _ _ _ (add_days tza _ _ _ _ L)).
    rewrite insert_last. unfold ret. do 4 f_equal. lia.
  - intros ->. rewrite Hrun. cbv [String.eqb Ascii.eqb Bool.eqb]. cbv iota.
    rewrite (bind_Normal _ _ _ _ _ (add_months tza _ _ _ _ L)).
    rewrite insert_last. unfold ret. subst y m d. do 5 f_equal. lia.
  - intros ->. rewrite Hrun. cbv [String.eqb Ascii.eqb Bool.eqb]. cbv iota.
    rewrite (bind_Normal _ _ _ _ _ (add_years tza _ _ _ _ L)).
    rewrite insert_last. unfold ret. subst y m d. do 5 f_equal. lia.
  - intros N1 N2 N3 N4. rewrite Hrun.
    destruct (String.eqb_spec unit "days"); [contradiction|].
    destruct (String.eqb_spec unit "weeks"); [contradiction|].
    destruct (String.eqb_spec unit "months"); [contradiction|].
    destruct (String.eqb_spec unit "years"); [contradiction|].
    reflexivity.
  - intros Hd. apply localDate_atCivil. exact Hd.
  - intros Hd. pose proof (MonthFromTime_range (t + tza)) as R. fold m in R.
    pose proof (localDate_atCivil tza t (y + sign * period) m d) as X. cbv zeta in X.
    replace (m / 12) with 0 in X by div_lia.
    replace (m mod 12) with m in X by div_lia.
    rewrite Z.add_0_r in X. apply X. exact Hd.
Qed.

(** ** [calculateEventDate] *)

Section EventDate.

Variables tza now : Z.

Lemma calculateEventDate_fixed fuel e evs :
  dateType e = "fixed" ->
  calculateEventDate tza now (S fuel) e evs
  = if negb (truthyDate (startDate e)) then ret None
    else let* d := parseSimpleDate tza (startDate e) in ret (Some d).
Proof. intros E. cbn [calculateEventDate]. rewrite E. reflexivity. Qed.

Lemma calculateEventDate_nth fuel e evs :
  dateType e = "nth" ->
  calculateEventDate tza now (S fuel) e evs
  = match truthyNum (nthOccurrence e), dayOfWeek e, truthyNum (month e) with
    | Some nth, Some dow, Some mon =>
        try_catch
          (let* baseYear :=
             match truthyNum (baseYear e) with
             | Some y => ret (Num y)
             | None => let* d := newDateNow now in getFullYear tza d
             end in
           let* d := calculateNthDate tza now fuel nth dow mon (Some baseYear) in
           ret (Some d))
          (ret None)
    | _, _, _ => ret None
    end.
Proof. intros E. cbn [calculateEventDate]. rewrite E. reflexivity. Qed.

Lemma calculateEventDate_relative fuel e evs :
  dateType e = "relative" ->
  calculateEventDate tza now (S fuel) e evs
  = match truthyStr (relativeEventName e), truthyNum (relativePeriod e),
          truthyStr (relativeUnit e), truthyStr (relativeDirection e) with
    | Some name, Some period, Some unit, Some direction =>
        match List.find (fun x => String.eqb (title x) name) evs with
        | None => ret None
        | Some referenceEvent =>
            let* referenceDate := calculateEventDate tza now fuel referenceEvent evs in
            match referenceDate with
            | None => ret None
            | Some rd =>
                try_catch
                  (let* d := calculateRelativeDate tza rd period unit direction in
                   ret (Some d))
                  (ret None)
            end
        end
    | _, _, _, _ => ret None
    end.
Proof. intros E. cbn [calculateEventDate]. rewrite E. reflexivity. Qed.

Lemma calculateEventDate_other fuel e evs :
  dateType e <> "fixed" -> dateType e <> "nth" -> dateType e <> "relative" ->
  calculateEventDate tza now (S fuel) e evs = ret None.
Proof.
  intros N1 N2 N3. cbn [calculateEventDate].
  destruct (String.eqb_spec (dateType e) "fixed"); [contradiction|].
  destruct (String.eqb_spec (dateType e) "nth"); [contradiction|].
  destruct (String.eqb_spec (dateType e) "relative"); [contradiction|].
  reflexivity.
Qed.

(** Date primitives always complete normally. *)
Lemma total_bind {A B} (m : JS A) (k : A -> JS B) :
  total m -> (forall a, total (k a)) -> total (bind m k).
Proof.
  intros Hm Hk h. destruct (Hm h) as (a & h' & E).
  rewrite (bind_Normal _ _ _ _ _ E). apply Hk.
Qed.

Lemma total_ret {A} (a : A) : total (ret a).
Proof. intros h. eexists _, _. reflexivity. Qed.

Lemma total_alloc tv : total (alloc tv).
Proof. intros h. eexists _, _. reflexivity. Qed.

Lemma total_thisTimeValue d : total (thisTimeValue d).
Proof. intros h. eexists _, _. reflexivity. Qed.

Lemma total_setTimeValue d tv : total (setTimeValue d tv).
Proof. intros h. eexists _, _. reflexivity. Qed.

Lemma total_newDateCopy d : total (newDateCopy d).
Proof. apply total_bind; [apply total_thisTimeValue|intros; apply total_alloc]. Qed.

Lemma total_newDateYMD y m d : total (newDateYMD tza y m d).
Proof. unfold newDateYMD. destruct y, m, d; apply total_alloc. Qed.

Lemma total_getter f d : total (getter tza f d).
Proof.
  apply total_bind; [apply total_thisTimeValue|]. intros [|t]; apply total_ret.
Qed.

Lemma total_setDate d dt : total (setDate tza d dt).
Proof.
  apply total_bind; [apply total_thisTimeValue|].
  intros [|t]; [apply total_ret|]. destruct dt; apply total_setTimeValue.
Qed.

Lemma total_setMonth d m : total (setMonth tza d m).
Proof.
  apply total_bind; [apply total_thisTimeValue|].
  intros [|t]; [apply total_ret|]. destruct m; apply total_setTimeValue.
Qed.

Lemma total_setFullYear d y : total (setFullYear tza d y).
Proof.
  apply total_bind; [apply total_thisTimeValue|].
  intros tv. destruct y; apply total_setTimeValue.
Qed.

Lemma total_parseSimpleDate x : total (parseSimpleDate tza x).
Proof.
  destruct x; [apply total_alloc|apply total_newDateYMD|apply total_newDateCopy].
Qed.

(** [calculateRelativeDate] has no loop: it returns or throws. *)
Lemma calculateRelativeDate_completes rd period unit direction (h : heap) :
  (exists d h', calculateRelativeDate tza rd period unit direction h = (Normal d, h')) \/
  (exists h', calculateRelativeDate tza rd period unit direction h
              = (Throw (InvalidUnit unit), h')).
Proof.
  unfold calculateRelativeDate.
  destruct (total_newDateCopy rd h) as (result & h1 & E).
  rewrite (bind_Normal _ _ _ _ _ E).
  set (k := if String.eqb direction "before" then -1 else 1).
  assert (forall (m : JS Datatypes.unit), total m ->
            exists d h', (m ;;; ret result) h1 = (Normal d, h')) as T.
  { intros m Hm. destruct (Hm h1) as (a & h' & Em).
    rewrite (bind_Normal _ _ _ _ _ Em). eexists _, _. reflexivity. }
  destruct (String.eqb unit "days").
  { left. apply T, total_bind; [apply total_getter|intros; apply total_setDate]. }
  destruct (String.eqb unit "weeks").
  { left. apply T, total_bind; [apply total_getter|intros; apply total_setDate]. }
  destruct (String.eqb unit "months").
  { left. apply T, total_bind; [apply total_getter|intros; apply total_setMonth]. }
  destruct (String.eqb unit "years").
  { left. apply T, total_bind; [apply total_getter|intros; apply total_setFullYear]. }
  right. eexists. reflexivity.
Qed.

Lemma calculateRelativeDate_invalid_unit rd period unit direction (h : heap) :
  unit <> "days" -> unit <> "weeks" -> unit <> "months" -> unit <> "years" ->
  exists h', calculateRelativeDate tza rd period unit direction h
             = (Throw (InvalidUnit unit), h').
Proof.
  intros N1 N2 N3 N4. unfold calculateRelativeDate.
  destruct (total_newDateCopy rd h) as (result & h1 & E).
  rewrite (bind_Normal _ _ _ _ _ E).
  destruct (String.eqb_spec unit "days"); [contradiction|].
  destruct (String.eqb_spec unit "weeks"); [contradiction|].
  destruct (String.eqb_spec unit "months"); [contradiction|].
  destruct (String.eqb_spec unit "years"); [contradiction|].
  eexists. reflexivity.
Qed.

Lemma try_catch_null {A} (m : JS A) (h : heap) :
  (exists a h', try_catch (let* d := m in ret (Some d)) (ret None) h = (Normal (Some a), h')
                /\ m h = (Normal a, h')) \/
  (exists e h', try_catch (let* d := m in ret (Some d)) (ret None) h = (Normal None, h')
                /\ m h = (Throw e, h')) \/
  (exists h', try_catch (let* d := m in ret (Some d)) (ret None) h = (Diverge, h')
              /\ m h = (Diverge, h')).
Proof.
  unfold try_catch, bind. destruct (m h) as [[a|e|] h'].
  - left. eexists _, _. split; reflexivity.
  - right. left. eexists _, _. split; reflexivity.
  - right. right. eexists. split; reflexivity.
Qed.

Lemma afterReference_completes period unit direction rd (h : heap) :
  exists v h', afterReference tza period unit direction rd h = (Normal v, h').
Proof.
  destruct rd as [rd|]; [|eexists _, _; reflexivity]. unfold afterReference.
  destruct (try_catch_null (calculateRelativeDate tza rd period unit direction) h)
    as [(a & h' & E & _)|[(e & h' & E & _)|(h' & E & D)]].
  - eexists _, _. exact E.
  - eexists _, _. exact E.
  - destruct (calculateRelativeDate_completes rd period unit direction h)
      as [(d & h2 & X)|(h2 & X)]; congruence.
Qed.

Lemma afterReference_invalid_unit period unit direction rd (h : heap) :
  unit <> "days" -> unit <> "weeks" -> unit <> "months" -> unit <> "years" ->
  exists h', afterReference tza period unit direction rd h = (Normal None, h').
Proof.
  intros N1 N2 N3 N4.
  destruct rd as [rd|]; [|eexists; reflexivity]. unfold afterReference.
  destruct (calculateRelativeDate_invalid_unit rd period unit direction h N1 N2 N3 N4)
    as (h' & E).
  destruct (try_catch_null (calculateRelativeDate tza rd period unit direction) h)
    as [(a & h2 & _ & X)|[(e & h2 & X & _)|(h2 & _ & X)]]; try congruence.
  eexists. exact X.
Qed.

Lemma truthyStr_Some x s : truthyStr x = Some s -> x = Some s /\ s <> EmptyString.
Proof. destruct x as [[|c r]|]; simpl; intros E; inversion E; subst; split; congruence. Qed.

Lemma truthyNum_Some x v : truthyNum x = Some v -> x = Some v /\ v <> 0.
Proof. destruct x as [[|p|p]|]; simpl; intros E; inversion E; subst; split; congruence. Qed.

(** A relative event either stops at once with [null], or resolves its
    reference and continues with [afterReference]. *)
Lemma calculateEventDate_reference fuel e evs :
  dateType e = "relative" ->
  match reference evs e with
  | None => calculateEventDate tza now (S fuel) e evs = ret None
  | Some r =>
      exists period unit direction,
        truthyNum (relativePeriod e) = Some period /\
        truthyStr (relativeUnit e) = Some unit /\
        truthyStr (relativeDirection e) = Some direction /\
        calculateEventDate tza now (S fuel) e evs
        = (let* referenceDate := calculateEventDate tza now fuel r evs in
           afterReference tza period unit direction referenceDate)
  end.
Proof.
  intros E. rewrite (calculateEventDate_relative fuel e evs E).
  unfold reference. rewrite E. change (String.eqb "relative" "relative") with true.
  cbv iota.
  destruct (truthyStr (relativeEventName e)) as [name|]; [|reflexivity].
  destruct (truthyNum (relativePeriod e)) as [period|]; [|reflexivity].
  destruct (truthyStr (relativeUnit e)) as [unit|]; [|reflexivity].
  destruct (truthyStr (relativeDirection e)) as [direction|]; [|reflexivity].
  destruct (find _ evs) as [r|]; [|reflexivity].
  exists period, unit, direction. repeat split; reflexivity.
Qed.

Lemma reference_relative evs e r : reference evs e = Some r -> dateType e = "relative".
Proof.
  unfold reference. destruct (String.eqb_spec (dateType e) "relative"); congruence.
Qed.

Lemma calculateEventDate_no_throw fuel e evs (h : heap) err :
  fst (calculateEventDate tza now fuel e evs h) <> Throw err.
Proof.
  revert e h. induction fuel as [|fuel IH]; intros e h; [discriminate|].
  destruct (String.eqb_spec (dateType e) "fixed") as [E1|N1].
  { rewrite (calculateEventDate_fixed fuel e evs E1).
    destruct (truthyDate (startDate e)); [|discriminate]. cbn [negb].
    destruct (total_parseSimpleDate (startDate e) h) as (a & h' & X).
    rewrite (bind_Normal _ _ _ _ _ X). discriminate. }
  destruct (String.eqb_spec (dateType e) "nth") as [E2|N2].
  { rewrite (calculateEventDate_nth fuel e evs E2).
    destruct (truthyNum (nthOccurrence e)); [|discriminate].
    destruct (dayOfWeek e); [|discriminate].
    destruct (truthyNum (month e)); [|discriminate].
    unfold try_catch. destruct (bind _ _ h) as [[a|x|] h']; discriminate. }
  destruct (String.eqb_spec (dateType e) "relative") as [E3|N3].
  { pose proof (calculateEventDate_reference fuel e evs E3) as R.
    destruct (reference evs e) as [r|]; [|rewrite R; discriminate].
    destruct R as (period & unit & direction & _ & _ & _ & ->).
    specialize (IH r h). unfold bind.
    destruct (calculateEventDate tza now fuel r evs h) as [[rd|x|] h'];
      [|exact IH|discriminate].
    destruct (afterReference_completes period unit direction rd h') as (v & h2 & X).
    rewrite X. discriminate. }
  rewrite (calculateEventDate_other fuel e evs N1 N2 N3). discriminate.
Qed.

End EventDate.

(** ** Reference lookup *)

Lemma find_first_match {A} (p : A -> bool) pre r post :
  (forall x, In x pre -> p x = false) -> p r = true ->
  List.find p (pre ++ r :: post) = Some r.
Proof.
  intros Hpre Hr. induction pre as [|a pre IH]; simpl.
  - rewrite Hr. reflexivity.
  - rewrite (Hpre a (or_introl eq_refl)). apply IH.
    intros x Hx. apply Hpre. right. exact Hx.
Qed.

Lemma find_no_match {A} (p : A -> bool) l :
  (forall x, In x l -> p x = false) -> List.find p l = None.
Proof.
  intros H. induction l as [|a l IH]; simpl; [reflexivity|].
  rewrite (H a (or_introl eq_refl)). apply IH.
  intros x Hx. apply H. right. exact Hx.
Qed.

Lemma reference_not_found evs e :
  dateType e = "relative" ->
  (forall r, In r evs -> Some (title r) <> relativeEventName e) ->
  reference evs e = None.
Proof.
  intros E H. unfold reference. rewrite E.
  change (String.eqb "relative" "relative") with true. cbv iota.
  destruct (truthyStr (relativeEventName e)) as [name|] eqn:En; [|reflexivity].
  apply truthyStr_Some in En as [En _].
  destruct (truthyNum (relativePeriod e)); [|reflexivity].
  destruct (truthyStr (relativeUnit e)); [|reflexivity].
  destruct (truthyStr (relativeDirection e)); [|reflexivity].
  apply find_no_match. intros x Hx.
  destruct (String.eqb_spec (title x) name) as [Et|]; [|reflexivity].
  exfalso. apply (H x Hx). congruence.
Qed.

(** C8 (as amended): a relative event whose [relativeEventName] is the title
    of no event of the snapshot resolves to [null], the value of every other
    failure, and leaves the heap as it was; when its relative fields are
    present,
    the event it resolves next is the first event of the snapshot whose title
    equals [relativeEventName], also when later events share that title. *)
Theorem relative_reference_first_match tza now fuel e evs (h : heap) :
  dateType e = "relative" ->
  ((forall r, In r evs -> Some (title r) <> relativeEventName e) ->
   calculateEventDate tza now (S fuel) e evs h = (Normal None, h)) /\
  (forall name period unit direction pre r post,
     truthyStr (relativeEventName e) = Some name ->
     truthyNum (relativePeriod e) = Some period ->
     truthyStr (relativeUnit e) = Some unit ->
     truthyStr (relativeDirection e) = Some direction ->
     evs = pre ++ r :: post ->
     (forall x, In x pre -> title x <> name) ->
     title r = name ->
     reference evs e = Some r /\
     calculateEventDate tza now (S fuel) e evs h
     = (let* referenceDate := calculateEventDate tza now fuel r evs in
        afterReference tza period unit direction referenceDate) h).
Proof.
  intros E. split.
  - intros H. pose proof (calculateEventDate_reference tza now fuel e evs E) as R.
    rewrite (reference_not_found evs e E H) in R. rewrite R. reflexivity.
  - intros name period unit direction pre r post En Ep Eu Ed -> Hpre Hr.
    assert (reference (pre ++ r :: post) e = Some r) as Href.
    { unfold reference. rewrite E, En, Ep, Eu, Ed.
      change (String.eqb "relative" "relative") with true. cbv iota.
      apply find_first_match.
      - intros x Hx. destruct (String.eqb_spec (title x) name); [|reflexivity].
        exfalso. eapply Hpre; eauto.
      - rewrite Hr. apply String.eqb_refl. }
    split; [exact Href|].
    pose proof (calculateEventDate_reference tza now fuel e (pre ++ r :: post) E) as R.
    rewrite Href in R. destruct R as (p' & u' & d' & Ep' & Eu' & Ed' & ->).
    assert (p' = period) as -> by congruence.
    assert (u' = unit) as -> by congruence.
    assert (d' = direction) as -> by congruence.
    reflexivity.
Qed.

(** C8 fails as stated: a reference that is not found has no result of its
    own.  The event whose reference no event is titled after and the event
    that lacks a field get one and the same value. *)
Lemma reference_not_found_is_null :
  let snapshot := [kickoff; noWeekday; orphan] in
  (forall r, In r snapshot -> Some (title r) <> relativeEventName orphan) /\
  dayOfWeek noWeekday = None /\
  calculateEventDate 0 0 9 orphan snapshot [] = (Normal None, []) /\
  calculateEventDate 0 0 9 noWeekday snapshot [] = (Normal None, []).
Proof.
  split; [|repeat split].
  intros r [<-|[<-|[<-|[]]]]; discriminate.
Qed.

Lemma relative_reference_first_match_witness :
  dateType rehearsal = "relative" /\
  reference [kickoff; launch1; launch2; rehearsal] rehearsal = Some launch1 /\
  calculateEventDate 0 0 2 rehearsal [kickoff; launch1; launch2; rehearsal] []
  = (Normal (Some 1%nat), [Num (midnight 0 2024 11 25); Num (midnight 0 2024 11 22)]) /\
  calculateEventDate 0 0 2 orphan [kickoff; launch1; launch2; rehearsal] [] = (Normal None, []).
Proof.
  destruct (relative_reference_first_match 0 0 1 rehearsal
              [kickoff; launch1; launch2; rehearsal] [] eq_refl) as (_ & B).
  destruct (B "Launch" 3 "days" "before" [kickoff] launch1 [launch2; rehearsal]
              eq_refl eq_refl eq_refl eq_refl eq_refl
              ltac:(intros x [<-|[]]; discriminate) eq_refl) as (R & C).
  destruct (relative_reference_first_match 0 0 1 orphan
              [kickoff; launch1; launch2; rehearsal] [] eq_refl) as (A & _).
  split; [reflexivity|]. split; [exact R|]. split.
  - rewrite C. reflexivity.
  - apply A. intros r [<-|[<-|[<-|[<-|[]]]]]; discriminate.
Defined.

(** ** Missing fields, invalid units and reference cycles *)

Section Unresolvable.

Variables tza now : Z.

Lemma truthyNum_None_null x : x = None -> truthyNum x = None.
Proof. intros ->. reflexivity. Qed.

Lemma truthyStr_None_null x : x = None -> truthyStr x = None.
Proof. intros ->. reflexivity. Qed.

Lemma missing_fixed fuel e evs (h : heap) :
  dateType e = "fixed" -> startDate e = DNull ->
  calculateEventDate tza now (S fuel) e evs h = (Normal None, h).
Proof.
  intros E M. rewrite (calculateEventDate_fixed tza now fuel e evs E), M. reflexivity.
Qed.

Lemma missing_nth fuel e evs (h : heap) :
  dateType e = "nth" ->
  nthOccurrence e = None \/ dayOfWeek e = None \/ month e = None ->
  calculateEventDate tza now (S fuel) e evs h = (Normal None, h).
Proof.
  intros E M. rewrite (calculateEventDate_nth tza now fuel e evs E).
  destruct M as [M|[M|M]]; rewrite M; cbn [truthyNum].
  - reflexivity.
  - destruct (truthyNum (nthOccurrence e)); reflexivity.
  - destruct (truthyNum (nthOccurrence e)); [destruct (dayOfWeek e)|]; reflexivity.
Qed.

Lemma missing_relative fuel e evs (h : heap) :
  dateType e = "relative" ->
  relativeEventName e = None \/ relativePeriod e = None \/
  relativeUnit e = None \/ relativeDirection e = None ->
  calculateEventDate tza now (S fuel) e evs h = (Normal None, h).
Proof.
  intros E M. rewrite (calculateEventDate_relative tza now fuel e evs E).
  destruct M as [M|[M|[M|M]]]; rewrite M; cbn [truthyNum truthyStr].
  - reflexivity.
  - destruct (truthyStr (relativeEventName e)); reflexivity.
  - destruct (truthyStr (relativeEventName e)); [destruct (truthyNum (relativePeriod e))|];
      reflexivity.
  - destruct (truthyStr (relativeEventName e));
      [destruct (truthyNum (relativePeriod e));
       [destruct (truthyStr (relativeUnit e))|]|]; reflexivity.
Qed.

Lemma invalid_unit_step fuel e evs (h : heap) unit :
  dateType e = "relative" -> relativeUnit e = Some unit ->
  unit <> "days" -> unit <> "weeks" -> unit <> "months" -> unit <> "years" ->
  match reference evs e with
  | None => calculateEventDate tza now (S fuel) e evs h = (Normal None, h)
  | Some r =>
      match fst (calculateEventDate tza now fuel r evs h) with
      | Diverge => fst (calculateEventDate tza now (S fuel) e evs h) = Diverge
      | _ => fst (calculateEventDate tza now (S fuel) e evs h) = Normal None
      end
  end.
Proof.
  intros E U N1 N2 N3 N4.
  pose proof (calculateEventDate_reference tza now fuel e evs E) as R.
  destruct (reference evs e) as [r|]; [|rewrite R; reflexivity].
  destruct R as (period & u & direction & _ & Eu & _ & ->).
  apply truthyStr_Some in Eu as [Eu _]. assert (u = unit) as -> by congruence.
  pose proof (calculateEventDate_no_throw tza now fuel r evs h) as NT.
  unfold bind. destruct (calculateEventDate tza now fuel r evs h) as [[rd|x|] h'];
    cbn [fst] in *; [|exfalso; eapply NT; reflexivity|reflexivity].
  destruct (afterReference_invalid_unit tza period unit direction rd h' N1 N2 N3 N4)
    as (h2 & ->). reflexivity.
Qed.

Lemma reference_diverges fuel e evs r (h : heap) :
  reference evs e = Some r ->
  fst (calculateEventDate tza now fuel r evs h) = Diverge ->
  fst (calculateEventDate tza now (S fuel) e evs h) = Diverge.
Proof.
  intros Href D.
  pose proof (calculateEventDate_reference tza now fuel e evs
                (reference_relative evs e r Href)) as R.
  rewrite Href in R. destruct R as (period & u & direction & _ & _ & _ & ->).
  unfold bind. destruct (calculateEventDate tza now fuel r evs h) as [[rd|x|] h'];
    cbn [fst] in D; try discriminate. reflexivity.
Qed.

(** An event that references itself, and two events that reference each
    other, exhaust every fuel. *)
Lemma self_reference_diverges e evs :
  reference evs e = Some e ->
  forall fuel (h : heap), fst (calculateEventDate tza now fuel e evs h) = Diverge.
Proof.
  intros Href fuel. induction fuel as [|fuel IH]; intros h; [reflexivity|].
  apply (reference_diverges fuel e evs e h Href), IH.
Qed.

Lemma mutual_reference_diverges a b evs :
  reference evs a = Some b -> reference evs b = Some a ->
  forall fuel (h : heap),
    fst (calculateEventDate tza now fuel a evs h) = Diverge /\
    fst (calculateEventDate tza now fuel b evs h) = Diverge.
Proof.
  intros Ha Hb fuel. induction fuel as [|fuel IH]; intros h; [split; reflexivity|].
  split.
  - apply (reference_diverges fuel a evs b h Ha), IH.
  - apply (reference_diverges fuel b evs a h Hb), IH.
Qed.

End Unresolvable.

(** The server's [calculateEventDate] lets neither error of its helpers
    out; an event with a [null] required field of its mode resolves to
    [null] and leaves the heap as it was; a relative event with a unit
    outside days, weeks, months and years resolves to [null] when its
    reference is missing or the resolution of the referenced event returns,
    and does not return when that resolution does not. *)
Theorem calculateEventDate_unresolvable_input tza now fuel e evs (h : heap) :
  (forall err, fst (calculateEventDate tza now fuel e evs h) <> Throw err) /\
  (dateType e = "fixed" -> startDate e = DNull ->
   calculateEventDate tza now (S fuel) e evs h = (Normal None, h)) /\
  (dateType e = "nth" ->
   nthOccurrence e = None \/ dayOfWeek e = None \/ month e = None ->
   calculateEventDate tza now (S fuel) e evs h = (Normal None, h)) /\
  (dateType e = "relative" ->
   relativeEventName e = None \/ relativePeriod e = None \/
   relativeUnit e = None \/ relativeDirection e = None ->
   calculateEventDate tza now (S fuel) e evs h = (Normal None, h)) /\
  (forall unit,
     dateType e = "relative" -> relativeUnit e = Some unit ->
     unit <> "days" -> unit <> "weeks" -> unit <> "months" -> unit <> "years" ->
     match reference evs e with
     | None => calculateEventDate tza now (S fuel) e evs h = (Normal None, h)
     | Some r =>
         match fst (calculateEventDate tza now fuel r evs h) with
         | Diverge => fst (calculateEventDate tza now (S fuel) e evs h) = Diverge
         | _ => fst (calculateEventDate tza now (S fuel) e evs h) = Normal None
         end
     end).
Proof.
  split; [intros err; apply calculateEventDate_no_throw|].
  split; [apply missing_fixed|].
  split; [apply missing_nth|].
  split; [apply missing_relative|].
  intros unit. apply invalid_unit_step.
Qed.

(** ** Termination on reference chains that end *)

Section Termination.

Variables tza now : Z.
Hypothesis tza_range : - msPerDay <= tza <= msPerDay.
Hypothesis clock_range : 100 <= YearFromTime (now + tza) <= 275000.

Lemma try_catch_bind_Normal {A B} (m : JS A) (k : A -> JS B) handler (h : heap) a h' :
  m h = (Normal a, h') ->
  try_catch (bind m k) handler h = try_catch (k a) handler h'.
Proof. intros E. unfold try_catch. rewrite (bind_Normal _ _ _ _ _ E). reflexivity. Qed.

Lemma nth_date_completes nth dow mon year (h : heap) :
  -1 <= nth <= 4 -> 0 <= dow <= 6 -> 1 <= mon <= 12 -> 100 <= year <= 275000 ->
  exists v h', forall fuel, (7 <= fuel)%nat ->
    try_catch
      (let* d := calculateNthDate tza now fuel nth dow mon (Some (Num year)) in
       ret (Some d))
      (ret None) h
    = (Normal v, h').
Proof.
  intros Hn Hd Hm Hy. destruct (Z.eq_dec nth (-1)) as [->|Hne].
  - eexists _, _. intros fuel Hf. unfold try_catch.
    rewrite (bind_Normal _ _ _ _ _
      (calculateNthDate_backward tza now fuel h year mon dow tza_range Hy Hm Hd Hf)).
    reflexivity.
  - set (advanced :=
      midnight tza year (mon - 1) (firstOccurrence year mon dow + (nth - 1) * 7)).
    destruct (MonthFromTime (advanced + tza) =? mon - 1) eqn:Em.
    + eexists _, _. intros fuel Hf. unfold try_catch.
      pose proof (calculateNthDate_forward tza now fuel h year mon dow nth tza_range
                    Hy Hm Hd ltac:(lia) Hne Hf) as X.
      cbv zeta in X. fold advanced in X. rewrite Em in X.
      rewrite (bind_Normal _ _ _ _ _ X). reflexivity.
    + eexists _, _. intros fuel Hf. unfold try_catch.
      pose proof (calculateNthDate_forward tza now fuel h year mon dow nth tza_range
                    Hy Hm Hd ltac:(lia) Hne Hf) as X.
      cbv zeta in X. fold advanced in X. rewrite Em in X.
      rewrite (bind_Throw _ _ _ _ _ X). reflexivity.
Qed.

Lemma inRange_Some lo hi x v : inRange lo hi x -> x = Some v -> lo <= v <= hi.
Proof. intros H ->. exact H. Qed.

Lemma nth_event_completes e evs (h : heap) :
  dateType e = "nth" -> schemaRanges e ->
  exists v h', forall fuel, (7 <= fuel)%nat ->
    calculateEventDate tza now (S fuel) e evs h = (Normal v, h').
Proof.
  intros E [Rn Rd Rm Ry].
  destruct (truthyNum (nthOccurrence e)) as [nth|] eqn:En.
  2:{ exists None, h. intros fuel _.
      rewrite (calculateEventDate_nth tza now fuel e evs E), En. reflexivity. }
  destruct (dayOfWeek e) as [dow|] eqn:Ed.
  2:{ exists None, h. intros fuel _.
      rewrite (calculateEventDate_nth tza now fuel e evs E), En, Ed. reflexivity. }
  destruct (truthyNum (month e)) as [mon|] eqn:Em.
  2:{ exists None, h. intros fuel _.
      rewrite (calculateEventDate_nth tza now fuel e evs E), En, Ed, Em. reflexivity. }
  destruct (truthyNum_Some _ _ En) as [En' _]. destruct (truthyNum_Some _ _ Em) as [Em' _].
  pose proof (inRange_Some _ _ _ _ Rn En') as Hn.
  pose proof (inRange_Some _ _ _ _ Rm Em') as Hm.
  assert (0 <= dow <= 6) as Hd by exact Rd.
  destruct (truthyNum (baseYear e)) as [y|] eqn:Ey.
  - destruct (truthyNum_Some _ _ Ey) as [Ey' _].
    pose proof (inRange_Some _ _ _ _ Ry Ey') as Hy.
    destruct (nth_date_completes nth dow mon y h Hn Hd Hm ltac:(lia)) as (v & h' & X).
    exists v, h'. intros fuel Hf.
    rewrite (calculateEventDate_nth tza now fuel e evs E), En, Ed, Em.
    rewrite Ey.
    rewrite (try_catch_bind_Normal _ _ _ h (Num y) h eq_refl). apply X, Hf.
  - destruct (nth_date_completes nth dow mon (YearFromTime (now + tza)) (h ++ [Num now])
                Hn Hd Hm clock_range) as (v & h' & X).
    exists v, h'. intros fuel Hf.
    rewrite (calculateEventDate_nth tza now fuel e evs E), En, Ed, Em.
    rewrite Ey.
    rewrite (try_catch_bind_Normal _ _ _ h (Num (YearFromTime (now + tza))) (h ++ [Num now])).
    + apply X, Hf.
    + rewrite (bind_Normal _ _ _ _ _ (eq_refl : newDateNow now h = (Normal (length h), h ++ [Num now]))).
      apply getFullYear_Num, lookup_last.
Qed.

Lemma reference_In evs e r : reference evs e = Some r -> In r evs.
Proof.
  unfold reference. destruct (String.eqb (dateType e) "relative"); [|discriminate].
  destruct (truthyStr (relativeEventName e)); [|discriminate].
  destruct (truthyNum (relativePeriod e)); [|discriminate].
  destruct (truthyStr (relativeUnit e)); [|discriminate].
  destruct (truthyStr (relativeDirection e)); [|discriminate].
  intros H. apply find_some in H. apply H.
Qed.

Lemma chain_completes evs n e :
  (forall x, In x evs -> schemaRanges x) -> schemaRanges e ->
  ends_within evs n e ->
  forall h : heap, exists v h', forall fuel, (n + 8 <= fuel)%nat ->
    calculateEventDate tza now fuel e evs h = (Normal v, h').
Proof.
  intros Hevs He Hends. induction Hends as [e Href|e r n Href Hends IH]; intros h.
  - destruct (String.eqb_spec (dateType e) "fixed") as [E1|N1].
    { destruct (truthyDate (startDate e)) eqn:Et.
      - destruct (total_parseSimpleDate tza (startDate e) h) as (d & h' & X).
        exists (Some d), h'. intros [|fuel] Hf; [lia|].
        rewrite (calculateEventDate_fixed tza now fuel e evs E1), Et. cbn [negb].
        rewrite (bind_Normal _ _ _ _ _ X). reflexivity.
      - exists None, h. intros [|fuel] Hf; [lia|].
        rewrite (calculateEventDate_fixed tza now fuel e evs E1), Et. reflexivity. }
    destruct (String.eqb_spec (dateType e) "nth") as [E2|N2].
    { destruct (nth_event_completes e evs h E2 He) as (v & h' & X).
      exists v, h'. intros [|fuel] Hf; [lia|]. apply X. lia. }
    destruct (String.eqb_spec (dateType e) "relative") as [E3|N3].
    { exists None, h. intros [|fuel] Hf; [lia|].
      pose proof (calculateEventDate_reference tza now fuel e evs E3) as R.
      rewrite Href in R. rewrite R. reflexivity. }
    exists None, h. intros [|fuel] Hf; [lia|].
    rewrite (calculateEventDate_other tza now fuel e evs N1 N2 N3). reflexivity.
  - specialize (IH (Hevs r (reference_In evs e r Href))).
    destruct (IH h) as (v & h' & X).
    pose proof (reference_relative evs e r Href) as E3.
    assert (exists period unit direction, forall fuel,
              calculateEventDate tza now (S fuel) e evs
              = (let* referenceDate := calculateEventDate tza now fuel r evs in
                 afterReference tza period unit direction referenceDate)) as (p & u & d & Y).
    { pose proof (calculateEventDate_reference tza now 0 e evs E3) as R.
      rewrite Href in R. destruct R as (p & u & d & Ep & Eu & Ed & _).
      exists p, u, d. intros fuel.
      pose proof (calculateEventDate_reference tza now fuel e evs E3) as R.
      rewrite Href in R. destruct R as (p' & u' & d' & Ep' & Eu' & Ed' & ->).
      assert (p' = p) as -> by congruence.
      assert (u' = u) as -> by congruence.
      assert (d' = d) as -> by congruence.
      reflexivity. }
    destruct (afterReference_completes tza p u d v h') as (v2 & h2 & Z).
    exists v2, h2. intros [|fuel] Hf; [lia|].
    rewrite Y, (bind_Normal _ _ _ _ _ (X fuel ltac:(lia))). exact Z.
Qed.

End Termination.

(** C1 (as amended): resolution terminates whenever the references starting
    at the event end after finitely many steps, provided the numeric fields
    of the events are integers in the ranges of the schema, so that the
    scans of [calculateNthDate] stop: from [n + 8] units of fuel on, the
    resolver returns one and the same value.  No set of visited events is
    threaded through the recursion and there is no circular-reference
    result: an event that its own lookup finds (the first event of the
    snapshot with the title it references is the event itself), and two
    events each of which the lookup of the other finds, exhaust every
    fuel. *)
Theorem resolution_terminates_on_ending_chains tza now evs (h : heap) :
  - msPerDay <= tza <= msPerDay ->
  100 <= YearFromTime (now + tza) <= 275000 ->
  (forall x, In x evs -> schemaRanges x) ->
  (forall n e, schemaRanges e -> ends_within evs n e ->
     exists v h', forall fuel, (n + 8 <= fuel)%nat ->
       calculateEventDate tza now fuel e evs h = (Normal v, h')) /\
  (forall e, reference evs e = Some e ->
     forall fuel, fst (calculateEventDate tza now fuel e evs h) = Diverge) /\
  (forall a b, reference evs a = Some b -> reference evs b = Some a ->
     forall fuel,
       fst (calculateEventDate tza now fuel a evs h) = Diverge /\
       fst (calculateEventDate tza now fuel b evs h) = Diverge).
Proof.
  intros Ht Hc Hevs. split; [|split].
  - intros n e He Hends. apply chain_completes; assumption.
  - intros e Href fuel. apply self_reference_diverges, Href.
  - intros a b Ha Hb fuel. apply mutual_reference_diverges; assumption.
Qed.

(** ** Purity: the resolver depends on the heap only through the events *)

Lemma shift_unfold (base ext : heap) d :
  shift base ext d = if (d <? length base)%nat then d else (d + length ext)%nat.
Proof. reflexivity. Qed.

Lemma fresh_unfold (base : heap) d : fresh base d = (length base <= d)%nat.
Proof. reflexivity. Qed.

Section Frame.

Variables tza now : Z.
Variables base ext : heap.

Local Abbreviation sim := (sim base ext).
Local Abbreviation shift := (shift base ext).
Local Abbreviation fresh := (fresh base).
Local Abbreviation some_fresh := (some_fresh base).

Lemma sim_ret {A} (sh : A -> A) (P : A -> Prop) a :
  P a -> sim sh P (ret a) (ret (sh a)).
Proof.
  intros Pa c. exists (Normal a), c. repeat split. intros a' [= <-]. exact Pa.
Qed.

Lemma sim_throw {A} (sh : A -> A) (P : A -> Prop) e : sim sh P (throw e) (throw e).
Proof. intros c. exists (Throw e), c. repeat split. discriminate. Qed.

Lemma sim_diverge {A} (sh : A -> A) (P : A -> Prop) : sim sh P diverge diverge.
Proof. intros c. exists Diverge, c. repeat split. discriminate. Qed.

Lemma sim_bind {A B} (shA : A -> A) (PA : A -> Prop) (shB : B -> B) (PB : B -> Prop)
    (ma mb : JS A) (ka kb : A -> JS B) :
  sim shA PA ma mb ->
  (forall a, PA a -> sim shB PB (ka a) (kb (shA a))) ->
  sim shB PB (bind ma ka) (bind mb kb).
Proof.
  intros Hm Hk c. destruct (Hm c) as (r & c1 & Ea & Eb & Pr).
  unfold bind. rewrite Ea, Eb. destruct r as [a|e|]; cbn [cmap].
  - apply (Hk a (Pr a eq_refl) c1).
  - exists (Throw e), c1. repeat split. discriminate.
  - exists Diverge, c1. repeat split. discriminate.
Qed.

Lemma sim_try_catch {A} (sh : A -> A) (P : A -> Prop) (ma mb ha hb : JS A) :
  sim sh P ma mb -> sim sh P ha hb -> sim sh P (try_catch ma ha) (try_catch mb hb).
Proof.
  intros Hm Hh c. destruct (Hm c) as (r & c1 & Ea & Eb & Pr).
  unfold try_catch. rewrite Ea, Eb. destruct r as [a|e|]; cbn [cmap].
  - exists (Normal a), c1. repeat split. exact Pr.
  - apply (Hh c1).
  - exists Diverge, c1. repeat split. discriminate.
Qed.

Lemma sim_while fuel (ca cb : JS bool) (ba bb : JS unit) :
  sim same anyval ca cb -> sim same anyval ba bb ->
  sim same anyval (while fuel ca ba) (while fuel cb bb).
Proof.
  intros Hc Hb. induction fuel as [|fuel IH]; [apply sim_diverge|].
  cbn [while]. eapply sim_bind; [exact Hc|]. intros [|] _; unfold same.
  - eapply sim_bind; [exact Hb|]. intros [] _. exact IH.
  - apply (sim_ret same anyval tt). exact I.
Qed.

Lemma sim_alloc tv : sim shift fresh (alloc tv) (alloc tv).
Proof.
  intros c. exists (Normal (length (base ++ c))), (c ++ [tv]). unfold alloc.
  split; [rewrite <- (assoc_L (++)); reflexivity|]. split.
  - cbn [cmap]. rewrite <- !(assoc_L (++)). f_equal. f_equal.
    rewrite shift_unfold, !length_app.
    destruct (Nat.ltb_spec (length base + length c) (length base)); lia.
  - intros a [= <-]. rewrite fresh_unfold, length_app. lia.
Qed.

Lemma lookup_shift (c : heap) d : (base ++ ext ++ c) !! shift d = (base ++ c) !! d.
Proof.
  rewrite shift_unfold. destruct (Nat.ltb_spec d (length base)).
  - rewrite !lookup_app_l by lia. reflexivity.
  - rewrite (lookup_app_r base (ext ++ c)) by lia.
    rewrite (lookup_app_r ext c) by lia.
    rewrite (lookup_app_r base c) by lia. f_equal. lia.
Qed.

Lemma sim_thisTimeValue d : sim same anyval (thisTimeValue d) (thisTimeValue (shift d)).
Proof.
  intros c. exists (Normal (default NaN ((base ++ c) !! d))), c. unfold thisTimeValue.
  split; [reflexivity|]. split; [|intros; exact I].
  rewrite lookup_shift. reflexivity.
Qed.

Lemma sim_setTimeValue d tv :
  fresh d -> sim same anyval (setTimeValue d tv) (setTimeValue (shift d) tv).
Proof.
  intros F c. exists (Normal tt), (<[(d - length base)%nat := tv]> c).
  unfold setTimeValue. rewrite shift_unfold. rewrite fresh_unfold in F.
  destruct (Nat.ltb_spec d (length base)); [lia|].
  split; [|split; [|intros; exact I]].
  - rewrite (insert_app_r_alt base c d) by lia. reflexivity.
  - cbn [cmap same]. rewrite (insert_app_r_alt base (ext ++ c)) by lia.
    rewrite (insert_app_r_alt ext c) by lia. do 4 f_equal. lia.
Qed.

Lemma sim_weaken {A} (sh : A -> A) (P Q : A -> Prop) (ma mb : JS A) :
  (forall a, P a -> Q a) -> sim sh P ma mb -> sim sh Q ma mb.
Proof.
  intros PQ H c. destruct (H c) as (r & c1 & Ea & Eb & Pr).
  exists r, c1. repeat split; auto.
Qed.

Lemma sim_newDateCopy d : sim shift fresh (newDateCopy d) (newDateCopy (shift d)).
Proof.
  eapply sim_bind; [apply sim_thisTimeValue|]. intros tv _. apply sim_alloc.
Qed.

Lemma sim_newDateNow : sim shift fresh (newDateNow now) (newDateNow now).
Proof. apply sim_alloc. Qed.

Lemma sim_newDateYMD y m d :
  sim shift fresh (newDateYMD tza y m d) (newDateYMD tza y m d).
Proof. unfold newDateYMD. destruct y, m, d; apply sim_alloc. Qed.

Lemma sim_getter f d : sim same anyval (getter tza f d) (getter tza f (shift d)).
Proof.
  eapply sim_bind; [apply sim_thisTimeValue|].
  intros [|t] _; unfold same; apply (sim_ret same anyval); exact I.
Qed.

Lemma sim_setDate d dt :
  fresh d -> sim same anyval (setDate tza d dt) (setDate tza (shift d) dt).
Proof.
  intros F. eapply sim_bind; [apply sim_thisTimeValue|].
  intros [|t] _; unfold same; [apply (sim_ret same anyval tt); exact I|].
  destruct dt; apply sim_setTimeValue, F.
Qed.

Lemma sim_setMonth d m :
  fresh d -> sim same anyval (setMonth tza d m) (setMonth tza (shift d) m).
Proof.
  intros F. eapply sim_bind; [apply sim_thisTimeValue|].
  intros [|t] _; unfold same; [apply (sim_ret same anyval tt); exact I|].
  destruct m; apply sim_setTimeValue, F.
Qed.

Lemma sim_setFullYear d y :
  fresh d -> sim same anyval (setFullYear tza d y) (setFullYear tza (shift d) y).
Proof.
  intros F. eapply sim_bind; [apply sim_thisTimeValue|].
  intros tv _; unfold same. destruct y; apply sim_setTimeValue, F.
Qed.

Lemma sim_scan fuel d dow step :
  fresh d -> sim same anyval (scan tza fuel d dow step) (scan tza fuel (shift d) dow step).
Proof.
  intros F. apply sim_while.
  - eapply sim_bind; [apply sim_getter|]. intros wd _. unfold same.
    apply (sim_ret same anyval). exact I.
  - eapply sim_bind; [apply sim_getter|]. intros dt _. unfold same.
    apply sim_setDate, F.
Qed.

Lemma sim_calculateNthDate fuel nth dow mon year :
  sim shift fresh (calculateNthDate tza now fuel nth dow mon year)
                  (calculateNthDate tza now fuel nth dow mon year).
Proof.
  unfold calculateNthDate.
  eapply (sim_bind same anyval).
  { destruct year as [y|]; [apply (sim_ret same anyval); exact I|].
    eapply sim_bind; [apply sim_newDateNow|]. intros d _. apply sim_getter. }
  intros y _. unfold same.
  eapply sim_bind; [apply sim_newDateYMD|]. intros firstDay _.
  eapply sim_bind; [apply sim_newDateCopy|]. intros date F.
  eapply sim_bind; [apply (sim_scan fuel date dow 1 F)|]. intros [] _.
  destruct (nth =? -1).
  - eapply sim_bind; [apply sim_newDateYMD|]. intros lastDay _.
    eapply sim_bind; [apply sim_newDateCopy|]. intros lastDate F'.
    eapply sim_bind; [apply (sim_scan fuel lastDate dow (-1) F')|]. intros [] _.
    apply sim_ret, F'.
  - eapply sim_bind; [apply sim_getter|]. intros dt _. unfold same.
    eapply sim_bind; [apply sim_setDate, F|]. intros [] _.
    eapply sim_bind; [apply sim_getter|]. intros m _. unfold same.
    destruct (strict_ne m (mon - 1)); [apply sim_throw|apply sim_ret, F].
Qed.

Lemma sim_calculateRelativeDate rd period unit direction :
  sim shift fresh (calculateRelativeDate tza rd period unit direction)
                  (calculateRelativeDate tza (shift rd) period unit direction).
Proof.
  unfold calculateRelativeDate.
  eapply sim_bind; [apply sim_newDateCopy|]. intros result F.
  eapply (sim_bind same anyval); [|intros [] _; apply sim_ret, F].
  destruct (String.eqb unit "days").
  { eapply sim_bind; [apply sim_getter|]. intros dt _. apply sim_setDate, F. }
  destruct (String.eqb unit "weeks").
  { eapply sim_bind; [apply sim_getter|]. intros dt _. apply sim_setDate, F. }
  destruct (String.eqb unit "months").
  { eapply sim_bind; [apply sim_getter|]. intros dt _. apply sim_setMonth, F. }
  destruct (String.eqb unit "years").
  { eapply sim_bind; [apply sim_getter|]. intros dt _. apply sim_setFullYear, F. }
  apply sim_throw.
Qed.

Lemma shift_base d : (d < length base)%nat -> shift d = d.
Proof.
  intros H. rewrite shift_unfold. destruct (Nat.ltb_spec d (length base)); lia.
Qed.

Lemma sim_parseSimpleDate x :
  wfDate base x -> sim shift fresh (parseSimpleDate tza x) (parseSimpleDate tza x).
Proof.
  intros W. destruct x as [|s|d]; cbn [parseSimpleDate].
  - apply sim_alloc.
  - apply sim_newDateYMD.
  - cbn in W. rewrite <- (shift_base d W) at 2. apply sim_newDateCopy.
Qed.

Lemma sim_Some (ma mb : JS loc) :
  sim shift fresh ma mb ->
  sim (option_map shift) some_fresh (let* d := ma in ret (Some d)) (let* d := mb in ret (Some d)).
Proof.
  intros H. eapply sim_bind; [exact H|]. intros d F.
  change (Some (shift d)) with (option_map shift (Some d)).
  apply (sim_ret (option_map shift) some_fresh (Some d)). exact F.
Qed.

Lemma sim_None : sim (option_map shift) some_fresh (ret None) (ret None).
Proof. apply (sim_ret (option_map shift) some_fresh None). exact I. Qed.

Lemma sim_calculateEventDate fuel e evs :
  wfEvent base e -> (forall x, In x evs -> wfEvent base x) ->
  sim (option_map shift) some_fresh (calculateEventDate tza now fuel e evs)
                              (calculateEventDate tza now fuel e evs).
Proof.
  intros We Wevs. revert e We. induction fuel as [|fuel IH]; intros e We;
    [apply sim_diverge|].
  cbn [calculateEventDate].
  destruct (String.eqb (dateType e) "fixed").
  { destruct (negb (truthyDate (startDate e))); [apply sim_None|].
    apply sim_Some, sim_parseSimpleDate, We. }
  destruct (String.eqb (dateType e) "nth").
  { destruct (truthyNum (nthOccurrence e)); [|apply sim_None].
    destruct (dayOfWeek e); [|apply sim_None].
    destruct (truthyNum (month e)); [|apply sim_None].
    apply sim_try_catch; [|apply sim_None].
    eapply (sim_bind same anyval).
    { destruct (truthyNum (baseYear e)); [apply (sim_ret same anyval); exact I|].
      eapply sim_bind; [apply sim_newDateNow|]. intros d _. apply sim_getter. }
    intros y _. unfold same. apply sim_Some, sim_calculateNthDate. }
  destruct (String.eqb (dateType e) "relative"); [|apply sim_None].
  destruct (truthyStr (relativeEventName e)) as [name|]; [|apply sim_None].
  destruct (truthyNum (relativePeriod e)) as [period|]; [|apply sim_None].
  destruct (truthyStr (relativeUnit e)) as [unit|]; [|apply sim_None].
  destruct (truthyStr (relativeDirection e)) as [direction|]; [|apply sim_None].
  destruct (find _ evs) as [r|] eqn:Ef; [|apply sim_None].
  eapply sim_bind; [apply IH, Wevs; apply find_some in Ef; apply Ef|].
  intros [rd|] F; cbn [option_map]; [|apply sim_None].
  apply sim_try_catch; [|apply sim_None].
  apply sim_Some, sim_calculateRelativeDate.
Qed.

End Frame.

Lemma run_twice tza now fuel e evs (h : heap) :
  wfEvent h e -> (forall x, In x evs -> wfEvent h x) ->
  exists r c,
    calculateEventDate tza now fuel e evs h = (r, h ++ c) /\
    calculateEventDate tza now fuel e evs (h ++ c)
    = (cmap (option_map (shift h c)) r, h ++ c ++ c) /\
    (forall d, r = Normal (Some d) -> (length h <= d)%nat).
Proof.
  intros We Wevs.
  destruct (sim_calculateEventDate tza now h [] fuel e evs We Wevs [])
    as (r & c & E1 & _ & _).
  rewrite app_nil_r in E1.
  destruct (sim_calculateEventDate tza now h c fuel e evs We Wevs [])
    as (r' & c' & E1' & E2 & F).
  rewrite !app_nil_r in *. rewrite E1 in E1'.
  injection E1' as <- Ec. apply app_inv_head in Ec. subst c'.
  exists r, c. split; [exact E1|]. split; [exact E2|].
  intros d ->. exact (F (Some d) eq_refl).
Qed.

(** C9 (as amended): under one clock and one time zone, resolving an event
    twice against the same snapshot gives the same date both times; the
    first run leaves every Date object that existed before it unchanged and
    only allocates new ones, and the second run allocates the same objects
    again. *)
Theorem resolving_twice_same_output tza now fuel e evs (h : heap) :
  wfEvent h e -> (forall x, In x evs -> wfEvent h x) ->
  let run1 := calculateEventDate tza now fuel e evs h in
  let run2 := calculateEventDate tza now fuel e evs (snd run1) in
  (exists c, snd run1 = h ++ c /\ snd run2 = snd run1 ++ c) /\
  resultValue run2 = resultValue run1.
Proof.
  intros We Wevs run1 run2.
  destruct (run_twice tza now fuel e evs h We Wevs) as (r & c & E1 & E2 & F).
  subst run2 run1. rewrite E1. cbn [snd]. rewrite E2. cbn [snd].
  split; [exists c; split; [reflexivity|apply (assoc_L (++))]|].
  unfold resultValue. cbn [fst snd].
  destruct r as [[d|]|err|]; cbn [cmap option_map]; try reflexivity.
  do 3 f_equal. specialize (F d eq_refl).
  unfold shift. destruct (Nat.ltb_spec d (length h)); [lia|].
  rewrite (lookup_app_r h (c ++ c)) by lia.
  rewrite (lookup_app_r c c) by lia.
  rewrite (lookup_app_r h c) by lia. f_equal. lia.
Qed.

(** ** One failure value *)

Lemma newDateYMD_allocates tza y m d (h : heap) :
  exists v, newDateYMD tza y m d h = (Normal (length h), h ++ [v]).
Proof. unfold newDateYMD. destruct y, m, d; eexists; reflexivity. Qed.

Lemma parseSimpleDate_allocates tza x (h : heap) :
  exists v, parseSimpleDate tza x h = (Normal (length h), h ++ [v]).
Proof.
  destruct x as [|s|d]; cbn [parseSimpleDate];
    [eexists; reflexivity|apply newDateYMD_allocates|eexists; reflexivity].
Qed.

(** C2 (as amended): a resolution that returns gives a Date object or
    [null].  The errors of [calculateNthDate] (a missing occurrence) and of
    [calculateRelativeDate] (an invalid unit) are caught and answered with
    [null], the value also given when a relative event has no reference to
    resolve and when a fixed or nth event lacks a field: the causes are not
    told apart.  The Date object need not be a calendar date: a fixed event
    with a start always resolves to a new Date object, and to the Invalid
    Date when the text of the start begins with no number.  A resolution
    that exhausts the fuel returns nothing. *)
Theorem calculateEventDate_date_or_null tza now fuel e evs (h : heap) :
  ((exists d h', calculateEventDate tza now fuel e evs h = (Normal (Some d), h')) \/
   (exists h', calculateEventDate tza now fuel e evs h = (Normal None, h')) \/
   (exists h', calculateEventDate tza now fuel e evs h = (Diverge, h'))) /\
  (forall nth dow mon y err h',
     dateType e = "nth" ->
     truthyNum (nthOccurrence e) = Some nth -> dayOfWeek e = Some dow ->
     truthyNum (month e) = Some mon -> truthyNum (baseYear e) = Some y ->
     calculateNthDate tza now fuel nth dow mon (Some (Num y)) h = (Throw err, h') ->
     calculateEventDate tza now (S fuel) e evs h = (Normal None, h')) /\
  (forall rd period unit direction err h',
     calculateRelativeDate tza rd period unit direction h = (Throw err, h') ->
     afterReference tza period unit direction (Some rd) h = (Normal None, h')) /\
  (dateType e = "relative" -> reference evs e = None ->
   calculateEventDate tza now (S fuel) e evs h = (Normal None, h)) /\
  (dateType e = "fixed" -> truthyDate (startDate e) = false ->
   calculateEventDate tza now (S fuel) e evs h = (Normal None, h)) /\
  (dateType e = "nth" ->
   truthyNum (nthOccurrence e) = None \/ dayOfWeek e = None \/ truthyNum (month e) = None ->
   calculateEventDate tza now (S fuel) e evs h = (Normal None, h)) /\
  (dateType e = "fixed" -> truthyDate (startDate e) = true ->
   exists v,
     calculateEventDate tza now (S fuel) e evs h = (Normal (Some (length h)), h ++ [v])) /\
  (forall s,
     dateType e = "fixed" -> startDate e = DString s -> s <> EmptyString ->
     parseIntU (split "-" (List.hd EmptyString (split "T" s)) !! 0%nat) = NaN ->
     calculateEventDate tza now (S fuel) e evs h = (Normal (Some (length h)), h ++ [NaN])).
Proof.
  split; [|split; [|split; [|split; [|split; [|split; [|split]]]]]].
  - pose proof (calculateEventDate_no_throw tza now fuel e evs h) as NT.
    destruct (calculateEventDate tza now fuel e evs h) as [[[d|]|err|] h'].
    + left. eexists _, _. reflexivity.
    + right. left. eexists. reflexivity.
    + exfalso. apply (NT err). reflexivity.
    + right. right. eexists. reflexivity.
  - intros nth dow mon y err h' E En Ed Em Ey X.
    rewrite (calculateEventDate_nth tza now fuel e evs E), En, Ed, Em, Ey.
    unfold try_catch.
    rewrite (bind_Normal _ _ _ _ _ (eq_refl : ret (Num y) h = (Normal (Num y), h))).
    rewrite (bind_Throw _ _ _ _ _ X). reflexivity.
  - intros rd period unit direction err h' X. unfold afterReference, try_catch.
    rewrite (bind_Throw _ _ _ _ _ X). reflexivity.
  - intros E Href. pose proof (calculateEventDate_reference tza now fuel e evs E) as R.
    rewrite Href in R. rewrite R. reflexivity.
  - intros E M. rewrite (calculateEventDate_fixed tza now fuel e evs E), M. reflexivity.
  - intros E M. rewrite (calculateEventDate_nth tza now fuel e evs E).
    destruct M as [M|[M|M]]; rewrite M.
    + reflexivity.
    + destruct (truthyNum (nthOccurrence e)); reflexivity.
    + destruct (truthyNum (nthOccurrence e)); [destruct (dayOfWeek e)|]; reflexivity.
  - intros E T. rewrite (calculateEventDate_fixed tza now fuel e evs E), T. cbn [negb].
    destruct (parseSimpleDate_allocates tza (startDate e) h) as (v & P).
    exists v. rewrite (bind_Normal _ _ _ _ _ P). reflexivity.
  - intros s E Es Hs Hy. rewrite (calculateEventDate_fixed tza now fuel e evs E), Es.
    assert (truthyDate (DString s) = true) as -> by (destruct s; [congruence|reflexivity]).
    cbn [negb parseSimpleDate]. rewrite Hy. reflexivity.
Qed.

(** ** Date strings *)

Ltac digit_cases a :=
  let C := fresh "C" in
  assert (a = 0 \/ a = 1 \/ a = 2 \/ a = 3 \/ a = 4 \/
          a = 5 \/ a = 6 \/ a = 7 \/ a = 8 \/ a = 9) as C by lia;
  repeat (destruct C as [C|C]; [subst a|]); [..|subst a].

Lemma append_nil_l (s : string) : ("" ++ s)%string = s.
Proof. reflexivity. Qed.

Lemma append_cons c (s1 s2 : string) : (String c s1 ++ s2)%string = String c (s1 ++ s2).
Proof. reflexivity. Qed.

Lemma split_app (sep : ascii) (s1 s2 : string) :
  noChar sep s1 = true ->
  split sep (s1 ++ s2)
  = (s1 ++ List.hd EmptyString (split sep s2))%string :: List.tl (split sep s2).
Proof.
  induction s1 as [|c s1 IH]; cbn [noChar]; rewrite ?append_nil_l, ?append_cons; intros H.
  - destruct s2 as [|c s2]; [reflexivity|]. cbn [split].
    destruct (Ascii.eqb c sep); [reflexivity|]. destruct (split sep s2); reflexivity.
  - apply andb_prop in H as [Hc Hs]. cbn [split].
    destruct (Ascii.eqb c sep); [discriminate|]. rewrite (IH Hs). reflexivity.
Qed.

Lemma split_app_sep (sep : ascii) (s1 s2 : string) :
  noChar sep s1 = true ->
  split sep (s1 ++ String sep s2) = s1 :: split sep s2.
Proof.
  intros H. rewrite (split_app sep s1 _ H). cbn [split].
  rewrite Ascii.eqb_refl. cbn [List.hd List.tl].
  f_equal. induction s1 as [|c s1 IH]; [reflexivity|].
  rewrite append_cons. f_equal. apply IH.
  cbn [noChar] in H. apply andb_prop in H. apply H.
Qed.

Lemma noChar_decimal2 sep v :
  0 <= v <= 99 -> isDigit sep = false -> noChar sep (decimal2 v) = true.
Proof.
  intros Hv Hs. unfold decimal2.
  assert (0 <= v / 10 <= 9) as Ha by div_lia.
  assert (0 <= v mod 10 <= 9) as Hb by div_lia.
  revert Ha Hb. generalize (v / 10) (v mod 10). intros a b Ha Hb.
  cbn [noChar].
  assert (forall x, 0 <= x <= 9 -> Ascii.eqb (digitChar x) sep = false) as D.
  { intros x Hx. destruct (Ascii.eqb_spec (digitChar x) sep) as [<-|]; [|reflexivity].
    digit_cases x; discriminate. }
  rewrite (D a Ha), (D b Hb). reflexivity.
Qed.

Lemma noChar_decimal4 sep v :
  0 <= v <= 9999 -> isDigit sep = false -> noChar sep (decimal4 v) = true.
Proof.
  intros Hv Hs. unfold decimal4.
  pose proof (noChar_decimal2 sep (v mod 100) ltac:(div_lia) Hs) as H2.
  assert (0 <= v / 1000 <= 9) as Ha by div_lia.
  assert (0 <= v / 100 mod 10 <= 9) as Hb by div_lia.
  revert Ha Hb H2. generalize (v / 1000) (v / 100 mod 10) (decimal2 (v mod 100)).
  intros a b s Ha Hb H2. cbn [noChar].
  assert (forall x, 0 <= x <= 9 -> Ascii.eqb (digitChar x) sep = false) as D.
  { intros x Hx. destruct (Ascii.eqb_spec (digitChar x) sep) as [<-|]; [|reflexivity].
    digit_cases x; discriminate. }
  rewrite (D a Ha), (D b Hb), H2. reflexivity.
Qed.

Lemma noChar_app sep s1 s2 :
  noChar sep s1 = true -> noChar sep s2 = true -> noChar sep (s1 ++ s2) = true.
Proof.
  intros H1 H2. induction s1 as [|c s1 IH]; [exact H2|].
  rewrite append_cons. cbn [noChar] in *. apply andb_prop in H1 as [Hc Hs].
  rewrite Hc, (IH Hs). reflexivity.
Qed.

Lemma endsNumber_hd_split sep s :
  endsNumber s -> endsNumber (List.hd EmptyString (split sep s)).
Proof.
  destruct s as [|c s]; [exact (fun H => H)|]. cbn [endsNumber split]. intros H.
  destruct (Ascii.eqb c sep); [exact I|]. destruct (split sep s); exact H.
Qed.

Lemma parseDigits_end acc r : endsNumber r -> parseDigits 10 acc r = acc.
Proof.
  destruct r as [|c r]; [reflexivity|]. cbn [endsNumber parseDigits].
  unfold isDigit, digitValue. intros H. rewrite H.
  destruct ((97 <=? _) && _) eqn:E1.
  - apply andb_prop in E1 as [E1 _]. apply Z.leb_le in E1.
    destruct (Z.ltb_spec (Z.of_nat (nat_of_ascii c) - 87) 10); [lia|reflexivity].
  - destruct ((65 <=? _) && _) eqn:E2; [|reflexivity].
    apply andb_prop in E2 as [E2 _]. apply Z.leb_le in E2.
    destruct (Z.ltb_spec (Z.of_nat (nat_of_ascii c) - 55) 10); [lia|reflexivity].
Qed.

Lemma parseDigits_digit x a r :
  0 <= a <= 9 ->
  parseDigits 10 (Num x) (String (digitChar a) r) = parseDigits 10 (Num (10 * x + a)) r.
Proof. intros Ha. digit_cases a; reflexivity. Qed.

Lemma parseInt_two_digits a b r :
  0 <= a <= 9 -> 0 <= b <= 9 ->
  parseInt (String (digitChar a) (String (digitChar b) r))
  = parseDigits 10 (Num (10 * a + b)) r.
Proof. intros Ha Hb. digit_cases a; digit_cases b; reflexivity. Qed.

Lemma parseInt_decimal2 v r :
  0 <= v <= 99 -> endsNumber r -> parseInt (decimal2 v ++ r) = Num v.
Proof.
  intros Hv Hr. unfold decimal2. rewrite !append_cons, append_nil_l.
  rewrite parseInt_two_digits by div_lia. rewrite (parseDigits_end _ r Hr).
  f_equal. div_lia.
Qed.

Lemma parseInt_decimal4 v :
  0 <= v <= 9999 -> parseInt (decimal4 v) = Num v.
Proof.
  intros Hv. unfold decimal4, decimal2.
  rewrite parseInt_two_digits by div_lia.
  rewrite !parseDigits_digit by div_lia. cbn [parseDigits]. f_equal. div_lia.
Qed.

Lemma hd_split_app (sep : ascii) (s1 s2 : string) :
  noChar sep s1 = true ->
  List.hd EmptyString (split sep (s1 ++ s2))
  = (s1 ++ List.hd EmptyString (split sep s2))%string.
Proof. intros H. rewrite (split_app sep s1 s2 H). reflexivity. Qed.

Lemma parts_of_date_string Y M D rest :
  0 <= Y <= 9999 -> 0 <= M <= 99 -> 0 <= D <= 99 -> endsNumber rest ->
  exists r more,
    endsNumber r /\
    split "-" (List.hd EmptyString
                 (split "T" (decimal4 Y ++ "-" ++ decimal2 M ++ "-" ++ decimal2 D ++ rest)))
    = decimal4 Y :: decimal2 M :: (decimal2 D ++ r)%string :: more.
Proof.
  intros HY HM HD Hr.
  rewrite (hd_split_app "T" (decimal4 Y)) by (apply noChar_decimal4; auto).
  rewrite (hd_split_app "T" "-") by reflexivity.
  rewrite (hd_split_app "T" (decimal2 M)) by (apply noChar_decimal2; auto).
  rewrite (hd_split_app "T" "-") by reflexivity.
  rewrite (hd_split_app "T" (decimal2 D)) by (apply noChar_decimal2; auto).
  set (r1 := List.hd EmptyString (split "T" rest)).
  assert (endsNumber r1) as Hr1 by (apply endsNumber_hd_split, Hr).
  rewrite !(append_cons "-" ""), !append_nil_l.
  rewrite (split_app_sep "-" (decimal4 Y)) by (apply noChar_decimal4; auto).
  rewrite (split_app_sep "-" (decimal2 M)) by (apply noChar_decimal2; auto).
  rewrite (split_app "-" (decimal2 D) r1) by (apply noChar_decimal2; auto).
  eexists _, _. split; [|reflexivity]. apply endsNumber_hd_split, Hr1.
Qed.

Lemma parseInt_decimal2_alone v : 0 <= v <= 99 -> parseInt (decimal2 v) = Num v.
Proof. intros Hv. apply (parseInt_decimal2 v EmptyString Hv I). Qed.

Lemma MakeDay_range_wide y m d :
  -1 <= y + m / 12 <= 275001 -> -10000 <= d <= 10000 ->
  -740000 <= MakeDay y m d <= 99800000.
Proof.
  intros Hym Hd. unfold MakeDay.
  set (leap := if DaysInYear (y + m / 12) =? 366 then 1 else 0).
  assert (0 <= leap <= 1) as Hl by (subst leap; destruct (_ =? _); lia).
  assert (0 <= m mod 12 <= 11) as Hmn by div_lia.
  pose proof (monthStart_bounds leap (m mod 12) Hl Hmn) as (B1 & B2 & B3).
  clearbody leap. revert Hym. generalize (y + m / 12). intros ym Hym.
  unfold DayFromYear. div_lia.
Qed.

Lemma civil_of_Day t1 t2 :
  Day t1 = Day t2 ->
  YearFromTime t1 = YearFromTime t2 /\ MonthFromTime t1 = MonthFromTime t2 /\
  DateFromTime t1 = DateFromTime t2.
Proof.
  intros H.
  assert (YearFromTime t1 = YearFromTime t2) as EY by (unfold YearFromTime; rewrite H; reflexivity).
  assert (InLeapYear t1 = InLeapYear t2) as EL by (unfold InLeapYear; rewrite EY; reflexivity).
  assert (DayWithinYear t1 = DayWithinYear t2) as EW
    by (unfold DayWithinYear; rewrite EY, H; reflexivity).
  assert (MonthFromTime t1 = MonthFromTime t2) as EM
    by (unfold MonthFromTime; rewrite EW, EL; reflexivity).
  repeat split; auto. unfold DateFromTime. rewrite EW, EL, EM. reflexivity.
Qed.

Lemma localDate_time_zone tza y m d :
  localDate tza (midnight tza y m d) = localDate 0 (midnight 0 y m d).
Proof.
  destruct (civil_of_Day (midnight tza y m d + tza) (midnight 0 y m d + 0)) as (E1 & E2 & E3).
  { rewrite !Day_midnight. reflexivity. }
  unfold localDate. rewrite E1, E2, E3. reflexivity.
Qed.

Lemma parseSimpleDate_date_string tza (h : heap) Y M D rest :
  - msPerDay <= tza <= msPerDay ->
  0 <= Y <= 9999 -> 0 <= M <= 99 -> 0 <= D <= 99 -> endsNumber rest ->
  parseSimpleDate tza
    (DString (decimal4 Y ++ "-" ++ decimal2 M ++ "-" ++ decimal2 D ++ rest)) h
  = (Normal (length h),
     h ++ [Num (midnight tza (if Y <=? 99 then 1900 + Y else Y) (M - 1) D)]).
Proof.
  intros Ht HY HM HD Hr. cbn [parseSimpleDate].
  destruct (parts_of_date_string Y M D rest HY HM HD Hr) as (r & more & Er & ->).
  change ((decimal4 Y :: decimal2 M :: (decimal2 D ++ r)%string :: more) !! 0%nat)
    with (Some (decimal4 Y)).
  change ((decimal4 Y :: decimal2 M :: (decimal2 D ++ r)%string :: more) !! 1%nat)
    with (Some (decimal2 M)).
  change ((decimal4 Y :: decimal2 M :: (decimal2 D ++ r)%string :: more) !! 2%nat)
    with (Some (decimal2 D ++ r)%string).
  cbn [parseIntU].
  rewrite (parseInt_decimal4 Y HY), (parseInt_decimal2_alone M HM),
    (parseInt_decimal2 D r HD Er).
  cbn [num_add]. unfold newDateYMD.
  destruct (Z.leb_spec 0 Y) as [_|]; [|lia]. cbn [andb].
  set (year := if Y <=? 99 then 1900 + Y else Y).
  assert (100 <= year <= 9999) as Hyear by (subst year; destruct (Z.leb_spec Y 99); lia).
  unfold alloc, UTC, MakeDate. do 3 f_equal.
  rewrite Z.add_0_r. replace (M + -1) with (M - 1) by lia.
  fold (midnight tza year (M - 1) D). apply clip_in_range.
  pose proof (MakeDay_range_wide year (M - 1) D ltac:(div_lia) ltac:(lia)) as R.
  unfold midnight, maxTime, msPerDay in *. lia.
Qed.

(** C4: a fixed event whose [startDate] is a string [YYYY-MM-DD], possibly
    followed by a time, resolves to the Date built from the three numbers
    read off the string; the civil date it shows is the same under every time
    zone offset, and is the year, month and day of the string when these name
    a day of the calendar from year 100 on.  A fixed event without
    [startDate] resolves to [null]. *)
Theorem fixed_date_from_string tza now fuel e evs (h : heap) :
  - msPerDay <= tza <= msPerDay ->
  dateType e = "fixed" ->
  (startDate e = DNull ->
   calculateEventDate tza now (S fuel) e evs h = (Normal None, h)) /\
  (forall Y M D rest,
     0 <= Y <= 9999 -> 0 <= M <= 99 -> 0 <= D <= 99 -> endsNumber rest ->
     startDate e = DString (decimal4 Y ++ "-" ++ decimal2 M ++ "-" ++ decimal2 D ++ rest) ->
     let year := if Y <=? 99 then 1900 + Y else Y in
     calculateEventDate tza now (S fuel) e evs h
     = (Normal (Some (length h)), h ++ [Num (midnight tza year (M - 1) D)]) /\
     localDate tza (midnight tza year (M - 1) D) = localDate 0 (midnight 0 year (M - 1) D) /\
     (100 <= Y -> 1 <= M <= 12 -> 1 <= D <= DaysInMonth Y (M - 1) ->
      localDate tza (midnight tza year (M - 1) D) = (Y, M - 1, D))).
Proof.
  intros Ht E. split.
  - intros M. apply missing_fixed; assumption.
  - intros Y M D rest HY HM HD Hr Es year. split; [|split].
    + rewrite (calculateEventDate_fixed tza now fuel e evs E), Es.
      assert (truthyDate (DString (decimal4 Y ++ "-" ++ decimal2 M ++ "-" ++ decimal2 D ++ rest))
              = true) as -> by (unfold decimal4; rewrite append_cons; reflexivity).
      cbn [negb].
      rewrite (bind_Normal _ _ _ _ _
                 (parseSimpleDate_date_string tza h Y M D rest Ht HY HM HD Hr)).
      reflexivity.
    + apply localDate_time_zone.
    + intros H100 HM12 HDm. subst year.
      destruct (Z.leb_spec Y 99); [lia|]. apply localDate_midnight; [lia|exact HDm].
Qed.

Lemma fixed_date_from_string_witness :
  dateType conference = "fixed" /\
  calculateEventDate (-18000000) 0 1 conference [] []
  = (Normal (Some 0%nat), [Num (midnight (-18000000) 2024 2 5)]) /\
  calculateEventDate 7200000 0 1 conference [] []
  = (Normal (Some 0%nat), [Num (midnight 7200000 2024 2 5)]) /\
  localDate (-18000000) (midnight (-18000000) 2024 2 5) = (2024, 2, 5) /\
  localDate 7200000 (midnight 7200000 2024 2 5) = (2024, 2, 5).
Proof.
  assert (- msPerDay <= -18000000 <= msPerDay) as H1 by (unfold msPerDay; lia).
  assert (- msPerDay <= 7200000 <= msPerDay) as H2 by (unfold msPerDay; lia).
  destruct (fixed_date_from_string (-18000000) 0 0 conference [] [] H1 eq_refl) as (_ & A).
  destruct (A 2024 3 5 "T00:00:00.000Z"%string ltac:(lia) ltac:(lia) ltac:(lia) eq_refl eq_refl)
    as (A1 & _ & A3).
  destruct (fixed_date_from_string 7200000 0 0 conference [] [] H2 eq_refl) as (_ & B).
  destruct (B 2024 3 5 "T00:00:00.000Z"%string ltac:(lia) ltac:(lia) ltac:(lia) eq_refl eq_refl)
    as (B1 & _ & B3).
  split; [reflexivity|]. split; [exact A1|]. split; [exact B1|].
  split; [apply A3|apply B3]; try lia; vm_compute; split; discriminate.
Defined.

(** ** Instances *)

Lemma schemaRanges_fixedEvent i t d : schemaRanges (fixedEvent i t d).
Proof. split; exact I. Qed.

Lemma schemaRanges_relativeEvent i t p u d n : schemaRanges (relativeEvent i t p u d n).
Proof. split; exact I. Qed.

Lemma tza_utc : - msPerDay <= 0 <= msPerDay.
Proof. unfold msPerDay. lia. Qed.

Lemma resolution_terminates_on_ending_chains_witness :
  ends_within [kickoff; review; retro] 2 retro /\
  calculateEventDate 0 0 10 retro [kickoff; review; retro] []
  = (Normal (Some 2%nat),
     [Num (midnight 0 2024 0 15); Num (midnight 0 2024 0 22); Num (midnight 0 2024 1 22)]) /\
  (exists v h', forall fuel, (2 + 8 <= fuel)%nat ->
     calculateEventDate 0 0 fuel retro [kickoff; review; retro] [] = (Normal v, h')).
Proof.
  assert (ends_within [kickoff; review; retro] 2 retro) as E.
  { apply (ends_later _ retro review); [reflexivity|].
    apply (ends_later _ review kickoff); [reflexivity|].
    apply ends_here. reflexivity. }
  split; [exact E|]. split; [reflexivity|].
  destruct (resolution_terminates_on_ending_chains 0 0 [kickoff; review; retro] []
              tza_utc ltac:(vm_compute; split; discriminate)
              ltac:(intros x [<-|[<-|[<-|[]]]];
                    first [apply schemaRanges_fixedEvent|apply schemaRanges_relativeEvent]))
    as (T & _ & _).
  apply (T 2%nat retro (schemaRanges_relativeEvent _ _ _ _ _ _) E).
Defined.

(** C1 fails as stated: the self-referencing event and the two mutually
    referencing events get no result, whatever the fuel. *)
Lemma circular_reference_never_returns :
  ~ (exists fuel v h', calculateEventDate 0 0 fuel ouroboros [ouroboros] [] = (Normal v, h')) /\
  ~ (exists fuel v h', calculateEventDate 0 0 fuel chicken [chicken; egg] [] = (Normal v, h')) /\
  ~ (exists fuel v h', calculateEventDate 0 0 fuel egg [chicken; egg] [] = (Normal v, h')).
Proof.
  split; [|split]; intros (fuel & v & h' & E).
  - pose proof (self_reference_diverges 0 0 ouroboros [ouroboros] eq_refl fuel []) as D.
    rewrite E in D. discriminate.
  - destruct (mutual_reference_diverges 0 0 chicken egg [chicken; egg] eq_refl eq_refl fuel [])
      as (D & _).
    rewrite E in D. discriminate.
  - destruct (mutual_reference_diverges 0 0 chicken egg [chicken; egg] eq_refl eq_refl fuel [])
      as (_ & D).
    rewrite E in D. discriminate.
Qed.

(** C2 fails as stated: four failures of different causes give the same
    value, and a fixed event whose start names no date does not fail: it
    resolves to a Date object that is the Invalid Date. *)
Lemma failures_untagged_and_invalid_date :
  let snapshot := [kickoff; noWeekday; orphan; fortnightly; fifthThursday; someday] in
  dayOfWeek noWeekday = None /\
  reference snapshot orphan = None /\
  relativeUnit fortnightly = Some "fortnights" /\
  fst (calculateNthDate 0 0 8 5 4 2 (Some (Num 2023)) []) = Throw (NoOccurrence 5) /\
  fst (calculateEventDate 0 0 9 noWeekday snapshot []) = Normal None /\
  fst (calculateEventDate 0 0 9 orphan snapshot []) = Normal None /\
  fst (calculateEventDate 0 0 9 fortnightly snapshot []) = Normal None /\
  fst (calculateEventDate 0 0 9 fifthThursday snapshot []) = Normal None /\
  startDate someday = DString "soon" /\
  calculateEventDate 0 0 9 someday snapshot [] = (Normal (Some 0%nat), [NaN]).
Proof. repeat split. Qed.

Lemma calculateEventDate_date_or_null_witness :
  calculateNthDate 0 0 8 5 4 2 (Some (Num 2023)) []
  = (Throw (NoOccurrence 5), [Num (midnight 0 2023 1 1); Num (midnight 0 2023 2 2)]) /\
  calculateEventDate 0 0 9 fifthThursday [fifthThursday] []
  = (Normal None, [Num (midnight 0 2023 1 1); Num (midnight 0 2023 2 2)]) /\
  calculateEventDate 0 0 1 someday [someday] [] = (Normal (Some 0%nat), [NaN]).
Proof.
  destruct (calculateEventDate_date_or_null 0 0 8 fifthThursday [fifthThursday] [])
    as (_ & B & _).
  destruct (calculateEventDate_date_or_null 0 0 0 someday [someday] [])
    as (_ & _ & _ & _ & _ & _ & _ & C).
  assert (calculateNthDate 0 0 8 5 4 2 (Some (Num 2023)) []
          = (Throw (NoOccurrence 5), [Num (midnight 0 2023 1 1); Num (midnight 0 2023 2 2)]))
    as X by (vm_compute; reflexivity).
  split; [exact X|]. split.
  - exact (B 5 4 2 2023 (NoOccurrence 5) _ eq_refl eq_refl eq_refl eq_refl eq_refl X).
  - exact (C "soon"%string eq_refl eq_refl ltac:(discriminate) eq_refl).
Defined.

(** With a unit that is none of the four, the event that references itself
    gets no result from the server, whatever the fuel. *)
Lemma invalid_unit_may_not_return :
  relativeUnit fortnightlyLoop = Some "fortnights" /\
  ~ (exists fuel v h',
       calculateEventDate 0 0 fuel fortnightlyLoop [fortnightlyLoop] [] = (Normal v, h')).
Proof.
  split; [reflexivity|]. intros (fuel & v & h' & E).
  pose proof (self_reference_diverges 0 0 fortnightlyLoop [fortnightlyLoop] eq_refl fuel []) as D.
  rewrite E in D. discriminate.
Qed.

Lemma calculateEventDate_unresolvable_input_witness :
  calculateEventDate 0 0 1 noWeekday [kickoff; noWeekday; fortnightly] [] = (Normal None, []) /\
  fst (calculateEventDate 0 0 2 fortnightly [kickoff; noWeekday; fortnightly] []) = Normal None.
Proof.
  destruct (calculateEventDate_unresolvable_input 0 0 0 noWeekday
              [kickoff; noWeekday; fortnightly] []) as (_ & _ & B & _).
  destruct (calculateEventDate_unresolvable_input 0 0 1 fortnightly
              [kickoff; noWeekday; fortnightly] []) as (_ & _ & _ & _ & C).
  split.
  - apply B; [reflexivity|]. right. left. reflexivity.
  - exact (C "fortnights"%string eq_refl eq_refl ltac:(discriminate) ltac:(discriminate)
             ltac:(discriminate) ltac:(discriminate)).
Defined.

Lemma calculateRelativeDate_offset_witness :
  let christmas := midnight 0 2024 11 25 in
  localDate 0 christmas = (2024, 11, 25) /\
  calculateRelativeDate 0 0%nat 3 "days" "before" [Num christmas]
  = (Normal 1%nat, [Num christmas; Num (midnight 0 2024 11 22)]) /\
  localDate 0 (midnight 0 2024 11 22) = (2024, 11, 22) /\
  calculateRelativeDate 0 0%nat 1 "months" "after" [Num christmas]
  = (Normal 1%nat, [Num christmas; Num (midnight 0 2025 0 25)]) /\
  localDate 0 (midnight 0 2025 0 25) = (2025, 0, 25).
Proof.
  intros christmas.
  destruct (calculateRelativeDate_offset 0 [Num christmas] 0%nat christmas 3 "days" "before" (-1)
              eq_refl ltac:(lia) (or_introl (conj eq_refl eq_refl))) as (A & _).
  destruct (calculateRelativeDate_offset 0 [Num christmas] 0%nat christmas 1 "months" "after" 1
              eq_refl ltac:(lia) (or_intror (conj eq_refl eq_refl))) as (_ & _ & B & _ & _ & C & _).
  split; [reflexivity|]. split; [rewrite (A eq_refl); reflexivity|].
  split; [reflexivity|]. split; [rewrite (B eq_refl); reflexivity|].
  etransitivity; [|apply C; vm_compute; split; discriminate]. reflexivity.
Defined.

(** C9 fails as stated: the resolver reads the clock when an nth event has
    no [baseYear], so the same event against the same snapshot resolves to
    different dates in different years. *)
Lemma same_event_different_years :
  resultValue (calculateEventDate 0 clock2024 9 meetup [meetup] [])
  = Normal (Some (Num (midnight 0 2024 2 5))) /\
  resultValue (calculateEventDate 0 clock2025 9 meetup [meetup] [])
  = Normal (Some (Num (midnight 0 2025 2 4))) /\
  resultValue (calculateEventDate 0 clock2024 9 meetup [meetup] [])
  <> resultValue (calculateEventDate 0 clock2025 9 meetup [meetup] []).
Proof.
  split; [vm_compute; reflexivity|]. split; [vm_compute; reflexivity|].
  vm_compute. discriminate.
Qed.

Lemma resolving_twice_same_output_witness :
  let h := [Num (midnight 0 2024 11 25)] in
  let run1 := calculateEventDate 0 0 9 freeze [release; freeze] h in
  let run2 := calculateEventDate 0 0 9 freeze [release; freeze] (snd run1) in
  wfEvent h freeze /\ wfEvent h release /\
  snd run1 = h ++ [Num (midnight 0 2024 11 25); Num (midnight 0 2024 11 11)] /\
  resultValue run1 = Normal (Some (Num (midnight 0 2024 11 11))) /\
  resultValue run2 = resultValue run1.
Proof.
  intros h run1 run2.
  assert (wfEvent h freeze) as W1 by exact I.
  assert (wfEvent h release) as W2 by (cbv; lia).
  destruct (resolving_twice_same_output 0 0 9 freeze [release; freeze] h W1
              ltac:(intros x [<-|[<-|[]]]; assumption)) as (_ & A).
  split; [exact W1|]. split; [exact W2|]. split; [reflexivity|]. split; [reflexivity|].
  exact A.
Defined.

(** * Properties of the further code *)

(** A property checked on every integer of a range holds on the range. *)
Lemma forall_range (P : Z -> bool) (lo : Z) (n : nat) :
  forallb P (List.map (fun i => lo + Z.of_nat i) (seq 0 n)) = true ->
  forall v, lo <= v < lo + Z.of_nat n -> P v = true.
Proof.
  intros H v Hv. rewrite forallb_forall in H. apply H.
  apply in_map_iff. exists (Z.to_nat (v - lo)). split; [lia|].
  apply in_seq. lia.
Qed.

(** ** Ordinal suffixes *)

Lemma getOrdinalSuffix_value n :
  getOrdinalSuffix n = getOrdinalSuffix (Z.rem n 100).
Proof.
  unfold getOrdinalSuffix. cbv zeta.
  replace (Z.rem (Z.rem n 100) 100) with (Z.rem n 100); [reflexivity|].
  pose proof (Z.rem_bound_abs n 100 ltac:(lia)).
  symmetry. apply Z.rem_small_iff; [lia|]. lia.
Qed.

Lemma getOrdinalSuffix_small v :
  -99 <= v <= 99 -> getOrdinalSuffix v = Some (englishSuffix v).
Proof.
  intros Hv.
  pose proof (forall_range
    (fun v => match getOrdinalSuffix v with
              | Some s => String.eqb s (englishSuffix v)
              | None => false
              end) (-99) 199 ltac:(vm_compute; reflexivity) v ltac:(lia)) as H.
  cbv beta in H. destruct (getOrdinalSuffix v) as [s|]; [|discriminate].
  apply String.eqb_eq in H. congruence.
Qed.

(** X1: [getOrdinalSuffix] gives every integer from zero on its English
    ordinal suffix (st, nd, rd, and th for the rest and for 11, 12, 13 in
    every hundred), and ["th"] to every negative integer. *)
Theorem getOrdinalSuffix_english n : getOrdinalSuffix n = Some (englishSuffix n).
Proof.
  rewrite getOrdinalSuffix_value.
  pose proof (Z.rem_bound_abs n 100 ltac:(lia)) as B.
  rewrite getOrdinalSuffix_small by lia. f_equal.
  unfold englishSuffix. destruct (Z.ltb_spec n 0) as [Hn|Hn].
  - assert (Z.rem n 100 <= 0) as R by div_lia.
    destruct (Z.ltb_spec (Z.rem n 100) 0); [reflexivity|].
    assert (Z.rem n 100 = 0) as -> by lia. reflexivity.
  - rewrite (Z.rem_mod_nonneg n 100) by lia.
    pose proof (Z.mod_pos_bound n 100 ltac:(lia)).
    destruct (Z.ltb_spec (n mod 100) 0); [lia|].
    replace (n mod 100 mod 10) with (n mod 10) by div_lia.
    replace (n mod 100 mod 100) with (n mod 100) by div_lia.
    reflexivity.
Qed.

(** ** Escaping *)

Lemma append_assoc_s (a b c : string) : ((a ++ b) ++ c = a ++ (b ++ c))%string.
Proof.
  induction a as [|x a IH]; [reflexivity|]. rewrite !append_cons. f_equal. exact IH.
Qed.

Lemma replaceAll_app c by_ (s1 s2 : string) :
  replaceAll c by_ (s1 ++ s2) = (replaceAll c by_ s1 ++ replaceAll c by_ s2)%string.
Proof.
  induction s1 as [|a s1 IH]; [reflexivity|]. rewrite append_cons. cbn [replaceAll].
  destruct (Ascii.eqb a c).
  - rewrite IH. symmetry. apply append_assoc_s.
  - rewrite IH, append_cons. reflexivity.
Qed.

Lemma escapeICSValue_app (s1 s2 : string) :
  escapeICSValue (s1 ++ s2) = (escapeICSValue s1 ++ escapeICSValue s2)%string.
Proof. unfold escapeICSValue. rewrite !replaceAll_app. reflexivity. Qed.

Lemma escapeICSValue_char c : escapeICSValue (String c EmptyString) = escapeChar c.
Proof.
  unfold escapeChar.
  destruct (Ascii.eqb_spec c backslash) as [->|N1]; [reflexivity|].
  destruct (Ascii.eqb_spec c ";") as [->|N2]; [reflexivity|].
  destruct (Ascii.eqb_spec c ",") as [->|N3]; [reflexivity|].
  destruct (Ascii.eqb_spec c LF) as [->|N4]; [reflexivity|].
  destruct (Ascii.eqb_spec c CR) as [->|N5]; [reflexivity|].
  unfold escapeICSValue. cbn [replaceAll].
  apply Ascii.eqb_neq in N1, N2, N3, N4, N5.
  rewrite N1. cbn [replaceAll]. rewrite N2. cbn [replaceAll]. rewrite N3.
  cbn [replaceAll]. rewrite N4. cbn [replaceAll]. rewrite N5. reflexivity.
Qed.

Lemma escapeICSValue_escapeEach (value : string) :
  escapeICSValue value = escapeEach value.
Proof.
  induction value as [|c r IH]; [reflexivity|].
  change (String c r) with (String c EmptyString ++ r)%string.
  rewrite escapeICSValue_app, escapeICSValue_char, IH. reflexivity.
Qed.

(** X2: the five replacements of [escapeICSValue], made one after the other,
    escape every character of the value exactly once: the backslash, the
    semicolon, the comma, the line feed and the carriage return get one
    backslash, and the backslashes the later passes add are not escaped
    again. *)
Theorem escapeICSValue_each_once (value : string) :
  escapeICSValue value = escapeEach value.
Proof. apply escapeICSValue_escapeEach. Qed.

Lemma escapeChar_cases c :
  (exists x, escapeChar c = String backslash (String x EmptyString) /\
             (x = backslash \/ x = ";" \/ x = "," \/ x = "n" \/ x = "r")%char /\
             (c = backslash <-> x = backslash) /\ (c = ";"%char <-> x = ";"%char) /\
             (c = ","%char <-> x = ","%char) /\ (c = LF <-> x = "n"%char) /\
             (c = CR <-> x = "r"%char)) \/
  (escapeChar c = String c EmptyString /\ c <> backslash /\ c <> LF /\ c <> CR).
Proof.
  unfold escapeChar.
  destruct (Ascii.eqb_spec c backslash) as [->|N1].
  { left. exists backslash. repeat split; auto; discriminate. }
  destruct (Ascii.eqb_spec c ";") as [->|N2].
  { left. exists ";"%char. repeat split; auto; discriminate. }
  destruct (Ascii.eqb_spec c ",") as [->|N3].
  { left. exists ","%char. repeat split; auto; discriminate. }
  destruct (Ascii.eqb_spec c LF) as [->|N4].
  { left. exists "n"%char. repeat split; auto; discriminate. }
  destruct (Ascii.eqb_spec c CR) as [->|N5].
  { left. exists "r"%char. repeat split; auto; discriminate. }
  right. auto.
Qed.

Lemma escapeEach_injective (s1 s2 : string) :
  escapeEach s1 = escapeEach s2 -> s1 = s2.
Proof.
  revert s2. induction s1 as [|a r1 IH]; intros [|b r2]; cbn [escapeEach]; intros H.
  - reflexivity.
  - exfalso. destruct (escapeChar_cases b) as [(x & E & _)|(E & _)]; rewrite E in H;
      discriminate.
  - exfalso. destruct (escapeChar_cases a) as [(x & E & _)|(E & _)]; rewrite E in H;
      discriminate.
  - destruct (escapeChar_cases a) as [(x & Ea & _ & A1 & A2 & A3 & A4 & A5)|(Ea & Na & _)];
      destruct (escapeChar_cases b) as [(y & Eb & Hy & B1 & B2 & B3 & B4 & B5)|(Eb & Nb & _)];
      rewrite Ea, Eb in H; rewrite ?append_cons, ?append_nil_l in H.
    + injection H as Hxy Hr. subst y. f_equal; [|apply IH, Hr].
      destruct Hy as [-> | [-> | [-> | [-> | ->]]]].
      * rewrite (proj2 A1 eq_refl), (proj2 B1 eq_refl). reflexivity.
      * rewrite (proj2 A2 eq_refl), (proj2 B2 eq_refl). reflexivity.
      * rewrite (proj2 A3 eq_refl), (proj2 B3 eq_refl). reflexivity.
      * rewrite (proj2 A4 eq_refl), (proj2 B4 eq_refl). reflexivity.
      * rewrite (proj2 A5 eq_refl), (proj2 B5 eq_refl). reflexivity.
    + injection H as Hb _. congruence.
    + injection H as Ha _. congruence.
    + injection H as Hab Hr. f_equal; [exact Hab|apply IH, Hr].
Qed.

(** X3: [escapeICSValue] loses nothing: two values with the same escaped
    text are the same value. *)
Theorem escapeICSValue_injective (v1 v2 : string) :
  escapeICSValue v1 = escapeICSValue v2 -> v1 = v2.
Proof. rewrite !escapeICSValue_escapeEach. apply escapeEach_injective. Qed.

Lemma escapeICSValue_injective_witness :
  escapeICSValue "a;b" = escapeICSValue "a;b" /\ "a;b"%string = "a;b"%string.
Proof.
  split; [reflexivity|]. apply escapeICSValue_injective. reflexivity.
Defined.

(** X4: the escaped text holds no line feed and no carriage return, so a
    value cannot end the line it is written on. *)
Theorem escapeICSValue_one_line (value : string) :
  noChar LF (escapeICSValue value) = true /\ noChar CR (escapeICSValue value) = true.
Proof.
  rewrite escapeICSValue_escapeEach.
  induction value as [|c r [IH1 IH2]]; [split; reflexivity|]. cbn [escapeEach].
  destruct (escapeChar_cases c) as [(x & E & Hx & _)|(E & _ & N1 & N2)]; rewrite E.
  - split; apply noChar_app; auto;
      destruct Hx as [-> | [-> | [-> | [-> | ->]]]]; reflexivity.
  - split; apply noChar_app; auto; cbn [noChar].
    + apply Ascii.eqb_neq in N1. rewrite N1. reflexivity.
    + apply Ascii.eqb_neq in N2. rewrite N2. reflexivity.
Qed.

(** ** Dates of the calendar file *)

Lemma DateFromTime_range t : 1 <= DateFromTime t <= 31.
Proof.
  pose proof (YearFromDay_spec (Day t)) as S. rewrite DayFromYear_succ in S.
  unfold DateFromTime, MonthFromTime, InLeapYear, DayWithinYear, YearFromTime.
  set (y := YearFromDay (Day t)) in *.
  destruct (DaysInYear_cases y) as [E|E]; rewrite E in *; cbn [Z.eqb Pos.eqb];
    repeat match goal with
           | |- context [?a <? ?b] => destruct (Z.ltb_spec a b)
           end; cbn [monthStart]; lia.
Qed.

Lemma four_digits_checked :
  forallb (fun y => String.eqb (numberToString (Num y)) (decimal4 y))
          (List.map (fun i => 1000 + Z.of_nat i) (seq 0 (Z.to_nat 9000))) = true.
Proof. vm_compute. reflexivity. Qed.

Lemma numberToString_four_digits y :
  1000 <= y <= 9999 -> numberToString (Num y) = decimal4 y.
Proof.
  intros Hy. apply String.eqb_eq.
  apply (forall_range _ _ _ four_digits_checked y). lia.
Qed.

Lemma two_digits_checked :
  forallb (fun k => String.eqb (padStart 2 "0" (numberToString (Num k))) (decimal2 k))
          (List.map (fun i => 0 + Z.of_nat i) (seq 0 100)) = true.
Proof. vm_compute. reflexivity. Qed.

Lemma padStart_two_digits k :
  0 <= k <= 99 -> padStart 2 "0" (numberToString (Num k)) = decimal2 k.
Proof.
  intros Hk. apply String.eqb_eq.
  apply (forall_range _ _ _ two_digits_checked k). lia.
Qed.

Lemma short_years_checked :
  forallb (fun y => (String.length (numberToString (Num y)) <=? 3)%nat)
          (List.map (fun i => 0 + Z.of_nat i) (seq 0 (Z.to_nat 1000))) = true.
Proof. vm_compute. reflexivity. Qed.

Lemma numberToString_short y :
  0 <= y <= 999 -> (String.length (numberToString (Num y)) <= 3)%nat.
Proof.
  intros Hy. apply Nat.leb_le.
  apply (forall_range _ _ _ short_years_checked y). lia.
Qed.

Lemma length_append (s1 s2 : string) :
  String.length (s1 ++ s2) = (String.length s1 + String.length s2)%nat.
Proof.
  induction s1 as [|c s1 IH]; [reflexivity|]. rewrite append_cons. cbn [String.length].
  rewrite IH. reflexivity.
Qed.

(** X5: [formatDateForAllDay] writes a valid Date as the digits of its
    local year, as many as the year has, followed by two digits for the
    month and two for the day.  A year from 1000 to 9999 gives the eight
    characters YYYYMMDD; the year is not padded, so a year from 0 to 999
    gives fewer than eight characters; an Invalid Date gives the text
    NaNNaNNaN. *)
Theorem formatDateForAllDay_text tza date (h : heap) :
  (forall t y m d,
     h !! date = Some (Num t) -> localDate tza t = (y, m, d) ->
     formatDateForAllDay tza date h
     = (Normal (numberToString (Num y) ++ decimal2 (m + 1) ++ decimal2 d)%string, h) /\
     (1000 <= y <= 9999 -> numberToString (Num y) = decimal4 y) /\
     (0 <= y <= 999 ->
      (String.length (numberToString (Num y) ++ decimal2 (m + 1) ++ decimal2 d) < 8)%nat)) /\
  (default NaN (h !! date) = NaN ->
   formatDateForAllDay tza date h = (Normal "NaNNaNNaN"%string, h)).
Proof.
  split.
  - intros t y m d E L. unfold localDate in L. injection L as Hy Hm Hd.
    pose proof (MonthFromTime_range (t + tza)) as Rm.
    pose proof (DateFromTime_range (t + tza)) as Rd.
    split; [|split].
    + unfold formatDateForAllDay.
      rewrite (bind_Normal _ _ _ _ _ (getFullYear_Num tza date h t E)).
      rewrite (bind_Normal _ _ _ _ _ (getMonth_Num tza date h t E)).
      rewrite (bind_Normal _ _ _ _ _ (getDate_Num tza date h t E)).
      cbn [num_add]. rewrite Hy, Hm, Hd.
      rewrite !padStart_two_digits by lia. reflexivity.
    + intros Ry. apply numberToString_four_digits, Ry.
    + intros Ry. rewrite !length_append. pose proof (numberToString_short y Ry).
      unfold decimal2. cbn [String.length]. lia.
  - intros E. unfold formatDateForAllDay.
    rewrite (bind_Normal _ _ _ _ _ (getter_NaN tza YearFromTime date h E)).
    rewrite (bind_Normal _ _ _ _ _ (getter_NaN tza MonthFromTime date h E)).
    rewrite (bind_Normal _ _ _ _ _ (getter_NaN tza DateFromTime date h E)).
    reflexivity.
Qed.

Lemma formatDateForAllDay_text_witness :
  formatDateForAllDay 0 0%nat [Num (midnight 0 2024 11 25)]
  = (Normal "20241225"%string, [Num (midnight 0 2024 11 25)]) /\
  formatDateForAllDay 0 0%nat [Num (midnight 0 999 0 1)]
  = (Normal "9990101"%string, [Num (midnight 0 999 0 1)]) /\
  formatDateForAllDay 0 0%nat [NaN] = (Normal "NaNNaNNaN"%string, [NaN]).
Proof.
  destruct (formatDateForAllDay_text 0 0%nat [Num (midnight 0 2024 11 25)]) as (A & _).
  destruct (A (midnight 0 2024 11 25) 2024 11 25 eq_refl ltac:(vm_compute; reflexivity))
    as (A1 & A2 & _).
  destruct (formatDateForAllDay_text 0 0%nat [Num (midnight 0 999 0 1)]) as (B & _).
  destruct (B (midnight 0 999 0 1) 999 0 1 eq_refl ltac:(vm_compute; reflexivity))
    as (B1 & _).
  destruct (formatDateForAllDay_text 0 0%nat [NaN]) as (_ & C).
  split; [rewrite A1, (A2 ltac:(lia)); reflexivity|].
  split; [rewrite B1; vm_compute; reflexivity|apply C; reflexivity].
Defined.

(** ** Storage *)

Lemma mapGet_In key e (m : Store) : mapGet key m = Some e -> In (key, e) m.
Proof.
  induction m as [|[k v] rest IH]; cbn [mapGet]; [discriminate|].
  destruct (String.eqb_spec k key) as [->|N].
  - intros [= ->]. left. reflexivity.
  - intros H. right. apply IH, H.
Qed.

Lemma In_mapGet key e (m : Store) :
  List.NoDup (List.map fst m) -> In (key, e) m -> mapGet key m = Some e.
Proof.
  induction m as [|[k v] rest IH]; cbn [mapGet List.map fst]; intros ND H; [destruct H|].
  apply NoDup_cons_iff in ND as [Nk ND].
  destruct (String.eqb_spec k key) as [->|N].
  - destruct H as [[= ->]|H]; [reflexivity|].
    exfalso. apply Nk. apply in_map_iff. exists (key, e). split; [reflexivity|exact H].
  - destruct H as [[= -> ->]|H]; [contradiction|]. apply IH; assumption.
Qed.

Lemma mapGet_None key (m : Store) : mapGet key m = None <-> ~ In key (List.map fst m).
Proof.
  induction m as [|[k v] rest IH]; cbn [mapGet List.map fst]; [split; [intros _ []|reflexivity]|].
  destruct (String.eqb_spec k key) as [->|N].
  - split; [discriminate|]. intros H. exfalso. apply H. left. reflexivity.
  - rewrite IH. split.
    + intros H [E|E]; [contradiction|]. apply H, E.
    + intros H E. apply H. right. exact E.
Qed.

Lemma mapSet_new key value (m : Store) :
  mapGet key m = None -> mapSet key value m = m ++ [(key, value)].
Proof.
  induction m as [|[k v] rest IH]; cbn [mapGet mapSet]; [reflexivity|].
  destruct (String.eqb_spec k key) as [->|N]; [discriminate|].
  intros H. rewrite (IH H). reflexivity.
Qed.

Lemma mapGet_mapSet_same key value (m : Store) : mapGet key (mapSet key value m) = Some value.
Proof.
  induction m as [|[k v] rest IH]; cbn [mapSet mapGet].
  - rewrite String.eqb_refl. reflexivity.
  - destruct (String.eqb_spec k key) as [->|N]; cbn [mapGet].
    + rewrite String.eqb_refl. reflexivity.
    + destruct (String.eqb_spec k key); [contradiction|]. exact IH.
Qed.

Lemma mapGet_mapSet_other key other value (m : Store) :
  other <> key -> mapGet other (mapSet key value m) = mapGet other m.
Proof.
  intros N. induction m as [|[k v] rest IH]; cbn [mapSet mapGet].
  - destruct (String.eqb_spec key other); [congruence|reflexivity].
  - destruct (String.eqb_spec k key) as [->|Nk]; cbn [mapGet].
    + destruct (String.eqb_spec key other); [congruence|reflexivity].
    + destruct (String.eqb_spec k other); [reflexivity|exact IH].
Qed.

(** Replacing the value of a key the map has, entry by entry. *)
Lemma mapSet_present key e value (m : Store) :
  List.NoDup (List.map fst m) -> mapGet key m = Some e ->
  mapSet key value m
  = List.map (fun kv => if String.eqb (fst kv) key then (fst kv, value) else kv) m.
Proof.
  induction m as [|[k v] rest IH]; cbn [mapGet mapSet List.map fst]; [discriminate|].
  intros ND H. apply NoDup_cons_iff in ND as [Nk ND].
  destruct (String.eqb_spec k key) as [->|N].
  - f_equal. symmetry. rewrite <- (map_id rest) at 2. apply map_ext_in.
    intros [k' v'] Hin. cbn [fst].
    destruct (String.eqb_spec k' key) as [->|]; [|reflexivity].
    exfalso. apply Nk. apply in_map_iff. exists (key, v'). split; [reflexivity|exact Hin].
  - f_equal. apply IH; assumption.
Qed.

Lemma mapDelete_filter key (m : Store) :
  List.NoDup (List.map fst m) ->
  mapDelete key m
  = (match mapGet key m with Some _ => true | None => false end,
     List.filter (fun kv => negb (String.eqb (fst kv) key)) m).
Proof.
  induction m as [|[k v] rest IH]; cbn [mapGet mapDelete List.map fst List.filter];
    [reflexivity|].
  intros ND. apply NoDup_cons_iff in ND as [Nk ND].
  destruct (String.eqb_spec k key) as [->|N]; cbn [negb].
  - f_equal. symmetry. rewrite <- (map_id rest) at 2.
    assert (forall l : Store, (forall kv, In kv l -> fst kv <> key) ->
              List.filter (fun kv => negb (String.eqb (fst kv) key)) l = l) as F.
    { clear. induction l as [|[k' v'] l IHl]; [reflexivity|]. intros H. cbn [List.filter fst].
      destruct (String.eqb_spec k' key) as [E|_].
      - exfalso. apply (H (k', v')); [left; reflexivity|exact E].
      - cbn [negb]. f_equal. apply IHl. intros kv Hin. apply H. right. exact Hin. }
    rewrite map_id. apply F. intros [k' v'] Hin E. cbn [fst] in E. subst k'.
    apply Nk. apply in_map_iff. exists (key, v'). split; [reflexivity|exact Hin].
  - rewrite (IH ND). reflexivity.
Qed.

Lemma storeOk_keys_ids (store : Store) :
  storeOk store -> List.map id (List.map snd store) = List.map fst store.
Proof.
  intros [_ Hid]. rewrite map_map. apply map_ext_in. intros [k e] Hin. cbn [snd fst].
  apply Hid, Hin.
Qed.

Lemma storeOk_nil : storeOk [].
Proof. split; [constructor|intros k e []]. Qed.

Lemma storeOk_map (store : Store) (f : Event -> Event) :
  storeOk store -> (forall e, id (f e) = id e) ->
  storeOk (List.map (fun kv => (fst kv, f (snd kv))) store).
Proof.
  intros [ND Hid] Hf. split.
  - rewrite map_map. cbn [fst]. exact ND.
  - intros k e Hin. apply in_map_iff in Hin as ([k' e'] & [= <- <-] & Hin').
    cbn [fst snd]. rewrite Hf. apply Hid, Hin'.
Qed.

Section StorageLaws.

Variable now : Z.
Variable sortByCreatedAt : list Event -> list Event.
Hypothesis sort_permutes : forall l, Permutation (sortByCreatedAt l) l.

(** X6: [createEvent] under an identifier the store does not have appends
    the new event: every field of the input as it is, that identifier as
    [id], and a new Date holding the current time as [createdAt]; it returns
    that event; [getEvent] then finds it under the identifier and finds what
    it found before under every other one, and the store stays well formed. *)
Theorem createEvent_then_getEvent uuid insertEvent (events : Store) (h : heap) :
  storeOk events -> getEvent uuid events = None ->
  let event :=
    {| id := uuid;
       title := ie_title insertEvent;
       description := ie_description insertEvent;
       dateType := ie_dateType insertEvent;
       startDate := ie_startDate insertEvent;
       endDate := ie_endDate insertEvent;
       nthOccurrence := ie_nthOccurrence insertEvent;
       dayOfWeek := ie_dayOfWeek insertEvent;
       month := ie_month insertEvent;
       baseYear := ie_baseYear insertEvent;
       relativePeriod := ie_relativePeriod insertEvent;
       relativeUnit := ie_relativeUnit insertEvent;
       relativeDirection := ie_relativeDirection insertEvent;
       relativeEventName := ie_relativeEventName insertEvent;
       createdAt := DObject (length h) |} in
  createEvent now uuid insertEvent events h
  = (Normal (event, events ++ [(uuid, event)]), h ++ [Num now]) /\
  getEvent uuid (events ++ [(uuid, event)]) = Some event /\
  (forall other, other <> uuid ->
     getEvent other (events ++ [(uuid, event)]) = getEvent other events) /\
  storeOk (events ++ [(uuid, event)]).
Proof.
  intros [ND Hid] Hnew event. unfold getEvent in *. split.
  { unfold createEvent.
    rewrite (bind_Normal _ _ _ _ _
      (eq_refl : newDateNow now h = (Normal (length h), h ++ [Num now]))).
    unfold ret. rewrite (mapSet_new _ _ _ Hnew). reflexivity. }
  repeat split.
  - rewrite <- (mapSet_new uuid _ events Hnew). apply mapGet_mapSet_same.
  - intros other N. rewrite <- (mapSet_new uuid _ events Hnew).
    apply mapGet_mapSet_other, N.
  - rewrite map_app. cbn [List.map fst].
    apply List.NoDup_app; [exact ND|repeat constructor; intros []|].
    intros a Ha [E|[]]. subst a. apply (proj1 (mapGet_None uuid events)) in Hnew.
    contradiction.
  - intros k e Hin. apply in_app_or in Hin as [Hin|[[= <- <-]|[]]]; [apply Hid, Hin|].
    reflexivity.
Qed.

(** X7: [updateEvent] under an identifier the store does not have returns
    [undefined] and leaves the store as it is; otherwise it returns the
    stored event overlaid with the keys of the update, with the same [id]
    and [createdAt], stores it in the place of the old one, and changes no
    other entry. *)
Theorem updateEvent_overlays key updateData (events : Store) :
  storeOk events ->
  (getEvent key events = None ->
   updateEvent key updateData events = (None, events)) /\
  (forall existing, getEvent key events = Some existing ->
     let updated := spread existing updateData in
     let events' := snd (updateEvent key updateData events) in
     fst (updateEvent key updateData events) = Some updated /\
     id updated = id existing /\ createdAt updated = createdAt existing /\
     getEvent key events' = Some updated /\
     (forall other, other <> key -> getEvent other events' = getEvent other events) /\
     List.map fst events' = List.map fst events /\
     storeOk events').
Proof.
  intros [ND Hid]. unfold getEvent, updateEvent. split.
  - intros ->. reflexivity.
  - intros existing E. rewrite E. cbn [fst snd]. repeat split.
    + apply mapGet_mapSet_same.
    + intros other N. apply mapGet_mapSet_other, N.
    + rewrite (mapSet_present key existing _ events ND E), map_map.
      apply map_ext. intros [k v]. cbn [fst]. destruct (String.eqb k key); reflexivity.
    + rewrite (mapSet_present key existing _ events ND E), map_map.
      erewrite map_ext; [exact ND|]. intros [k v]. cbn [fst].
      destruct (String.eqb k key); reflexivity.
    + intros k e Hin. rewrite (mapSet_present key existing _ events ND E) in Hin.
      apply in_map_iff in Hin as ([k' v'] & Heq & Hin'). cbn [fst] in Heq.
      destruct (String.eqb_spec k' key) as [->|N].
      * injection Heq as <- <-. unfold spread. cbn [id]. apply Hid, (mapGet_In _ _ _ E).
      * injection Heq as <- <-. apply Hid, Hin'.
Qed.

(** X8: [deleteEvent] answers whether the identifier was stored; afterwards
    [getEvent] finds nothing under it and finds what it found before under
    every other identifier. *)
Theorem deleteEvent_removes key (events : Store) :
  storeOk events ->
  let events' := snd (deleteEvent key events) in
  fst (deleteEvent key events)
  = match getEvent key events with Some _ => true | None => false end /\
  getEvent key events' = None /\
  (forall other, other <> key -> getEvent other events' = getEvent other events) /\
  storeOk events'.
Proof.
  intros [ND Hid]. unfold getEvent, deleteEvent. rewrite (mapDelete_filter key events ND).
  cbn [fst snd]. repeat split.
  - apply mapGet_None. intros Hin. apply in_map_iff in Hin as ([k v] & Hk & Hin').
    cbn [fst] in Hk. subst k. apply filter_In in Hin' as [_ Hf]. cbn [fst] in Hf.
    rewrite String.eqb_refl in Hf. discriminate.
  - intros other N. clear ND Hid. induction events as [|[k v] rest IH]; [reflexivity|].
    cbn [List.filter fst mapGet]. destruct (String.eqb_spec k key) as [->|Nk]; cbn [negb mapGet].
    + destruct (String.eqb_spec key other); [congruence|exact IH].
    + destruct (String.eqb k other); [reflexivity|exact IH].
  - clear Hid. induction events as [|[k v] rest IH]; [constructor|].
    cbn [List.map fst] in ND. apply NoDup_cons_iff in ND as [Nk ND].
    cbn [List.filter fst]. destruct (String.eqb k key); cbn [negb]; [apply IH, ND|].
    cbn [List.map fst]. constructor; [|apply IH, ND].
    intros Hin. apply Nk. apply in_map_iff in Hin as (kv & Hk & Hin').
    apply filter_In in Hin' as [Hin' _]. apply in_map_iff. exists kv. auto.
  - intros k e Hin. apply filter_In in Hin as [Hin _]. apply Hid, Hin.
Qed.

(** Deleting the events of a list one after the other. *)
Lemma clear_fold (l : list Event) (st : Store) n :
  List.NoDup (List.map fst st) -> List.NoDup (List.map id l) ->
  (forall e, In e l -> In (id e) (List.map fst st)) ->
  List.fold_left
    (fun '(deletedCount, st) event =>
       let (deleted, st') := mapDelete (id event) st in
       if deleted then (S deletedCount, st') else (deletedCount, st'))
    l (n, st)
  = ((n + length l)%nat,
     List.filter (fun kv => negb (existsb (fun e => String.eqb (fst kv) (id e)) l)) st).
Proof.
  revert st n. induction l as [|e l IH]; intros st n ND NDl Hin.
  - cbn. f_equal; [lia|]. symmetry. clear. induction st as [|kv st IHst]; [reflexivity|].
    cbn. f_equal. exact IHst.
  - cbn [List.fold_left]. rewrite (mapDelete_filter (id e) st ND).
    assert (mapGet (id e) st <> None) as Hsome.
    { intros HN. apply (proj1 (mapGet_None _ _) HN). apply Hin. left. reflexivity. }
    destruct (mapGet (id e) st) as [x|]; [|contradiction].
    cbn [List.map] in NDl. apply NoDup_cons_iff in NDl as [Ne NDl].
    rewrite IH.
    + f_equal; [cbn [length]; lia|]. clear - st. induction st as [|kv st IHst]; [reflexivity|].
      cbn [List.filter existsb]. destruct (String.eqb (fst kv) (id e)); cbn [negb orb].
      * exact IHst.
      * cbn [List.filter]. destruct (existsb _ l); cbn [negb]; [exact IHst|].
        f_equal. exact IHst.
    + clear - ND. induction st as [|[k v] st IHst]; [constructor|].
      cbn [List.map fst] in ND. apply NoDup_cons_iff in ND as [Nk ND].
      cbn [List.filter fst]. destruct (String.eqb k (id e)); cbn [negb]; [apply IHst, ND|].
      cbn [List.map fst]. constructor; [|apply IHst, ND].
      intros H. apply Nk. apply in_map_iff in H as (kv & Hk & H').
      apply filter_In in H' as [H' _]. apply in_map_iff. exists kv. auto.
    + exact NDl.
    + intros e' He'. specialize (Hin e' (or_intror He')).
      apply in_map_iff in Hin as ([k v] & Hk & Hkv). cbn [fst] in Hk. subst k.
      apply in_map_iff. exists (id e', v). split; [reflexivity|].
      apply filter_In. split; [exact Hkv|]. cbn [fst].
      destruct (String.eqb_spec (id e') (id e)) as [E|]; [|reflexivity].
      exfalso. apply Ne. rewrite <- E. apply in_map, He'.
Qed.

(** X9: on a well-formed store, clearing all events deletes every one of
    them: the count it reports is the number of stored events and the store
    is empty afterwards. *)
Theorem clearAllEvents_empties (store : Store) :
  storeOk store ->
  clearAllEvents sortByCreatedAt store = (length store, []).
Proof.
  intros Ok. pose proof Ok as [ND Hid]. unfold clearAllEvents, getAllEvents, deleteEvent.
  set (values := List.map snd store).
  pose proof (sort_permutes values) as P.
  rewrite clear_fold.
  - f_equal.
    + rewrite (Permutation_length P). subst values. rewrite length_map. reflexivity.
    + assert (forall kv, In kv store ->
                existsb (fun e => String.eqb (fst kv) (id e)) (sortByCreatedAt values) = true)
        as Hall.
      { intros [k v] Hin. apply existsb_exists. exists v. split.
        - apply (Permutation_in _ (Permutation_sym P)). subst values.
          apply in_map_iff. exists (k, v). auto.
        - cbn [fst]. rewrite (Hid k v Hin). apply String.eqb_refl. }
      revert Hall. generalize (sortByCreatedAt values) as l. clear. intros l Hall.
      induction store as [|kv st IH]; [reflexivity|].
      cbn [List.filter]. rewrite (Hall kv (or_introl eq_refl)). cbn [negb].
      apply IH. intros kv' H. apply Hall. right. exact H.
  - exact ND.
  - apply (Permutation_NoDup (Permutation_map id (Permutation_sym P))).
    subst values. rewrite (storeOk_keys_ids store Ok). exact ND.
  - intros e He. apply (Permutation_in _ P) in He. subst values.
    apply in_map_iff in He as ([k v] & Hv & Hin). cbn [snd] in Hv. subst v.
    rewrite (Hid k e Hin). apply in_map_iff. exists (k, e). auto.
Qed.

Lemma spread_baseYearOnly y e : spread e (baseYearOnly y) = withBaseYear y e.
Proof. reflexivity. Qed.

Lemma filter_length_Permutation {A} (f : A -> bool) (l l' : list A) :
  Permutation l l' -> length (List.filter f l) = length (List.filter f l').
Proof.
  induction 1 as [|x l l' _ IH|x y l|l l' l'' _ IH1 _ IH2]; cbn [List.filter].
  - reflexivity.
  - destruct (f x); cbn [length]; congruence.
  - destruct (f x), (f y); reflexivity.
  - congruence.
Qed.

(** Updating the nth events of a list one after the other. *)
Lemma year_fold y (l : list Event) (st : Store) (acc : list Event) :
  List.NoDup (List.map fst st) -> List.NoDup (List.map id l) ->
  (forall e, In e l -> mapGet (id e) st = Some e) ->
  List.fold_left
    (fun '(updatedEvents, st) event =>
       if String.eqb (dateType event) "nth" then
         let updatedData := baseYearOnly y in
         let (_, st') := updateEvent (id event) updatedData st in
         let updatedEvent := spread event updatedData in
         (updatedEvents ++ [updatedEvent], st')
       else (updatedEvents, st))
    l (acc, st)
  = (acc ++ List.map (withBaseYear y) (List.filter isNth l),
     List.map
       (fun kv =>
          (fst kv,
           if existsb (fun e => String.eqb (fst kv) (id e) && isNth e) l
           then withBaseYear y (snd kv) else snd kv)) st).
Proof.
  revert st acc. induction l as [|e l IH]; intros st acc ND NDl Hget.
  - cbn. rewrite app_nil_r. f_equal. symmetry. erewrite map_ext; [apply map_id|].
    intros [k v]. reflexivity.
  - cbn [List.fold_left List.filter]. fold (isNth e).
    cbn [List.map] in NDl. apply NoDup_cons_iff in NDl as [Ne NDl].
    pose proof (Hget e (or_introl eq_refl)) as Ee.
    destruct (isNth e) eqn:Hn.
    + assert (updateEvent (id e) (baseYearOnly y) st
              = (Some (withBaseYear y e), mapSet (id e) (withBaseYear y e) st)) as Hupd.
      { unfold updateEvent. rewrite Ee. reflexivity. }
      rewrite Hupd, (mapSet_present _ _ _ _ ND Ee), spread_baseYearOnly.
      rewrite IH.
      * f_equal.
        { cbn [List.map]. rewrite <- app_assoc. reflexivity. }
        rewrite map_map. apply map_ext_in. intros [k v] Hin. cbn [fst snd existsb].
        destruct (String.eqb_spec k (id e)) as [->|Nk]; cbn [fst snd andb orb].
        -- rewrite Hn. cbn [orb].
           rewrite (In_mapGet _ _ _ ND Hin) in Ee. injection Ee as ->.
           replace (existsb _ l) with false; [reflexivity|].
           symmetry. apply not_true_is_false. intros Hex.
           apply existsb_exists in Hex as (e' & He' & Hk).
           apply andb_true_iff in Hk as [Hk _]. apply String.eqb_eq in Hk.
           apply Ne. rewrite Hk. apply in_map, He'.
        -- reflexivity.
      * rewrite map_map. erewrite map_ext; [exact ND|]. intros [k v]. cbn [fst].
        destruct (String.eqb k (id e)); reflexivity.
      * exact NDl.
      * intros e' He'. rewrite <- (mapSet_present _ _ _ _ ND Ee).
        rewrite mapGet_mapSet_other; [apply Hget; right; exact He'|].
        intros E. apply Ne. assert (id e = id e') as -> by congruence.
        apply in_map, He'.
    + rewrite IH.
      * f_equal. apply map_ext. intros [k v]. cbn [fst snd existsb].
        rewrite Hn, andb_false_r. reflexivity.
      * exact ND.
      * exact NDl.
      * intros e' He'. apply Hget. right. exact He'.
Qed.

Lemma updateYear_in_range y (store : Store) :
  storeOk store -> 2020 <= y <= 2050 ->
  updateYear sortByCreatedAt (Some y) store
  = (YearUpdated (length (List.filter (fun kv => isNth (snd kv)) store)) y, rebase y store).
Proof.
  intros Ok Hy. pose proof Ok as [ND Hid]. unfold updateYear.
  replace (y =? 0) with false by lia. replace (y <? 2020) with false by lia.
  replace (y >? 2050) with false by lia. cbn [orb].
  unfold getAllEvents. set (values := List.map snd store).
  pose proof (sort_permutes values) as P.
  rewrite year_fold.
  - cbn [app]. rewrite length_map, (filter_length_Permutation _ _ _ P).
    subst values. f_equal.
    + f_equal. clear. induction store as [|[k v] st IH]; [reflexivity|].
      cbn [List.map List.filter snd]. destruct (isNth v); cbn [length]; congruence.
    + unfold rebase. apply map_ext_in. intros [k v] Hin. cbn [fst snd]. f_equal.
      replace (existsb _ _) with (isNth v); [reflexivity|].
      destruct (existsb _ _) eqn:Hex.
      * apply existsb_exists in Hex as (e & He & Hk).
        apply andb_true_iff in Hk as [Hk Hn]. apply String.eqb_eq in Hk.
        apply (Permutation_in _ P) in He.
        apply in_map_iff in He as ([k' e'] & He' & Hin'). cbn [snd] in He'. subst e'.
        pose proof (Hid k' e Hin') as Hk'. rewrite <- Hk in Hk'. subst k'.
        pose proof (In_mapGet _ _ _ ND Hin) as G1.
        pose proof (In_mapGet _ _ _ ND Hin') as G2. congruence.
      * destruct (isNth v) eqn:Hn; [|reflexivity]. exfalso.
        apply (eq_true_false_abs _ eq_refl). rewrite <- Hex. symmetry.
        apply existsb_exists. exists v. split.
        -- apply (Permutation_in _ (Permutation_sym P)).
           apply in_map_iff. exists (k, v). auto.
        -- rewrite (Hid k v Hin), String.eqb_refl, Hn. reflexivity.
  - exact ND.
  - apply (Permutation_NoDup (Permutation_map id (Permutation_sym P))).
    subst values. rewrite (storeOk_keys_ids store Ok). exact ND.
  - intros e He. apply (Permutation_in _ P) in He. subst values.
    apply in_map_iff in He as ([k v] & Hv & Hin). cbn [snd] in Hv. subst v.
    rewrite (Hid k e Hin). apply In_mapGet; assumption.
Qed.

(** X10: [update-year] rejects a missing year, 0 and every year outside
    2020..2050 and then leaves the store as it is. For a year in the range
    and a well-formed store it sets [baseYear] on every nth event, keeps all
    other fields, all other events and the order of the store, and reports
    the number of nth events, in whatever order [getAllEvents] lists them. *)
Theorem updateYear_rebases (newYear : option Z) (store : Store) :
  storeOk store ->
  updateYear sortByCreatedAt newYear store
  = match newYear with
    | Some y =>
        if (2020 <=? y) && (y <=? 2050)
        then (YearUpdated (length (List.filter (fun kv => isNth (snd kv)) store)) y,
              rebase y store)
        else (InvalidYear, store)
    | None => (InvalidYear, store)
    end.
Proof.
  intros Ok. destruct newYear as [y|]; [|reflexivity].
  destruct (Z.leb_spec 2020 y) as [Hlo|Hlo]; cbn [andb].
  - destruct (Z.leb_spec y 2050) as [Hhi|Hhi].
    + apply updateYear_in_range; [exact Ok|lia].
    + unfold updateYear. replace (y >? 2050) with true by lia.
      rewrite orb_true_r. reflexivity.
  - unfold updateYear. replace (y <? 2020) with true by lia.
    rewrite orb_true_r. reflexivity.
Qed.

End StorageLaws.

Lemma calendar_ok : storeOk calendar.
Proof.
  split.
  - repeat constructor; cbn; intros H; repeat destruct H as [H|H]; try discriminate H;
      exact H.
  - intros k e H. cbn in H. repeat destruct H as [H|H]; try (injection H as <- <-; reflexivity).
    destruct H.
Qed.

Lemma createEvent_then_getEvent_witness :
  let event :=
    {| id := "3"; title := "Kickoff"; description := None; dateType := "fixed";
       startDate := DString "2024-01-15"; endDate := DNull;
       nthOccurrence := None; dayOfWeek := None; month := None; baseYear := None;
       relativePeriod := None; relativeUnit := None; relativeDirection := None;
       relativeEventName := None; createdAt := DObject 0 |} in
  createEvent clock2024 "3" kickoffInput calendar []
  = (Normal (event, calendar ++ [("3"%string, event)]), [Num clock2024]) /\
  getEvent "3" (calendar ++ [("3"%string, event)]) = Some event /\
  getEvent "21" (calendar ++ [("3"%string, event)]) = Some meetup.
Proof.
  destruct (createEvent_then_getEvent clock2024 "3" kickoffInput calendar []
              calendar_ok ltac:(vm_compute; reflexivity))
    as (A & B & C & _).
  split; [exact A|]. split; [exact B|].
  etransitivity; [exact (C "21"%string ltac:(discriminate))|reflexivity].
Defined.

Lemma updateEvent_overlays_witness :
  fst (updateEvent "21" (baseYearOnly 2030) calendar) = Some (withBaseYear 2030 meetup) /\
  getEvent "22" (snd (updateEvent "21" (baseYearOnly 2030) calendar)) = Some release /\
  updateEvent "7" (baseYearOnly 2030) calendar = (None, calendar).
Proof.
  destruct (updateEvent_overlays "21" (baseYearOnly 2030) calendar calendar_ok) as (_ & A).
  destruct (A meetup ltac:(vm_compute; reflexivity)) as (A1 & _ & _ & _ & A2 & _).
  destruct (updateEvent_overlays "7" (baseYearOnly 2030) calendar calendar_ok) as (B & _).
  split; [exact A1|]. split; [|apply B; vm_compute; reflexivity].
  rewrite (A2 "22"%string ltac:(discriminate)). vm_compute. reflexivity.
Defined.

Lemma deleteEvent_removes_witness :
  fst (deleteEvent "22" calendar) = true /\
  getEvent "22" (snd (deleteEvent "22" calendar)) = None /\
  getEvent "1" (snd (deleteEvent "22" calendar)) = Some launch1.
Proof.
  destruct (deleteEvent_removes "22" calendar calendar_ok) as (A & B & C & _).
  split; [rewrite A; vm_compute; reflexivity|]. split; [exact B|].
  rewrite (C "1"%string ltac:(discriminate)). vm_compute. reflexivity.
Defined.

Lemma clearAllEvents_empties_witness :
  clearAllEvents (@rev Event) calendar = (3%nat, []).
Proof.
  apply (clearAllEvents_empties (@rev Event)
           (fun l => Permutation_sym (Permutation_rev l)) calendar calendar_ok).
Defined.

Lemma updateYear_rebases_witness :
  updateYear (@rev Event) (Some 2030) calendar
  = (YearUpdated 1 2030,
     [("21"%string, withBaseYear 2030 meetup); ("22"%string, release); ("1"%string, launch1)]) /\
  updateYear (@rev Event) (Some 2019) calendar = (InvalidYear, calendar).
Proof.
  split.
  - rewrite (updateYear_rebases (@rev Event)
               (fun l => Permutation_sym (Permutation_rev l)) (Some 2030) calendar calendar_ok).
    vm_compute. reflexivity.
  - rewrite (updateYear_rebases (@rev Event)
               (fun l => Permutation_sym (Permutation_rev l)) (Some 2019) calendar calendar_ok).
    reflexivity.
Defined.

(** ** Nth events with a base year *)

Lemma weekdayOf_weeks y m d k : weekdayOf y m (d + k * 7) = weekdayOf y m d.
Proof.
  unfold weekdayOf, MakeDay.
  set (a := DayFromYear _ + monthStart _ _).
  replace (a + (d + k * 7) - 1 + 4) with (a + d - 1 + 4 + k * 7) by lia.
  apply Z_mod_plus_full.
Qed.

Lemma nth_event_resolves tza now fuel e evs (h : heap) n dow mon y :
  - msPerDay <= tza <= msPerDay ->
  dateType e = "nth" -> nthOccurrence e = Some n -> dayOfWeek e = Some dow ->
  month e = Some mon -> baseYear e = Some y ->
  n = -1 \/ 1 <= n <= 4 -> 0 <= dow <= 6 -> 1 <= mon <= 12 -> 100 <= y <= 275000 ->
  (7 <= fuel)%nat ->
  let day := if n =? -1 then lastOccurrence y mon dow
             else firstOccurrence y mon dow + (n - 1) * 7 in
  exists d h',
    calculateEventDate tza now (S fuel) e evs h = (Normal (Some d), h ++ h') /\
    (length h <= d)%nat /\
    (h ++ h') !! d = Some (Num (midnight tza y (mon - 1) day)) /\
    localDate tza (midnight tza y (mon - 1) day) = (y, mon - 1, day) /\
    weekdayOf y (mon - 1) day = dow /\
    (1 <= n <= 4 -> 7 * (n - 1) < day <= 7 * n).
Proof.
  intros Ht E En Ed Em Ey Hn Hd Hm Hy Hf. cbv zeta.
  rewrite (calculateEventDate_nth tza now fuel e evs E), En, Ed, Em, Ey.
  assert (truthyNum (Some n) = Some n) as -> by (destruct n; [lia|reflexivity..]).
  assert (truthyNum (Some mon) = Some mon) as -> by (destruct mon; [lia|reflexivity..]).
  assert (truthyNum (Some y) = Some y) as -> by (destruct y; [lia|reflexivity..]).
  rewrite (try_catch_bind_Normal _ _ _ h (Num y) h eq_refl).
  pose proof (DaysInMonth_range y (mon - 1) ltac:(lia)) as R.
  destruct (Z.eqb_spec n (-1)) as [->|Hne].
  - set (day := lastOccurrence y mon dow).
    pose proof (lastOccurrence_greatest y mon dow Hm Hd) as (G1 & G2 & _).
    fold day in G1, G2.
    exists (3 + length h)%nat. eexists. unfold try_catch.
    rewrite (bind_Normal _ _ _ _ _
      (calculateNthDate_backward tza now fuel h y mon dow Ht Hy Hm Hd Hf)).
    unfold ret. split; [reflexivity|]. split; [lia|]. split.
    { rewrite lookup_app_r by lia.
      replace (3 + length h - length h)%nat with 3%nat by lia. reflexivity. }
    split; [apply localDate_midnight; lia|]. split; [exact G2|lia].
  - set (day := firstOccurrence y mon dow + (n - 1) * 7).
    pose proof (firstOccurrence_least y mon dow Hd) as (L1 & L2 & _).
    assert (localDate tza (midnight tza y (mon - 1) day) = (y, mon - 1, day)) as LD.
    { apply localDate_midnight; subst day; lia. }
    pose proof (calculateNthDate_forward tza now fuel h y mon dow n Ht
                  Hy Hm Hd ltac:(lia) Hne Hf) as X.
    cbv zeta in X. fold day in X.
    assert ((MonthFromTime (midnight tza y (mon - 1) day + tza) =? mon - 1) = true) as Emon.
    { unfold localDate in LD. injection LD as _ LM _. rewrite LM. apply Z.eqb_refl. }
    rewrite Emon in X.
    exists (S (length h)). eexists. unfold try_catch.
    rewrite (bind_Normal _ _ _ _ _ X). unfold ret.
    split; [reflexivity|]. split; [lia|]. split.
    { rewrite lookup_app_r by lia.
      replace (S (length h) - length h)%nat with 1%nat by lia. reflexivity. }
    split; [exact LD|]. split; [|subst day; lia].
    subst day. rewrite weekdayOf_weeks. exact L2.
Qed.

(** X11: an nth event whose occurrence is -1 or 1..4, with a weekday 0..6,
    a month 1..12 and a base year, always resolves to a date, whatever the
    clock and the snapshot: a new Date object at local midnight of the day
    of that month of the base year that has the weekday and is the last
    such day (occurrence -1) or lies in the n-th week of the month. The
    error of a missing occurrence cannot arise for these whole-numbered
    occurrences. *)
Theorem nth_event_with_baseYear_resolves tza now fuel e evs (h : heap) n dow mon y :
  - msPerDay <= tza <= msPerDay ->
  dateType e = "nth" -> nthOccurrence e = Some n -> dayOfWeek e = Some dow ->
  month e = Some mon -> baseYear e = Some y ->
  n = -1 \/ 1 <= n <= 4 -> 0 <= dow <= 6 -> 1 <= mon <= 12 -> 100 <= y <= 275000 ->
  (7 <= fuel)%nat ->
  let day := if n =? -1 then lastOccurrence y mon dow
             else firstOccurrence y mon dow + (n - 1) * 7 in
  exists d h',
    calculateEventDate tza now (S fuel) e evs h = (Normal (Some d), h ++ h') /\
    (length h <= d)%nat /\
    (h ++ h') !! d = Some (Num (midnight tza y (mon - 1) day)) /\
    localDate tza (midnight tza y (mon - 1) day) = (y, mon - 1, day) /\
    weekdayOf y (mon - 1) day = dow /\
    (1 <= n <= 4 -> 7 * (n - 1) < day <= 7 * n).
Proof. apply nth_event_resolves. Qed.

Lemma nth_event_with_baseYear_resolves_witness :
  exists d h',
    calculateEventDate 0 clock2025 8 (withBaseYear 2024 meetup) [] []
    = (Normal (Some d), h') /\
    h' !! d = Some (Num (midnight 0 2024 2 5)) /\
    localDate 0 (midnight 0 2024 2 5) = (2024, 2, 5) /\
    weekdayOf 2024 2 5 = 2.
Proof.
  assert (- msPerDay <= 0 <= msPerDay) as H1 by (unfold msPerDay; lia).
  destruct (nth_event_with_baseYear_resolves 0 clock2025 7 (withBaseYear 2024 meetup) [] []
              1 2 3 2024 H1 eq_refl eq_refl eq_refl eq_refl eq_refl
              ltac:(lia) ltac:(lia) ltac:(lia) ltac:(lia) ltac:(lia))
    as (d & h' & A & _ & B & C & D & _).
  exists d, h'. split; [exact A|]. split; [exact B|]. split; [exact C|exact D].
Defined.

(** X12: after [update-year] with a year in 2020..2050, every stored nth
    event with occurrence -1 or 1..4, weekday 0..6 and month 1..12 is found
    under its key with the new base year, and resolves, under every clock,
    to a date of that year in the event's month and on the event's weekday. *)
Theorem updateYear_then_resolve sortByCreatedAt tza now fuel
    (store : Store) newYear key e evs (h : heap) n dow mon :
  (forall l, Permutation (sortByCreatedAt l) l) ->
  storeOk store -> 2020 <= newYear <= 2050 -> - msPerDay <= tza <= msPerDay ->
  In (key, e) store ->
  dateType e = "nth" -> nthOccurrence e = Some n -> dayOfWeek e = Some dow ->
  month e = Some mon ->
  n = -1 \/ 1 <= n <= 4 -> 0 <= dow <= 6 -> 1 <= mon <= 12 -> (7 <= fuel)%nat ->
  let store' := snd (updateYear sortByCreatedAt (Some newYear) store) in
  exists e' d h' day,
    getEvent key store' = Some e' /\
    calculateEventDate tza now (S fuel) e' evs h = (Normal (Some d), h ++ h') /\
    (h ++ h') !! d = Some (Num (midnight tza newYear (mon - 1) day)) /\
    localDate tza (midnight tza newYear (mon - 1) day) = (newYear, mon - 1, day) /\
    weekdayOf newYear (mon - 1) day = dow.
Proof.
  intros P Ok Hy Ht Hin E En Ed Em Hn Hd Hm Hf store'.
  subst store'. rewrite (updateYear_in_range sortByCreatedAt P newYear store Ok Hy).
  cbn [snd]. pose proof Ok as [ND Hid].
  assert (getEvent key (rebase newYear store) = Some (withBaseYear newYear e)) as G.
  { apply In_mapGet.
    - unfold rebase. rewrite map_map. exact ND.
    - unfold rebase. apply in_map_iff. exists (key, e). split; [|exact Hin].
      cbn [fst snd]. unfold isNth. rewrite E. reflexivity. }
  destruct (nth_event_resolves tza now fuel (withBaseYear newYear e) evs h n dow mon newYear
              Ht E En Ed Em eq_refl Hn Hd Hm ltac:(lia) Hf)
    as (d & h' & A & _ & B & C & D & _).
  exists (withBaseYear newYear e), d, h'. eexists. repeat split; eassumption.
Qed.

Lemma updateYear_then_resolve_witness :
  exists e' d h' day,
    getEvent "21" (snd (updateYear (@rev Event) (Some 2030) calendar)) = Some e' /\
    calculateEventDate 0 clock2024 8 e' [] [] = (Normal (Some d), h') /\
    h' !! d = Some (Num (midnight 0 2030 2 day)) /\
    localDate 0 (midnight 0 2030 2 day) = (2030, 2, day) /\
    weekdayOf 2030 2 day = 2.
Proof.
  assert (- msPerDay <= 0 <= msPerDay) as H1 by (unfold msPerDay; lia).
  destruct (updateYear_then_resolve (@rev Event) 0 clock2024 7 calendar 2030 "21" meetup [] []
              1 2 3 (fun l => Permutation_sym (Permutation_rev l)) calendar_ok
              ltac:(lia) H1 ltac:(left; reflexivity) eq_refl eq_refl eq_refl eq_refl
              ltac:(lia) ltac:(lia) ltac:(lia) ltac:(lia))
    as (e' & d & h' & day & A & B & C & D & F).
  exists e', d, h', day. repeat split; assumption.
Defined.

(** * Properties of the calendar export *)

Lemma newDateCopy_default d (h : heap) :
  newDateCopy d h = (Normal (length h), h ++ [default NaN (h !! d)]).
Proof. reflexivity. Qed.

Lemma lookup_after_copy (h : heap) s :
  default NaN ((h ++ [default NaN (h !! s)]) !! s) = default NaN (h !! s).
Proof.
  destruct (h !! s) as [v|] eqn:E.
  - rewrite (lookup_app_l_Some _ _ _ _ E). reflexivity.
  - simpl default. destruct ((h ++ [NaN]) !! s) as [w|] eqn:E'; [|reflexivity].
    apply lookup_app_Some in E' as [E'|[_ E']]; [rewrite E in E'; discriminate E'|].
    apply list_lookup_singleton_Some in E' as [_ <-]. reflexivity.
Qed.

Lemma dayAfter_spec tza s (h : heap) :
  dayAfter tza s h = (Normal (length h), h ++ [nextDayValue (default NaN (h !! s))]).
Proof.
  unfold dayAfter. rewrite (bind_Normal _ _ _ _ _ (newDateCopy_default s h)).
  pose proof (lookup_after_copy h s) as L.
  destruct (default NaN (h !! s)) as [|t] eqn:V.
  - rewrite (bind_Normal _ _ _ _ _ (getter_NaN tza DateFromTime s _ L)).
    cbn [num_add nextDayValue]. unfold setDate, thisTimeValue, bind, ret.
    rewrite lookup_last. reflexivity.
  - assert ((h ++ [Num t]) !! s = Some (Num t)) as L'.
    { destruct ((h ++ [Num t]) !! s) as [w|]; simpl in L; congruence. }
    rewrite (bind_Normal _ _ _ _ _ (getDate_Num tza s _ t L')).
    cbn [num_add].
    rewrite (bind_Normal _ _ _ _ _
               (setDate_Num tza (length h) _ t _ (lookup_last h (Num t)))).
    unfold ret. rewrite insert_last. cbn [nextDayValue]. do 4 f_equal. lia.
Qed.

Lemma exportDates_resolver tza now fuel e evs (h : heap) :
  (dateType e = "fixed" -> truthyDate (endDate e) = false) ->
  exportDates tza now fuel e evs h
  = (let* calculatedDate := calculateEventDate tza now (S fuel) e evs in
     match calculatedDate with
     | None => ret None
     | Some eventStart =>
         let* eventEnd := dayAfter tza eventStart in
         ret (Some (eventStart, eventEnd))
     end) h.
Proof.
  intros Hend. unfold exportDates.
  destruct (String.eqb_spec (dateType e) "fixed") as [E|N1].
  { rewrite (calculateEventDate_fixed tza now fuel e evs E), (Hend E).
    destruct (truthyDate (startDate e)); cbn [negb]; [|reflexivity].
    unfold bind, ret. destruct (parseSimpleDate tza (startDate e) h) as [[a|err|] h'];
      reflexivity. }
  destruct (String.eqb_spec (dateType e) "nth") as [E|N2].
  { rewrite (calculateEventDate_nth tza now fuel e evs E).
    destruct (truthyNum (nthOccurrence e)) as [nth|]; [|reflexivity].
    destruct (dayOfWeek e) as [dow|]; [|reflexivity].
    destruct (truthyNum (month e)) as [mon|]; [|reflexivity].
    unfold try_catch, bind.
    destruct (truthyNum (baseYear e)) as [y|].
    - unfold ret.
      destruct (calculateNthDate tza now fuel nth dow mon (Some (Num y)) h)
        as [[s|err|] h2]; [|reflexivity..].
      cbv beta iota. rewrite dayAfter_spec. reflexivity.
    - destruct (newDateNow now h) as [[d|err|] h0]; [|reflexivity..].
      destruct (getFullYear tza d h0) as [[y|err|] h1]; [|reflexivity..].
      destruct (calculateNthDate tza now fuel nth dow mon (Some y) h1)
        as [[s|err|] h2]; [|reflexivity..].
      unfold ret. cbv beta iota. rewrite dayAfter_spec. reflexivity. }
  destruct (String.eqb_spec (dateType e) "relative") as [E|N3]; [reflexivity|].
  rewrite (calculateEventDate_other tza now fuel e evs N1 N2 N3). reflexivity.
Qed.

(** X14: for every event other than a fixed event with an end date, the
    export takes as start the very Date [calculateEventDate] returns, skips
    the event exactly when that is null, and takes the day after as end. *)
Theorem exportDates_follows_resolver tza now fuel e evs (h : heap) :
  (dateType e = "fixed" -> truthyDate (endDate e) = false) ->
  exportDates tza now fuel e evs h
  = (let* calculatedDate := calculateEventDate tza now (S fuel) e evs in
     match calculatedDate with
     | None => ret None
     | Some eventStart =>
         let* eventEnd := dayAfter tza eventStart in
         ret (Some (eventStart, eventEnd))
     end) h.
Proof. apply exportDates_resolver. Qed.

Lemma exportDates_follows_resolver_witness :
  exportDates 0 clock2024 7 meetup [] []
  = (Normal (Some (2%nat, 3%nat)),
     [Num clock2024; Num (midnight 0 2024 2 1); Num (midnight 0 2024 2 5);
      Num (midnight 0 2024 2 6)]).
Proof.
  rewrite (exportDates_follows_resolver 0 clock2024 7 meetup [] [] ltac:(discriminate)).
  vm_compute. reflexivity.
Defined.

(** ** The CREATED line *)

Lemma replaceClass_plain_app (a s : string) :
  plain a = true ->
  replaceClass (fun c => Ascii.eqb c "-" || Ascii.eqb c ":") EmptyString (a ++ s)
  = (a ++ replaceClass (fun c => Ascii.eqb c "-" || Ascii.eqb c ":") EmptyString s)%string.
Proof.
  induction a as [|c a IH]; [reflexivity|]. cbn [plain]. intros H.
  apply andb_prop in H as [H Ha]. apply andb_prop in H as [Hc _].
  rewrite !append_cons. cbn [replaceClass].
  destruct (Ascii.eqb c "-" || Ascii.eqb c ":"); [discriminate|].
  rewrite (IH Ha). reflexivity.
Qed.

Lemma hd_split_plain_app (a s : string) :
  plain a = true ->
  List.hd EmptyString (split "." (a ++ s))
  = (a ++ List.hd EmptyString (split "." s))%string.
Proof.
  induction a as [|c a IH]; [reflexivity|]. cbn [plain]. intros H.
  apply andb_prop in H as [H Ha]. apply andb_prop in H as [_ Hc].
  rewrite !append_cons. cbn [split].
  destruct (Ascii.eqb c "."); [discriminate|].
  rewrite <- (IH Ha). destruct (split "." (a ++ s)); reflexivity.
Qed.

Lemma plain_digitChar n r : plain (String (digitChar n) r) = plain r.
Proof.
  unfold digitChar.
  destruct n as [|p|p]; try reflexivity.
  do 4 (destruct p as [p|p|]; try reflexivity).
Qed.

Lemma plain_decimal2 k : plain (decimal2 k) = true.
Proof. unfold decimal2. rewrite !plain_digitChar. reflexivity. Qed.

Lemma plain_decimal4 k : plain (decimal4 k) = true.
Proof. unfold decimal4. rewrite !plain_digitChar. apply plain_decimal2. Qed.

Lemma append_nil_r_s (s : string) : (s ++ "")%string = s.
Proof. induction s as [|c s IH]; [reflexivity|]. rewrite append_cons, IH. reflexivity. Qed.

(** What is left of an ISO text with plain fields. *)
Lemma created_strip (a b c d e f g : string) :
  plain a = true -> plain b = true -> plain c = true ->
  plain d = true -> plain e = true -> plain f = true ->
  List.hd EmptyString
    (split "."
       (replaceClass (fun c => Ascii.eqb c "-" || Ascii.eqb c ":") EmptyString
          (a ++ "-" ++ b ++ "-" ++ c ++ "T" ++ d ++ ":" ++ e ++ ":" ++ f ++ "." ++ g)))
  = (a ++ b ++ c ++ "T" ++ d ++ e ++ f)%string.
Proof.
  intros Ha Hb Hc Hd He Hf.
  rewrite (replaceClass_plain_app a _ Ha), !append_cons, !append_nil_l.
  cbn [replaceClass]. change (Ascii.eqb "-" "-" || Ascii.eqb "-" ":") with true.
  cbv iota. rewrite !append_nil_l.
  rewrite (replaceClass_plain_app b _ Hb). cbn [replaceClass].
  change (Ascii.eqb "-" "-" || Ascii.eqb "-" ":") with true.
  cbv iota. rewrite !append_nil_l.
  rewrite (replaceClass_plain_app c _ Hc). cbn [replaceClass].
  change (Ascii.eqb "T" "-" || Ascii.eqb "T" ":") with false. cbv iota.
  rewrite (replaceClass_plain_app d _ Hd). cbn [replaceClass].
  change (Ascii.eqb ":" "-" || Ascii.eqb ":" ":") with true.
  cbv iota. rewrite !append_nil_l.
  rewrite (replaceClass_plain_app e _ He). cbn [replaceClass].
  change (Ascii.eqb ":" "-" || Ascii.eqb ":" ":") with true.
  cbv iota. rewrite !append_nil_l.
  rewrite (replaceClass_plain_app f _ Hf). cbn [replaceClass].
  change (Ascii.eqb "." "-" || Ascii.eqb "." ":") with false. cbv iota.
  rewrite (hd_split_plain_app a _ Ha), (hd_split_plain_app b _ Hb),
    (hd_split_plain_app c _ Hc).
  cbn [split]. change (Ascii.eqb "T" ".") with false. cbv iota.
  assert (forall s, List.hd EmptyString
                      (match split "." s with
                       | piece :: rest => String "T" piece :: rest
                       | [] => [String "T" EmptyString]
                       end)
                    = String "T" (List.hd EmptyString (split "." s))) as HT.
  { intros s. destruct s as [|x s]; [reflexivity|]. cbn [split].
    destruct (Ascii.eqb x "."); [reflexivity|]. destruct (split "." s); reflexivity. }
  rewrite HT.
  rewrite (hd_split_plain_app d _ Hd), (hd_split_plain_app e _ He),
    (hd_split_plain_app f _ Hf).
  cbn [split]. change (Ascii.eqb "." ".") with true. cbv iota. cbn [List.hd].
  rewrite append_nil_r_s. reflexivity.
Qed.

Lemma small_years_checked :
  forallb (fun y => String.eqb (zeroPad 4 y) (decimal4 y))
          (List.map (fun i => 0 + Z.of_nat i) (seq 0 (Z.to_nat 1000))) = true.
Proof. vm_compute. reflexivity. Qed.

Lemma zeroPad_four y : 0 <= y <= 9999 -> zeroPad 4 y = decimal4 y.
Proof.
  intros Hy. destruct (Z.lt_ge_cases y 1000) as [Hs|Hl].
  - apply String.eqb_eq. apply (forall_range _ _ _ small_years_checked y). lia.
  - unfold zeroPad. rewrite numberToString_four_digits by lia. reflexivity.
Qed.

Lemma time_fields_range t :
  0 <= HourFromTime t <= 23 /\ 0 <= MinFromTime t <= 59 /\ 0 <= SecFromTime t <= 59.
Proof. unfold HourFromTime, MinFromTime, SecFromTime. repeat split; div_lia. Qed.

Lemma isoText_four t :
  0 <= YearFromTime t <= 9999 ->
  isoText t
  = (decimal4 (YearFromTime t) ++ "-" ++ decimal2 (MonthFromTime t + 1) ++ "-" ++
     decimal2 (DateFromTime t) ++ "T" ++ decimal2 (HourFromTime t) ++ ":" ++
     decimal2 (MinFromTime t) ++ ":" ++ decimal2 (SecFromTime t) ++ "." ++
     (zeroPad 3 (msFromTime t) ++ "Z"))%string.
Proof.
  intros Hy. unfold isoText, isoYear.
  replace ((0 <=? YearFromTime t) && (YearFromTime t <=? 9999)) with true by lia.
  pose proof (MonthFromTime_range t). pose proof (DateFromTime_range t).
  destruct (time_fields_range t) as (? & ? & ?).
  rewrite (zeroPad_four _ Hy). unfold zeroPad at 1 2 3 4 5.
  rewrite !padStart_two_digits by lia. reflexivity.
Qed.

Lemma formatDateTimeForCreated_valid date (h : heap) t :
  h !! date = Some (Num t) -> 0 <= YearFromTime t <= 9999 ->
  formatDateTimeForCreated date h = (Normal (Some (createdText t)), h).
Proof.
  intros E Hy. unfold formatDateTimeForCreated, toISOString, thisTimeValue, bind, ret.
  rewrite E. change (default NaN (Some (Num t))) with (Num t). cbv iota.
  rewrite (isoText_four t Hy).
  rewrite created_strip by (apply plain_decimal2 || apply plain_decimal4).
  unfold createdText. rewrite !append_assoc_s. reflexivity.
Qed.

(** X15: [formatDateTimeForCreated] writes a valid Date whose UTC year is
    0..9999 as the sixteen characters YYYYMMDDTHHMMSSZ of its UTC date and
    time, without the milliseconds; from the year 10000 on the text starts
    with a plus sign; for an Invalid Date [toISOString] throws. *)
Theorem formatDateTimeForCreated_text date (h : heap) :
  (default NaN (h !! date) = NaN -> formatDateTimeForCreated date h = (Normal None, h)) /\
  (forall t, h !! date = Some (Num t) ->
     (0 <= YearFromTime t <= 9999 ->
      formatDateTimeForCreated date h = (Normal (Some (createdText t)), h) /\
      String.length (createdText t) = 16%nat) /\
     (10000 <= YearFromTime t ->
      exists r, formatDateTimeForCreated date h = (Normal (Some (String "+" r)), h))).
Proof.
  split.
  - intros E. unfold formatDateTimeForCreated, toISOString, thisTimeValue, bind, ret.
    rewrite E. reflexivity.
  - intros t E. split.
    + intros Hy. split; [apply formatDateTimeForCreated_valid; assumption|reflexivity].
    + intros Hy. unfold formatDateTimeForCreated, toISOString, thisTimeValue, bind, ret.
      rewrite E. change (default NaN (Some (Num t))) with (Num t). cbv iota.
      unfold isoText, isoYear.
      replace ((0 <=? YearFromTime t) && (YearFromTime t <=? 9999)) with false by lia.
      replace (0 <=? YearFromTime t) with true by lia.
      cbv zeta. rewrite !append_cons, !append_nil_l. cbn [replaceClass].
      change (Ascii.eqb "+" "-" || Ascii.eqb "+" ":") with false. cbv iota.
      cbn [split]. change (Ascii.eqb "+" ".") with false. cbv iota.
      destruct (split "." _) as [|piece rest]; cbn [List.hd]; rewrite append_cons;
        eexists; reflexivity.
Qed.

Lemma formatDateTimeForCreated_text_witness :
  formatDateTimeForCreated 0%nat [Num 1735129845123]
  = (Normal (Some "20241225T123045Z"%string), [Num 1735129845123]) /\
  formatDateTimeForCreated 0%nat [NaN] = (Normal None, [NaN]).
Proof.
  destruct (formatDateTimeForCreated_text 0%nat [Num 1735129845123]) as (_ & A).
  destruct (A 1735129845123 eq_refl) as (A1 & _).
  destruct (A1 ltac:(vm_compute; split; discriminate)) as (A2 & _).
  destruct (formatDateTimeForCreated_text 0%nat [NaN]) as (B & _).
  split; [rewrite A2; vm_compute; reflexivity|apply B; reflexivity].
Defined.

(** ** The lines of an exported event *)

Lemma formatDateForAllDay_four tza date (h : heap) t y m d :
  h !! date = Some (Num t) -> localDate tza t = (y, m, d) -> 1000 <= y <= 9999 ->
  formatDateForAllDay tza date h
  = (Normal (decimal4 y ++ decimal2 (m + 1) ++ decimal2 d)%string, h).
Proof.
  intros E L Ry. unfold localDate in L. injection L as Hy Hm Hd.
  pose proof (MonthFromTime_range (t + tza)) as Rm.
  pose proof (DateFromTime_range (t + tza)) as Rd.
  unfold formatDateForAllDay.
  rewrite (bind_Normal _ _ _ _ _ (getFullYear_Num tza date h t E)).
  rewrite (bind_Normal _ _ _ _ _ (getMonth_Num tza date h t E)).
  rewrite (bind_Normal _ _ _ _ _ (getDate_Num tza date h t E)).
  cbn [num_add]. rewrite Hy, Hm, Hd.
  rewrite !padStart_two_digits, numberToString_four_digits by lia. reflexivity.
Qed.

Lemma midnight_next tza y m d : midnight tza y m d + msPerDay = midnight tza y m (d + 1).
Proof. unfold midnight, MakeDay. lia. Qed.

Lemma MakeDay_next_month y m :
  0 <= m <= 10 -> MakeDay y m (DaysInMonth y m + 1) = MakeDay y (m + 1) 1.
Proof.
  intros Hm. unfold MakeDay, DaysInMonth.
  replace (m / 12) with 0 by div_lia. replace ((m + 1) / 12) with 0 by div_lia.
  replace (m mod 12) with m by div_lia. replace ((m + 1) mod 12) with (m + 1) by div_lia.
  rewrite Z.add_0_r. lia.
Qed.

Lemma MakeDay_next_year y : MakeDay y 11 (DaysInMonth y 11 + 1) = MakeDay (y + 1) 0 1.
Proof.
  unfold MakeDay, DaysInMonth.
  change (11 / 12) with 0. change (0 / 12) with 0. change (11 mod 12) with 11.
  change (0 mod 12) with 0. change (11 + 1) with 12. rewrite !Z.add_0_r.
  rewrite DayFromYear_succ. cbn [monthStart].
  destruct (DaysInYear_cases y) as [E|E]; rewrite E; cbn [Z.eqb Pos.eqb]; lia.
Qed.

Lemma localDate_next_day tza y m d :
  0 <= m <= 11 -> 1 <= d <= DaysInMonth y m ->
  localDate tza (midnight tza y m (d + 1)) = nextCivilDay y m d.
Proof.
  intros Hm Hd. unfold nextCivilDay.
  destruct (Z.ltb_spec d (DaysInMonth y m)) as [Hlt|Hge].
  - apply localDate_midnight; lia.
  - assert (d = DaysInMonth y m) as -> by lia.
    destruct (Z.ltb_spec m 11) as [Hm'|Hm'].
    + unfold midnight. rewrite MakeDay_next_month by lia.
      pose proof (DaysInMonth_range y (m + 1) ltac:(lia)).
      apply (localDate_midnight tza y (m + 1) 1); lia.
    + assert (m = 11) as -> by lia. unfold midnight. rewrite MakeDay_next_year.
      pose proof (DaysInMonth_range (y + 1) 0 ltac:(lia)).
      apply (localDate_midnight tza (y + 1) 0 1); lia.
Qed.

Lemma nextCivilDay_year y m d : 0 <= m <= 11 -> y <= fst (fst (nextCivilDay y m d)) <= y + 1.
Proof.
  intros Hm. unfold nextCivilDay.
  destruct (d <? DaysInMonth y m); [cbn; lia|]. destruct (m <? 11); cbn; lia.
Qed.

(** ** The day after *)

Lemma DateFromTime_in_month t :
  1 <= DateFromTime t <= DaysInMonth (YearFromTime t) (MonthFromTime t).
Proof.
  pose proof (YearFromDay_spec (Day t)) as S. rewrite DayFromYear_succ in S.
  unfold DateFromTime, DaysInMonth, MonthFromTime, InLeapYear, DayWithinYear, YearFromTime.
  set (y := YearFromDay (Day t)) in *.
  destruct (DaysInYear_cases y) as [E|E]; rewrite E in *; cbn [Z.eqb Pos.eqb];
    repeat match goal with
           | |- context [?a <? ?b] => destruct (Z.ltb_spec a b)
           end;
    repeat match goal with
           | |- context [monthStart ?l (?a + 1)] =>
               let v := eval vm_compute in (a + 1) in change (a + 1) with v
           end;
    cbn [monthStart]; lia.
Qed.

Lemma civil_next_day y m d x :
  0 <= m <= 11 -> 1 <= d <= DaysInMonth y m -> Day x = MakeDay y m (d + 1) ->
  (YearFromTime x, MonthFromTime x, DateFromTime x) = nextCivilDay y m d.
Proof.
  intros Hm Hd HD. unfold nextCivilDay.
  destruct (Z.ltb_spec d (DaysInMonth y m)) as [Hlt|Hge].
  - destruct (civil_of_MakeDay y m (d + 1) x Hm ltac:(lia) HD) as (-> & -> & ->).
    reflexivity.
  - assert (d = DaysInMonth y m) as -> by lia.
    destruct (Z.ltb_spec m 11) as [Hm'|Hm'].
    + rewrite MakeDay_next_month in HD by lia.
      pose proof (DaysInMonth_range y (m + 1) ltac:(lia)).
      destruct (civil_of_MakeDay y (m + 1) 1 x ltac:(lia) ltac:(lia) HD) as (-> & -> & ->).
      reflexivity.
    + assert (m = 11) as -> by lia. rewrite MakeDay_next_year in HD.
      pose proof (DaysInMonth_range (y + 1) 0 ltac:(lia)).
      destruct (civil_of_MakeDay (y + 1) 0 1 x ltac:(lia) ltac:(lia) HD) as (-> & -> & ->).
      reflexivity.
Qed.

(** Under a constant offset the civil day after is a day of time later. *)
Lemma atCivil_day_after tza t :
  atCivil tza t (YearFromTime (t + tza)) (MonthFromTime (t + tza))
    (DateFromTime (t + tza) + 1)
  = t + msPerDay.
Proof.
  unfold atCivil, MakeDate. rewrite MakeDay_roundtrip.
  unfold Day, TimeWithinDay, msPerDay. div_lia.
Qed.

Lemma dayAfterValue_nextDayValue tza v : dayAfterValue tza v = nextDayValue v.
Proof.
  destruct v as [|t]; [reflexivity|]. unfold dayAfterValue, nextDayValue, localDate.
  rewrite atCivil_day_after. reflexivity.
Qed.

(** X13: the Date the export takes as the end of a one-day event is a new
    object on the civil day after the local date of the start, over the
    ends of months and years, at the local time of day of the start.  The
    start object and every other Date stay as they are; an Invalid start
    gives an Invalid end, and so does a start whose day after lies beyond
    the range of time values. *)
Theorem dayAfter_next_day tza eventStart (h : heap) :
  dayAfter tza eventStart h
  = (Normal (length h), h ++ [dayAfterValue tza (default NaN (h !! eventStart))]) /\
  dayAfterValue tza NaN = NaN /\
  (forall t y m d,
     localDate tza t = (y, m, d) ->
     let t' := atCivil tza t y m (d + 1) in
     (Z.abs t' <= maxTime ->
      dayAfterValue tza (Num t) = Num t' /\
      localDate tza t' = nextCivilDay y m d /\
      TimeWithinDay (t' + tza) = TimeWithinDay (t + tza)) /\
     (maxTime < Z.abs t' -> dayAfterValue tza (Num t) = NaN)).
Proof.
  split; [rewrite dayAfterValue_nextDayValue; apply dayAfter_spec|].
  split; [reflexivity|].
  intros t y m d L t'. pose proof L as L'. unfold localDate in L'.
  injection L' as Hy Hm Hd.
  assert (dayAfterValue tza (Num t) = clip t') as V.
  { unfold dayAfterValue. rewrite L. reflexivity. }
  split.
  - intros R. split; [rewrite V; apply clip_in_range, R|].
    assert (t' = t + msPerDay) as Et.
    { subst t' y m d. apply atCivil_day_after. }
    split.
    + unfold localDate. apply civil_next_day.
      * subst m. apply MonthFromTime_range.
      * subst y m d. apply DateFromTime_in_month.
      * rewrite Et. subst y m d. rewrite MakeDay_roundtrip.
        unfold Day, msPerDay. div_lia.
    + rewrite Et. unfold TimeWithinDay, msPerDay. div_lia.
  - intros R. rewrite V. unfold clip, TimeClip.
    destruct (Z.leb_spec (Z.abs t') maxTime); [lia|reflexivity].
Qed.

Lemma dayAfter_next_day_witness :
  dayAfter 0 0%nat [Num (midnight 0 2024 11 31)]
  = (Normal 1%nat, [Num (midnight 0 2024 11 31); Num (midnight 0 2025 0 1)]) /\
  localDate 0 (midnight 0 2025 0 1) = (2025, 0, 1).
Proof.
  destruct (dayAfter_next_day 0 0%nat [Num (midnight 0 2024 11 31)]) as (A & _ & B).
  destruct (B (midnight 0 2024 11 31) 2024 11 31 ltac:(vm_compute; reflexivity)) as (B1 & _).
  destruct (B1 ltac:(vm_compute; discriminate)) as (B2 & B3 & _).
  assert (atCivil 0 (midnight 0 2024 11 31) 2024 11 (31 + 1) = midnight 0 2025 0 1) as E
    by (vm_compute; reflexivity).
  rewrite E in B2, B3. split.
  - rewrite A.
    change (default NaN ([Num (midnight 0 2024 11 31)] !! 0%nat))
      with (Num (midnight 0 2024 11 31)).
    rewrite B2. reflexivity.
  - rewrite B3. vm_compute. reflexivity.
Defined.

Lemma newDate_spec dateParse value (h : heap) :
  newDate dateParse value h = (Normal (length h), h ++ [dateValue dateParse h value]).
Proof. destruct value; reflexivity. Qed.

Lemma dateValue_app dateParse (h c : heap) value t :
  dateValue dateParse h value = Num t -> dateValue dateParse (h ++ c) value = Num t.
Proof.
  destruct value as [|s|d]; cbn [dateValue]; try (intros E; exact E).
  destruct (h !! d) as [v|] eqn:E; [|discriminate].
  rewrite (lookup_app_l_Some _ _ _ _ E). intros H. exact H.
Qed.

Lemma exportLoop_fixed tza now dateParse fuel e rest evs ics (h : heap) Y M D tail tc :
  - msPerDay <= tza <= msPerDay ->
  dateType e = "fixed" ->
  startDate e = DString (decimal4 Y ++ "-" ++ decimal2 M ++ "-" ++ decimal2 D ++ tail) ->
  endsNumber tail -> truthyDate (endDate e) = false ->
  1000 <= Y <= 9998 -> 1 <= M <= 12 -> 1 <= D <= DaysInMonth Y (M - 1) ->
  dateValue dateParse h (createdAt e) = Num tc -> 0 <= YearFromTime tc <= 9999 ->
  exportLoop tza now dateParse fuel (e :: rest) evs ics h
  = exportLoop tza now dateParse fuel rest evs
      (ics ++ eventBlock e
                (decimal4 Y ++ decimal2 M ++ decimal2 D)
                (let '(y', m', d') := nextCivilDay Y (M - 1) D in
                 decimal4 y' ++ decimal2 (m' + 1) ++ decimal2 d')
                (createdText tc))
      (h ++ [Num (midnight tza Y (M - 1) D); Num (midnight tza Y (M - 1) (D + 1)); Num tc]).
Proof.
  intros Ht E Es Htail Hend HY HM HD Hc Hyc.
  cbn [exportLoop].
  assert (exportDates tza now fuel e evs h
          = (Normal (Some (length h, S (length h))),
             h ++ [Num (midnight tza Y (M - 1) D); Num (midnight tza Y (M - 1) (D + 1))]))
    as X.
  { unfold exportDates. rewrite E, Es, Hend.
    change (String.eqb "fixed" "fixed") with true. cbv iota.
    assert (truthyDate (DString (decimal4 Y ++ "-" ++ decimal2 M ++ "-" ++ decimal2 D ++ tail))
            = true) as -> by (unfold decimal4; rewrite append_cons; reflexivity).
    cbn [negb].
    pose proof (parseSimpleDate_date_string tza h Y M D tail Ht ltac:(lia) ltac:(lia)
                  ltac:(pose proof (DaysInMonth_range Y (M - 1) ltac:(lia)); lia) Htail) as P.
    replace (Y <=? 99) with false in P by lia.
    rewrite (bind_Normal _ _ _ _ _ P).
    rewrite (bind_Normal _ _ _ _ _ (dayAfter_spec tza (length h) _)).
    unfold ret. rewrite lookup_last. change (default NaN (Some ?v)) with v.
    cbn [nextDayValue]. rewrite length_app. cbn [length].
    rewrite clip_in_range.
    - rewrite midnight_next, <- app_assoc, Nat.add_1_r. reflexivity.
    - pose proof (midnight_range tza Y (M - 1) D 1 Ht ltac:(lia) ltac:(lia)
                    ltac:(pose proof (DaysInMonth_range Y (M - 1) ltac:(lia)); lia)
                    ltac:(lia)) as R.
      rewrite Z.mul_1_l in R. exact R. }
  rewrite (bind_Normal _ _ _ _ _ X).
  set (h2 := h ++ [Num (midnight tza Y (M - 1) D); Num (midnight tza Y (M - 1) (D + 1))]).
  assert (h2 !! length h = Some (Num (midnight tza Y (M - 1) D))) as L1.
  { subst h2. rewrite lookup_app_r by lia. rewrite Nat.sub_diag. reflexivity. }
  assert (h2 !! S (length h) = Some (Num (midnight tza Y (M - 1) (D + 1)))) as L2.
  { subst h2. rewrite lookup_app_r by lia.
    replace (S (length h) - length h)%nat with 1%nat by lia. reflexivity. }
  rewrite (bind_Normal _ _ _ _ _
             (formatDateForAllDay_four tza _ h2 _ Y (M - 1) D L1
                (localDate_midnight tza Y (M - 1) D ltac:(lia) HD) ltac:(lia))).
  replace (M - 1 + 1) with M by lia.
  pose proof (localDate_next_day tza Y (M - 1) D ltac:(lia) HD) as N.
  pose proof (nextCivilDay_year Y (M - 1) D ltac:(lia)) as Ny.
  destruct (nextCivilDay Y (M - 1) D) as [[y' m'] d']. cbn [fst] in Ny.
  rewrite (bind_Normal _ _ _ _ _
             (formatDateForAllDay_four tza _ h2 _ y' m' d' L2 N ltac:(lia))).
  rewrite (bind_Normal _ _ _ _ _ (newDate_spec dateParse (createdAt e) h2)).
  subst h2. rewrite (dateValue_app dateParse h _ _ tc Hc).
  rewrite (bind_Normal _ _ _ _ _
             (formatDateTimeForCreated_valid _ _ tc (lookup_last _ _) Hyc)).
  rewrite <- app_assoc. reflexivity.
Qed.

(** X16: a fixed event whose start is a string YYYY-MM-DD naming a calendar
    day of a year 1000..9998, without an end date and with a valid creation
    time, adds exactly its eight lines to the export: DTSTART is YYYYMMDD,
    DTEND is the next civil day (rolling over the end of a month and of a
    year), CREATED is the creation time in UTC, and the title and the
    description are written as they are. Three new Date objects are
    allocated and no other is changed. *)
Theorem exportLoop_fixed_event tza now dateParse fuel e rest evs ics (h : heap)
    Y M D tail tc :
  - msPerDay <= tza <= msPerDay ->
  dateType e = "fixed" ->
  startDate e = DString (decimal4 Y ++ "-" ++ decimal2 M ++ "-" ++ decimal2 D ++ tail) ->
  endsNumber tail -> truthyDate (endDate e) = false ->
  1000 <= Y <= 9998 -> 1 <= M <= 12 -> 1 <= D <= DaysInMonth Y (M - 1) ->
  dateValue dateParse h (createdAt e) = Num tc -> 0 <= YearFromTime tc <= 9999 ->
  exportLoop tza now dateParse fuel (e :: rest) evs ics h
  = exportLoop tza now dateParse fuel rest evs
      (ics ++ eventBlock e
                (decimal4 Y ++ decimal2 M ++ decimal2 D)
                (let '(y', m', d') := nextCivilDay Y (M - 1) D in
                 decimal4 y' ++ decimal2 (m' + 1) ++ decimal2 d')
                (createdText tc))
      (h ++ [Num (midnight tza Y (M - 1) D); Num (midnight tza Y (M - 1) (D + 1)); Num tc]).
Proof. apply exportLoop_fixed. Qed.

Lemma exportLoop_fixed_event_witness :
  fst (exportLoop 0 clock2024 (fun _ => NaN) 0 [countdown] [countdown] [] [])
  = Normal (Some ["BEGIN:VEVENT"; "UID:31@calendarsync.com";
                  "DTSTART;VALUE=DATE:20241231"; "DTEND;VALUE=DATE:20250101";
                  "SUMMARY:Countdown"; ""; "CREATED:19700101T000000Z";
                  "END:VEVENT"]%string).
Proof.
  assert (- msPerDay <= 0 <= msPerDay) as H1 by (unfold msPerDay; lia).
  rewrite (exportLoop_fixed_event 0 clock2024 (fun _ => NaN) 0 countdown [] [countdown] [] []
             2024 12 31 EmptyString 0 H1 eq_refl eq_refl I eq_refl
             ltac:(lia) ltac:(lia) ltac:(vm_compute; split; discriminate)
             eq_refl ltac:(vm_compute; split; discriminate)).
  vm_compute. reflexivity.
Defined.

(** ** Failure of the export *)

Lemma exportLoop_app tza now dateParse fuel (a b evs : list Event) ics (h : heap) :
  exportLoop tza now dateParse fuel (a ++ b) evs ics h
  = match exportLoop tza now dateParse fuel a evs ics h with
    | (Normal (Some ics'), h') => exportLoop tza now dateParse fuel b evs ics' h'
    | r => r
    end.
Proof.
  revert ics h. induction a as [|e a IH]; intros ics h; [reflexivity|].
  cbn [app exportLoop]. unfold bind.
  destruct (exportDates tza now fuel e evs h) as [[[[s en]|]|err|] h1]; cbv beta iota;
    [|apply IH|reflexivity..].
  destruct (formatDateForAllDay tza s h1) as [[dtstart|err|] h2]; cbv beta iota;
    [|reflexivity..].
  destruct (formatDateForAllDay tza en h2) as [[dtend|err|] h3]; cbv beta iota;
    [|reflexivity..].
  destruct (newDate dateParse (createdAt e) h3) as [[c|err|] h4]; cbv beta iota;
    [|reflexivity..].
  destruct (formatDateTimeForCreated c h4) as [[[created|]|err|] h5]; cbv beta iota;
    [apply IH|reflexivity..].
Qed.

Lemma formatDateForAllDay_total tza date (h : heap) :
  exists text, formatDateForAllDay tza date h = (Normal text, h).
Proof.
  unfold formatDateForAllDay. destruct (default NaN (h !! date)) as [|t] eqn:V.
  - rewrite (bind_Normal _ _ _ _ _ (getter_NaN tza YearFromTime date h V)).
    rewrite (bind_Normal _ _ _ _ _ (getter_NaN tza MonthFromTime date h V)).
    rewrite (bind_Normal _ _ _ _ _ (getter_NaN tza DateFromTime date h V)).
    eexists. reflexivity.
  - assert (h !! date = Some (Num t)) as E.
    { destruct (h !! date) as [v|]; simpl in V; congruence. }
    rewrite (bind_Normal _ _ _ _ _ (getFullYear_Num tza date h t E)).
    rewrite (bind_Normal _ _ _ _ _ (getMonth_Num tza date h t E)).
    rewrite (bind_Normal _ _ _ _ _ (getDate_Num tza date h t E)).
    eexists. reflexivity.
Qed.

(** X17: one event is enough to fail the whole export: if the loop reaches
    an event that is not skipped and whose creation time is an Invalid Date,
    [toISOString] throws and the response is the failure, whatever the
    events before and after it are. *)
Theorem exportICS_invalid_createdAt tza now dateParse fuel before e after
    ics (h h1 h2 : heap) s en :
  exportLoop tza now dateParse fuel before (before ++ e :: after) icsHeader h
  = (Normal (Some ics), h1) ->
  exportDates tza now fuel e (before ++ e :: after) h1 = (Normal (Some (s, en)), h2) ->
  dateValue dateParse h2 (createdAt e) = NaN ->
  exportICS tza now dateParse fuel (before ++ e :: after) h
  = (Normal ExportFailed, h2 ++ [NaN]).
Proof.
  intros Hb Hd Hc. unfold exportICS, try_catch. unfold bind at 1.
  rewrite exportLoop_app, Hb. cbn [exportLoop].
  rewrite (bind_Normal _ _ _ _ _ Hd).
  destruct (formatDateForAllDay_total tza s h2) as (dtstart & F1).
  destruct (formatDateForAllDay_total tza en h2) as (dtend & F2).
  rewrite (bind_Normal _ _ _ _ _ F1), (bind_Normal _ _ _ _ _ F2).
  rewrite (bind_Normal _ _ _ _ _ (newDate_spec dateParse (createdAt e) h2)), Hc.
  unfold formatDateTimeForCreated, toISOString, thisTimeValue, bind, ret.
  rewrite lookup_last. reflexivity.
Qed.

Lemma exportICS_invalid_createdAt_witness :
  fst (exportICS 0 clock2024 (fun _ => NaN) 0 [undated; countdown] []) = Normal ExportFailed.
Proof.
  pose proof (exportICS_invalid_createdAt 0 clock2024 (fun _ => NaN) 0 [] undated [countdown]
                icsHeader [] [] [Num (midnight 0 2024 11 31); Num (midnight 0 2024 11 32)]
                0%nat 1%nat eq_refl ltac:(vm_compute; reflexivity) eq_refl) as W.
  cbn [app] in W. rewrite W. reflexivity.
Defined.

(** * Properties of the client's resolver *)

Lemma while_forever fuel (cond : JS bool) (body : JS Datatypes.unit) :
  (forall h : heap, cond h = (Normal true, h)) -> total body ->
  forall h : heap, exists h', while fuel cond body h = (Diverge, h').
Proof.
  intros Hc Hb. induction fuel as [|fuel IH]; intros h.
  - exists h. reflexivity.
  - cbn [while]. rewrite (bind_Normal _ _ _ _ _ (Hc h)).
    destruct (Hb h) as ([] & h1 & Eb). rewrite (bind_Normal _ _ _ _ _ Eb).
    apply IH.
Qed.

Lemma getter_heap tza f d (h : heap) : exists v, getter tza f d h = (Normal v, h).
Proof.
  unfold getter, thisTimeValue, bind, ret.
  destruct (default NaN (h !! d)); eexists; reflexivity.
Qed.

Lemma client_nth_null_diverges tza now fuel n mon y (h : heap) :
  exists h', Client.calculateNthDate tza now fuel n None mon (Some y) h = (Diverge, h').
Proof.
  unfold Client.calculateNthDate.
  rewrite (bind_Normal _ _ _ _ _ (eq_refl : ret y h = (Normal y, h))).
  destruct (total_newDateYMD tza y (Num (mon - 1)) (Num 1) h) as (firstDay & h1 & E1).
  rewrite (bind_Normal _ _ _ _ _ E1).
  destruct (total_newDateCopy firstDay h1) as (date & h2 & E2).
  rewrite (bind_Normal _ _ _ _ _ E2).
  destruct (while_forever fuel
              (let* wd := getDay tza date in ret (Client.strict_ne_nullable wd None))
              (let* dt := getDate tza date in setDate tza date (num_add dt 1))) with (h := h2)
    as (h3 & E3).
  - intros h'. destruct (getter_heap tza WeekDay date h') as (v & Ev).
    unfold getDay. rewrite (bind_Normal _ _ _ _ _ Ev). reflexivity.
  - apply total_bind; [apply total_getter|intros; apply total_setDate].
  - exists h3. rewrite (bind_Diverge _ _ _ _ E3). reflexivity.
Qed.

Lemma client_null_weekday_diverges tza now dateParse e evs n mon :
  dateType e = "nth" -> nthOccurrence e = Some n -> n <> 0 ->
  month e = Some mon -> mon <> 0 -> dayOfWeek e = None ->
  forall fuel (h : heap),
    fst (Client.calculateEventDate tza now dateParse fuel e evs h) = Diverge.
Proof.
  intros E En Hn Em Hm Ed fuel h.
  destruct fuel as [|fuel]; [reflexivity|].
  cbn [Client.calculateEventDate]. rewrite E, En, Em, Ed.
  change (String.eqb "nth" "fixed") with false.
  change (String.eqb "nth" "nth") with true. cbv iota.
  assert (truthyNum (Some n) = Some n) as -> by (destruct n; [lia|reflexivity..]).
  assert (truthyNum (Some mon) = Some mon) as -> by (destruct mon; [lia|reflexivity..]).
  assert (total (match truthyNum (baseYear e) with
                 | Some y => ret (Num y)
                 | None => let* d := newDateNow now in getFullYear tza d
                 end)) as T.
  { destruct (truthyNum (baseYear e)); [apply total_ret|].
    apply total_bind; [apply total_alloc|intros; apply total_getter]. }
  destruct (T h) as (y & h1 & Ey).
  destruct (client_nth_null_diverges tza now fuel n mon y h1) as (h2 & Ediv).
  unfold try_catch. rewrite (bind_Normal _ _ _ _ _ Ey), (bind_Diverge _ _ _ _ Ediv).
  reflexivity.
Qed.

(** C3 fails on the client's copy of the resolver, at the example the claim
    gives: the nth event [noWeekday] has [dayOfWeek = null], and the client
    never returns from it, under every time zone, clock, snapshot and heap
    and with every fuel, where the server returns [null] and touches no
    Date.  The server's guard compares the weekday with [null] and with
    [undefined]; the client's compares it with [undefined] only. *)
Theorem null_weekday_hangs_the_client tza now dateParse evs (h : heap) :
  dateType noWeekday = "nth" /\ dayOfWeek noWeekday = None /\
  (forall fuel,
     fst (Client.calculateEventDate tza now dateParse fuel noWeekday evs h) = Diverge) /\
  (forall fuel,
     calculateEventDate tza now (S fuel) noWeekday evs h = (Normal None, h)).
Proof.
  split; [reflexivity|]. split; [reflexivity|]. split.
  - intros fuel.
    apply (client_null_weekday_diverges tza now dateParse noWeekday evs 2 3);
      first [reflexivity | lia].
  - intros fuel. apply missing_nth; [reflexivity|]. right. left. reflexivity.
Qed.

(** X18: on the client an nth event whose weekday is null never resolves:
    the weekday is only compared with [undefined], so [calculateNthDate]
    scans for a day whose weekday is null and no fuel suffices; the server
    returns null for the same event. *)
Theorem client_null_weekday_never_returns tza now dateParse e evs n mon :
  dateType e = "nth" -> nthOccurrence e = Some n -> n <> 0 ->
  month e = Some mon -> mon <> 0 -> dayOfWeek e = None ->
  forall fuel (h : heap),
    fst (Client.calculateEventDate tza now dateParse fuel e evs h) = Diverge /\
    calculateEventDate tza now (S fuel) e evs h = (Normal None, h).
Proof.
  intros E En Hn Em Hm Ed fuel h. split.
  - apply (client_null_weekday_diverges tza now dateParse e evs n mon); assumption.
  - apply missing_nth; [exact E|]. right. left. exact Ed.
Qed.

Lemma client_null_weekday_never_returns_witness :
  fst (Client.calculateEventDate 0 clock2024 (fun _ => NaN) 1000 noWeekday [] []) = Diverge /\
  calculateEventDate 0 clock2024 1000 noWeekday [] [] = (Normal None, []).
Proof.
  destruct (client_null_weekday_never_returns 0 clock2024 (fun _ => NaN) noWeekday [] 2 3
              eq_refl eq_refl ltac:(lia) eq_refl ltac:(lia) eq_refl 999 []) as (_ & B).
  destruct (client_null_weekday_never_returns 0 clock2024 (fun _ => NaN) noWeekday [] 2 3
              eq_refl eq_refl ltac:(lia) eq_refl ltac:(lia) eq_refl 1000 []) as (A & _).
  split; [exact A|exact B].
Defined.

(** X19: on the client an invalid unit is an exception, not null: when the
    referenced event resolves to a date and the unit is none of the four,
    [calculateEventDate] throws the error of [calculateRelativeDate], which
    only the server catches. *)
Theorem client_invalid_unit_throws tza now dateParse fuel e evs r unit rd (h h1 : heap) :
  reference evs e = Some r -> relativeUnit e = Some unit ->
  unit <> "days" -> unit <> "weeks" -> unit <> "months" -> unit <> "years" ->
  Client.calculateEventDate tza now dateParse fuel r evs h = (Normal (Some rd), h1) ->
  exists h',
    Client.calculateEventDate tza now dateParse (S fuel) e evs h
    = (Throw (InvalidUnit unit), h').
Proof.
  intros R Eu U1 U2 U3 U4 Er. unfold reference in R.
  destruct (String.eqb_spec (dateType e) "relative") as [E|]; [|discriminate].
  cbn [Client.calculateEventDate]. rewrite E.
  change (String.eqb "relative" "fixed") with false.
  change (String.eqb "relative" "nth") with false.
  change (String.eqb "relative" "relative") with true. cbv iota.
  destruct (truthyStr (relativeEventName e)) as [name|]; [|discriminate].
  destruct (truthyNum (relativePeriod e)) as [period|]; [|discriminate].
  destruct (truthyStr (relativeUnit e)) as [unit'|] eqn:Tu; [|discriminate].
  destruct (truthyStr (relativeDirection e)) as [direction|]; [|discriminate].
  rewrite R. rewrite (bind_Normal _ _ _ _ _ Er).
  assert (unit' = unit) as ->.
  { destruct (truthyStr_Some _ _ Tu) as [Tu' _]. congruence. }
  destruct (calculateRelativeDate_invalid_unit tza rd period unit direction h1 U1 U2 U3 U4)
    as (h' & X).
  exists h'. rewrite (bind_Throw _ _ _ _ _ X). reflexivity.
Qed.

Lemma client_invalid_unit_throws_witness :
  exists h',
    Client.calculateEventDate 0 clock2024 (fun _ => Num 0) 2 fortnightly [kickoff] []
    = (Throw (InvalidUnit "fortnights"), h').
Proof.
  apply (client_invalid_unit_throws 0 clock2024 (fun _ => Num 0) 1 fortnightly [kickoff]
           kickoff "fortnights" 0%nat [] [Num 0] eq_refl eq_refl
           ltac:(discriminate) ltac:(discriminate) ltac:(discriminate) ltac:(discriminate)
           eq_refl).
Defined.

(** ** Where client and server agree *)

Lemma calculateRelativeDate_valid_unit tza rd period unit direction (h : heap) :
  validUnit unit = true ->
  exists d h', calculateRelativeDate tza rd period unit direction h = (Normal d, h').
Proof.
  intros V.
  destruct (calculateRelativeDate_completes tza rd period unit direction h)
    as [X|(h' & X)]; [exact X|].
  exfalso. revert X. unfold calculateRelativeDate, validUnit in *.
  destruct (total_newDateCopy rd h) as (result & h1 & E).
  rewrite (bind_Normal _ _ _ _ _ E).
  set (k := if String.eqb direction "before" then -1 else 1).
  assert (forall (m : JS Datatypes.unit), total m ->
            (m ;;; ret result) h1 <> (Throw (InvalidUnit unit), h')) as T.
  { intros m Hm. destruct (Hm h1) as (a & h2 & Em).
    rewrite (bind_Normal _ _ _ _ _ Em). discriminate. }
  destruct (String.eqb unit "days").
  { apply T, total_bind; [apply total_getter|intros; apply total_setDate]. }
  destruct (String.eqb unit "weeks").
  { apply T, total_bind; [apply total_getter|intros; apply total_setDate]. }
  destruct (String.eqb unit "months").
  { apply T, total_bind; [apply total_getter|intros; apply total_setMonth]. }
  destruct (String.eqb unit "years").
  { apply T, total_bind; [apply total_getter|intros; apply total_setFullYear]. }
  discriminate V.
Qed.

Lemma client_agrees tza now dateParse evs :
  forallb sameOnClient evs = true ->
  forall fuel e (h : heap),
    sameOnClient e = true ->
    Client.calculateEventDate tza now dateParse fuel e evs h
    = calculateEventDate tza now fuel e evs h.
Proof.
  intros Hevs fuel. induction fuel as [|fuel IH]; intros e h He; [reflexivity|].
  cbn [Client.calculateEventDate calculateEventDate]. unfold sameOnClient in He.
  destruct (String.eqb (dateType e) "fixed").
  { destruct (startDate e) as [|[|c s]|d]; try reflexivity. discriminate He. }
  destruct (String.eqb (dateType e) "nth").
  { destruct (dayOfWeek e) as [dow|]; [|discriminate He].
    destruct (truthyNum (nthOccurrence e)); [|reflexivity].
    destruct (truthyNum (month e)); reflexivity. }
  destruct (String.eqb (dateType e) "relative"); [|reflexivity].
  destruct (truthyStr (relativeEventName e)) as [name|]; [|reflexivity].
  destruct (truthyNum (relativePeriod e)) as [period|]; [|reflexivity].
  destruct (truthyStr (relativeUnit e)) as [unit|] eqn:Tu; [|reflexivity].
  destruct (truthyStr (relativeDirection e)) as [direction|]; [|reflexivity].
  destruct (find _ evs) as [r|] eqn:F; [|reflexivity].
  assert (sameOnClient r = true) as Hr.
  { apply find_some in F as [F _]. rewrite forallb_forall in Hevs. apply Hevs, F. }
  unfold bind at 1 3. rewrite (IH r h Hr).
  destruct (calculateEventDate tza now fuel r evs h) as [[[rd|]|err|] h1]; try reflexivity.
  destruct (truthyStr_Some _ _ Tu) as [Tu' _]. rewrite Tu' in He.
  destruct (calculateRelativeDate_valid_unit tza rd period unit direction h1 He)
    as (d & h2 & X).
  unfold try_catch. rewrite !(bind_Normal _ _ _ _ _ X). reflexivity.
Qed.

(** X20: where every event has a fixed start that is not a string, a
    weekday if it is an nth event and one of the four units if it is a
    relative event, the resolver of the client and the resolver of the
    server return the same result and leave the same Date objects. *)
Theorem client_server_agree tza now dateParse fuel e evs (h : heap) :
  sameOnClient e = true -> forallb sameOnClient evs = true ->
  Client.calculateEventDate tza now dateParse fuel e evs h
  = calculateEventDate tza now fuel e evs h.
Proof. intros He Hevs. apply client_agrees; assumption. Qed.

Lemma client_server_agree_witness :
  Client.calculateEventDate 0 clock2024 (fun _ => NaN) 9 freeze [release; meetup] [Num clock2025]
  = calculateEventDate 0 clock2024 9 freeze [release; meetup] [Num clock2025].
Proof.
  apply (client_server_agree 0 clock2024 (fun _ => NaN) 9 freeze [release; meetup]
           [Num clock2025] eq_refl eq_refl).
Defined.

(** * Properties of the client's calendar file *)

Lemma oneLine_cons c s : oneLine (String c s)
  = negb (Ascii.eqb c CR) && negb (Ascii.eqb c LF) && oneLine s.
Proof.
  unfold oneLine. cbn [noChar].
  destruct (Ascii.eqb c CR), (Ascii.eqb c LF), (noChar CR s), (noChar LF s); reflexivity.
Qed.

Lemma oneLine_app a b : oneLine a = true -> oneLine b = true -> oneLine (a ++ b) = true.
Proof.
  unfold oneLine. intros Ha Hb.
  apply andb_prop in Ha as [Ha1 Ha2]. apply andb_prop in Hb as [Hb1 Hb2].
  rewrite !noChar_app by assumption. reflexivity.
Qed.

Lemma oneLine_digitChar n r : oneLine (String (digitChar n) r) = oneLine r.
Proof.
  rewrite oneLine_cons. unfold digitChar.
  destruct n as [|p|p]; try reflexivity.
  do 4 (destruct p as [p|p|]; try reflexivity).
Qed.

Lemma oneLine_digitsOf fuel n acc : oneLine acc = true -> oneLine (digitsOf fuel n acc) = true.
Proof.
  revert n acc. induction fuel as [|fuel IH]; intros n acc H; [exact H|].
  cbn [digitsOf]. destruct (n <? 10).
  - rewrite oneLine_digitChar. exact H.
  - apply IH. rewrite oneLine_digitChar. exact H.
Qed.

Lemma oneLine_numberToString x : oneLine (numberToString x) = true.
Proof.
  destruct x as [|[|p|p]]; try reflexivity; cbn [numberToString].
  - apply oneLine_digitsOf. reflexivity.
  - rewrite oneLine_cons. cbn [negb andb]. change (Ascii.eqb "-" CR) with false.
    change (Ascii.eqb "-" LF) with false. apply oneLine_digitsOf. reflexivity.
Qed.

Lemma oneLine_padStart n s : oneLine s = true -> oneLine (padStart n "0" s) = true.
Proof.
  intros H. unfold padStart. apply oneLine_app; [|exact H].
  induction (n - String.length s)%nat as [|k IH]; [reflexivity|].
  cbn [repeatChar]. rewrite oneLine_cons. exact IH.
Qed.

Lemma oneLine_zeroPad n v : oneLine (zeroPad n v) = true.
Proof. apply oneLine_padStart, oneLine_numberToString. Qed.

Lemma oneLine_formatDateForAllDay tza date (h h' : heap) text :
  formatDateForAllDay tza date h = (Normal text, h') -> oneLine text = true.
Proof.
  unfold formatDateForAllDay.
  destruct (getter_heap tza YearFromTime date h) as (y & Ey).
  destruct (getter_heap tza MonthFromTime date h) as (m & Em).
  destruct (getter_heap tza DateFromTime date h) as (d & Ed).
  rewrite (bind_Normal _ _ _ _ _ Ey), (bind_Normal _ _ _ _ _ Em), (bind_Normal _ _ _ _ _ Ed).
  intros [= <- _].
  apply oneLine_app; [apply oneLine_numberToString|].
  apply oneLine_app; apply oneLine_padStart, oneLine_numberToString.
Qed.

Lemma oneLine_replaceClass class s :
  oneLine s = true -> oneLine (replaceClass class EmptyString s) = true.
Proof.
  induction s as [|c s IH]; [reflexivity|]. rewrite oneLine_cons. intros H.
  apply andb_prop in H as [Hc Hs]. cbn [replaceClass]. destruct (class c).
  - rewrite append_nil_l. apply IH, Hs.
  - rewrite oneLine_cons, Hc. apply IH, Hs.
Qed.

Lemma hd_split_cons sep c s :
  List.hd EmptyString (split sep (String c s))
  = if Ascii.eqb c sep then EmptyString else String c (List.hd EmptyString (split sep s)).
Proof.
  cbn [split]. destruct (Ascii.eqb c sep); [reflexivity|].
  destruct (split sep s); reflexivity.
Qed.

Lemma oneLine_hd_split sep s :
  oneLine s = true -> oneLine (List.hd EmptyString (split sep s)) = true.
Proof.
  induction s as [|c s IH]; [reflexivity|]. rewrite oneLine_cons. intros H.
  apply andb_prop in H as [Hc Hs]. rewrite hd_split_cons.
  destruct (Ascii.eqb c sep); [reflexivity|]. rewrite oneLine_cons, Hc. apply IH, Hs.
Qed.

Lemma oneLine_isoText t : oneLine (isoText t) = true.
Proof.
  unfold isoText.
  assert (oneLine (isoYear (YearFromTime t)) = true) as Hy.
  { unfold isoYear. destruct (_ && _); [apply oneLine_zeroPad|].
    cbv zeta. apply oneLine_app; [destruct (0 <=? _); reflexivity|apply oneLine_zeroPad]. }
  repeat (apply oneLine_app; [first [exact Hy | apply oneLine_zeroPad | reflexivity]|]).
  reflexivity.
Qed.

Lemma oneLine_formatDateTimeForCreated date (h h' : heap) text :
  formatDateTimeForCreated date h = (Normal (Some text), h') -> oneLine text = true.
Proof.
  unfold formatDateTimeForCreated, toISOString, thisTimeValue, bind, ret.
  destruct (default NaN (h !! date)) as [|t]; [discriminate|].
  intros [= <- _]. apply oneLine_app; [|reflexivity].
  apply oneLine_hd_split, oneLine_replaceClass, oneLine_isoText.
Qed.

Lemma oneLine_escapeICSValue value : oneLine (escapeICSValue value) = true.
Proof.
  rewrite escapeICSValue_escapeEach.
  induction value as [|c r IH]; [reflexivity|]. cbn [escapeEach].
  apply oneLine_app; [|exact IH].
  destruct (escapeChar_cases c) as [(x & E & Hx & _)|(E & _ & N1 & N2)]; rewrite E.
  - destruct Hx as [-> | [-> | [-> | [-> | ->]]]]; reflexivity.
  - rewrite oneLine_cons. apply Ascii.eqb_neq in N1, N2. rewrite N1, N2. reflexivity.
Qed.

Lemma oneLine_eventLines settings e dtstart dtend created :
  oneLine (id e) = true -> oneLine dtstart = true -> oneLine dtend = true ->
  oneLine created = true ->
  forallb oneLine (eventLines settings e dtstart dtend created) = true.
Proof.
  intros Hi Hs He Hc. unfold eventLines. apply forallb_forall. intros line Hin.
  apply in_app_or in Hin as [Hin|Hin].
  { cbn [In] in Hin.
    destruct Hin as [<-|[<-|[<-|[<-|[<-|[<-|[]]]]]]].
    - reflexivity.
    - apply oneLine_app; [reflexivity|]. apply oneLine_app; [exact Hi|reflexivity].
    - apply oneLine_app; [reflexivity|exact Hs].
    - apply oneLine_app; [reflexivity|exact He].
    - apply oneLine_app; [reflexivity|apply oneLine_escapeICSValue].
    - apply oneLine_app; [reflexivity|exact Hc]. }
  apply in_app_or in Hin as [Hin|Hin].
  { destruct (if includeDescriptions settings then _ else _) as [d|]; [|destruct Hin].
    destruct Hin as [<-|[]]. apply oneLine_app; [reflexivity|apply oneLine_escapeICSValue]. }
  apply in_app_or in Hin as [Hin|Hin].
  { destruct (setReminders settings); [|destruct Hin]. cbn [In] in Hin.
    destruct Hin as [<-|[<-|[<-|[<-|[<-|[]]]]]]; reflexivity. }
  destruct Hin as [<-|[]]. reflexivity.
Qed.

Lemma generateLoop_lines tza now dateParse fuel settings (events : list Event) :
  forall rest icsLines (h h' : heap) lines,
    forallb (fun e => oneLine (id e)) rest = true ->
    forallb oneLine icsLines = true ->
    generateLoop tza now dateParse fuel rest events settings icsLines h
    = (Normal (Some lines), h') ->
    forallb oneLine lines = true /\ exists more, lines = icsLines ++ more.
Proof.
  induction rest as [|e rest IH]; intros icsLines h h' lines Hids Hl.
  - cbn [generateLoop]. intros [= <- _]. split; [exact Hl|].
    exists []. rewrite app_nil_r. reflexivity.
  - cbn [forallb] in Hids. apply andb_prop in Hids as [Hid Hids].
    cbn [generateLoop]. unfold bind.
    destruct (generateDates tza now dateParse fuel e events h) as [[[[s en]|]|err|] h1];
      cbv beta iota; [|apply IH; assumption|discriminate..].
    destruct (formatDateForAllDay tza s h1) as [[dtstart|err|] h2] eqn:F1; cbv beta iota;
      [|discriminate..].
    destruct (formatDateForAllDay tza en h2) as [[dtend|err|] h3] eqn:F2; cbv beta iota;
      [|discriminate..].
    destruct (newDate dateParse (createdAt e) h3) as [[c|err|] h4]; cbv beta iota;
      [|discriminate..].
    destruct (formatDateTimeForCreated c h4) as [[[created|]|err|] h5] eqn:F3;
      cbv beta iota; [|discriminate..].
    intros X. apply IH in X; [| exact Hids |].
    + destruct X as (A & more & B). split; [exact A|].
      eexists. rewrite B, <- app_assoc. reflexivity.
    + rewrite forallb_app, Hl. cbn [andb].
      apply oneLine_eventLines; [exact Hid| | |].
      * exact (oneLine_formatDateForAllDay _ _ _ _ _ F1).
      * exact (oneLine_formatDateForAllDay _ _ _ _ _ F2).
      * exact (oneLine_formatDateTimeForCreated _ _ _ _ F3).
Qed.

(** X21: when the identifiers of the events hold no line break, the file
    [generateICS] returns is a list of lines joined by CR LF in which no
    line holds a carriage return or a line feed: it starts with the five
    lines of the calendar header and ends with END:VCALENDAR, and no title
    or description can end its line and start another property. *)
Theorem generateICS_one_property_per_line tza now dateParse fuel events settings
    (h h' : heap) text :
  forallb (fun e => oneLine (id e)) events = true ->
  generateICS tza now dateParse fuel events settings h = (Normal (Some text), h') ->
  exists body,
    text = join CRLF (icsHeader ++ body ++ ["END:VCALENDAR"%string]) /\
    forallb oneLine (icsHeader ++ body ++ ["END:VCALENDAR"%string]) = true.
Proof.
  intros Hids. unfold generateICS. unfold bind.
  destruct (generateLoop tza now dateParse fuel events events settings icsHeader h)
    as [[[lines|]|err|] h1] eqn:G; cbv beta iota; try discriminate.
  intros [= <- _].
  destruct (generateLoop_lines tza now dateParse fuel settings events events icsHeader
              h h1 lines Hids eq_refl G) as (A & body & ->).
  exists body. rewrite <- app_assoc. split; [reflexivity|].
  rewrite forallb_app in A. apply andb_prop in A as [A1 A2].
  rewrite !forallb_app, A1, A2. reflexivity.
Qed.

Lemma generateICS_one_property_per_line_witness :
  exists text body,
    fst (generateICS 0 clock2024 (fun _ => NaN) 0 [twoLines] withReminders []) = Normal (Some text) /\
    text = join CRLF (icsHeader ++ body ++ ["END:VCALENDAR"%string]) /\
    forallb oneLine (icsHeader ++ body ++ ["END:VCALENDAR"%string]) = true.
Proof.
  assert (exists text h',
            generateICS 0 clock2024 (fun _ => NaN) 0 [twoLines] withReminders []
            = (Normal (Some text), h')) as (text & h' & G).
  { vm_compute. eexists _, _. reflexivity. }
  destruct (generateICS_one_property_per_line 0 clock2024 (fun _ => NaN) 0 [twoLines]
              withReminders [] h' text eq_refl G) as (body & A & B).
  exists text, body. rewrite G. split; [reflexivity|]. split; [exact A|exact B].
Defined.

(** * Properties of the date shown for an event *)

(** X22: [formatEventDate] never shows a date for a relative event: it
    resolves the event against an empty list of events, where no reference
    is found, so the result is always the description of the pattern, no
    Date is created and the locale is never asked. *)
Theorem formatEventDate_relative_never_dated tza now dateParse toLocaleDateString
    fuel e (h : heap) :
  dateType e = "relative" ->
  formatEventDate tza now dateParse toLocaleDateString (S fuel) e h
  = (Normal (relativePattern e), h).
Proof.
  intros E. unfold formatEventDate.
  assert (Client.calculateEventDate tza now dateParse (S fuel) e [] h = (Normal None, h))
    as X.
  { cbn [Client.calculateEventDate]. rewrite E.
    change (String.eqb "relative" "fixed") with false.
    change (String.eqb "relative" "nth") with false.
    change (String.eqb "relative" "relative") with true. cbv iota.
    destruct (truthyStr (relativeEventName e)); [|reflexivity].
    destruct (truthyNum (relativePeriod e)); [|reflexivity].
    destruct (truthyStr (relativeUnit e)); [|reflexivity].
    destruct (truthyStr (relativeDirection e)); reflexivity. }
  rewrite (bind_Normal _ _ _ _ _ X), E.
  change (String.eqb "relative" "nth") with false.
  change (String.eqb "relative" "relative") with true. reflexivity.
Qed.

Lemma formatEventDate_relative_never_dated_witness :
  formatEventDate 0 clock2024 (fun _ => NaN) (fun _ => "12/22/2024"%string) 5 rehearsal []
  = (Normal "3 days before Launch"%string, []).
Proof.
  rewrite (formatEventDate_relative_never_dated 0 clock2024 (fun _ => NaN)
             (fun _ => "12/22/2024"%string) 4 rehearsal [] eq_refl).
  vm_compute. reflexivity.
Defined.
